(** * flair.nn.model: Model, Classifier and DefaultClassifier

    A shallow embedding of [flair/nn/model.py] and the properties of its
    serialisation, evaluation and prediction routines.

    Conventions of the embedding:
    - Python floats are rationals ([Qc]); the numeric kernels of torch and
      sklearn (sigmoid, softmax, the loss functions, the conversion to a
      [FloatTensor], the classification report, [round]) are section
      variables or parameters.
    - Python dicts keyed by strings whose iteration order is irrelevant are
      [gmap string _]; dicts that are iterated ([all_true_values],
      [all_predicted_values]) are association lists in insertion order.
    - Data points are mutable objects shared between caller and callee: they
      live in a heap indexed by object identity and every method that mutates
      them threads the heap.
    - The embeddings of a data point are not part of its state, so
      [store_embeddings] leaves the heap as it is; [num_workers] has no
      effect on what is computed.
    - A Python exception is the [Raise] case of [result]. *)

From stdpp Require Import base numbers option list strings gmap sorting.
From Stdlib Require Import QArith Qcanon DecimalString DecimalNat.

Close Scope Qc_scope.
Close Scope Q_scope.
Open Scope string_scope.
Open Scope list_scope.
Open Scope nat_scope.

(** ** Exceptions *)

Inductive py_exception : Type :=
  | Exception (msg : string)
  | KeyError (key : string)
  | IndexError
  | TypeError
  | ValueError
  | AttributeError (attr : string)
  | NotImplementedError.

Inductive result (A : Type) : Type :=
  | Ok (a : A)
  | Raise (e : py_exception).
Arguments Ok {A} a.
Arguments Raise {A} e.

Definition rbind {A B} (m : result A) (k : A → result B) : result B :=
  match m with
  | Ok a => k a
  | Raise e => Raise e
  end.

#[global] Instance result_ret : MRet result := λ A a, Ok a.
#[global] Instance result_bind : MBind result := λ A B k m, rbind m k.

(** ** flair.data.Dictionary *)

Module Dictionary.

(** Modelled from the spec: the class [flair.data.Dictionary] is imported
    by the module but not part of it.  "Ordered set of unique label
    strings; reserves index 0 for unknown if configured"; a "bidirectional
    mapping between label strings and dense integer indices" that
    "supports an unknown sentinel": a string with no index maps to the
    sentinel index 0. *)
Record t : Type := Build { idx2item : list string }.

Definition new (add_unk : bool) : t :=
  Build (if add_unk then ["<unk>"] else []).

Definition item2idx (d : t) (item : string) : option nat :=
  fst <$> list_find (eq item) (idx2item d).

Definition add_item (d : t) (item : string) : t :=
  match item2idx d item with
  | Some _ => d
  | None => Build (idx2item d ++ [item])
  end.

Definition get_idx_for_item (d : t) (item : string) : nat :=
  default 0 (item2idx d item).

Definition get_items (d : t) : list string := idx2item d.

Definition len (d : t) : nat := length (idx2item d).

Definition get_item_for_index (d : t) (idx : nat) : result string :=
  match idx2item d !! idx with
  | Some item => Ok item
  | None => Raise IndexError
  end.

End Dictionary.

(** ** flair.data.Label and flair.data.DataPoint *)

(** Modelled from the spec: [flair.data.Label] and its subclasses are
    imported, not defined here.  "A Label has: identifier (string uniquely
    addressing the sub-unit being labeled), value (class name), score
    (confidence)"; [is_span] records whether the object is a [SpanLabel],
    the only thing [evaluate] asks about its type. *)
Record Label : Type := mkLabel {
  identifier : string;
  value : string;
  score : Qc;
  is_span : bool;
}.

(** [label_candidate.spawn(value=..., score=...)]: a label for the same
    sub-unit and of the same type as the candidate. *)
Definition spawn (candidate : Label) (v : string) (s : Qc) : Label :=
  {| identifier := identifier candidate; value := v; score := s;
     is_span := is_span candidate |}.

(** Modelled from the spec: a [DataPoint] "owns zero or more Label
    annotations under named categories"; [num_tokens] is what [len] returns
    on it.  Annotations are kept in the order they were added. *)
Record DataPoint : Type := mkDataPoint {
  num_tokens : nat;
  annotations : list (string * Label);
}.

(** Object identities, and the state of every object. *)
Definition loc : Type := nat.
Definition heap : Type := loc → DataPoint.

Definition get_labels (h : heap) (o : loc) (typename : string) : list Label :=
  snd <$> filter (λ a, a.1 = typename) (annotations (h o)).

Definition update (o : loc) (dp : DataPoint) (h : heap) : heap :=
  λ o', if decide (o' = o) then dp else h o'.

Definition remove_labels (o : loc) (typename : string) (h : heap) : heap :=
  update o {| num_tokens := num_tokens (h o);
              annotations := filter (λ a, a.1 ≠ typename) (annotations (h o)) |} h.

Definition add_complex_label (o : loc) (typename : string) (label : Label)
    (h : heap) : heap :=
  update o {| num_tokens := num_tokens (h o);
              annotations := annotations (h o) ++ [(typename, label)] |} h.

(** ** Loops *)

(** [for x in xs: state = body(x, state)], stopping at the first exception. *)
Fixpoint for_each {A S : Type} (xs : list A) (body : A → S → result S) (s : S)
    : result S :=
  match xs with
  | [] => Ok s
  | x :: xs' => s' ← body x s; for_each xs' body s'
  end.

(** [enumerate(xs)]. *)
Definition enumerate {A : Type} (xs : list A) : list (nat * A) :=
  imap pair xs.

(** [DataLoader(dataset, batch_size=n)]: consecutive batches of [n] items,
    the last one possibly shorter.  The fuel is the number of items, which
    bounds the number of batches whenever [n] is positive. *)
Fixpoint batches_fuel {A : Type} (fuel n : nat) (xs : list A) : list (list A) :=
  match fuel, xs with
  | 0, _ | _, [] => []
  | S fuel', _ => take n xs :: batches_fuel fuel' n (drop n xs)
  end.

Definition batches {A : Type} (n : nat) (xs : list A) : list (list A) :=
  batches_fuel (length xs) n xs.

(** [str(n)] of a non-negative integer. *)
Definition str (n : nat) : string := NilZero.string_of_uint (Nat.to_uint n).

Definition newline : string := String (Ascii.ascii_of_nat 10) EmptyString.
Definition tab : string := String (Ascii.ascii_of_nat 9) EmptyString.

(** ** Model *)

Module Model.

(** Values found in the training parameters of a model card.  A live
    optimizer or scheduler has a class and a numeric state; torch gives
    neither of them [__bool__] or [__len__], so both are truthy. *)
Inductive pyvalue : Type :=
  | Live (cls : string) (state : string)
  | Class (cls : string)
  | StateDict (state : string)
  | Plain (v : string).

Definition state_dict (o : pyvalue) : result string :=
  match o with
  | Live _ state => Ok state
  | Class _ => Raise TypeError
  | StateDict _ | Plain _ => Raise (AttributeError "state_dict")
  end.

Definition class_of (o : pyvalue) : pyvalue :=
  match o with
  | Live cls _ => Class cls
  | Class _ => Class "type"
  | StateDict _ => Class "dict"
  | Plain _ => Class "str"
  end.

Definition truthy (o : option pyvalue) : bool :=
  match o with
  | None => false
  | Some (Plain v) => negb (bool_decide (v = EmptyString))
  | Some _ => true
  end.

(** [self.model_card]: the version strings and, when present, the
    [training_parameters] dict. *)
Record ModelCard : Type := mkModelCard {
  versions : gmap string string;
  training_parameters : option (gmap string pyvalue);
}.

(** A model: what [_get_state_dict] returns for it, and its model card when
    the attribute is set. *)
Record t : Type := mkModel {
  _get_state_dict : string;
  model_card : option ModelCard;
}.

(** What [torch.save] is given. *)
Record ModelState : Type := mkModelState {
  state : string;
  saved_model_card : option ModelCard;
}.

(** The snapshot step on one key: remember the live object, store its state
    under [key_state_dict] and its class under [key]. *)
Definition snapshot (key : string) (training_parameters : gmap string pyvalue)
    : result (option pyvalue * gmap string pyvalue) :=
  match training_parameters !! key with
  | Some live =>
      sd ← state_dict live;
      Ok (Some live,
          <[key := class_of live]>
            (<[key +:+ "_state_dict" := StateDict sd]> training_parameters))
  | None => Ok (None, training_parameters)
  end.

Definition restore (key : string) (live : option pyvalue)
    (training_parameters : gmap string pyvalue) : gmap string pyvalue :=
  match live with
  | Some o => if truthy live then <[key := o]> training_parameters
              else training_parameters
  | None => training_parameters
  end.

(** [save]: returns the model as it is after the call and the file that
    was written. *)
Definition save (self : t) (model_file : string)
    : result (t * (string * ModelState)) :=
  let model_state := _get_state_dict self in
  match model_card self with
  | None => Ok (self, (model_file, mkModelState model_state None))
  | Some card =>
      match training_parameters card with
      | None => Ok (self, (model_file, mkModelState model_state (Some card)))
      | Some tp =>
          '(optimizer, tp1) ← snapshot "optimizer" tp;
          '(scheduler, tp2) ← snapshot "scheduler" tp1;
          let written := mkModelState model_state
                           (Some (mkModelCard (versions card) (Some tp2))) in
          let tp3 := restore "optimizer" optimizer tp2 in
          let tp4 := restore "scheduler" scheduler tp3 in
          Ok (mkModel (_get_state_dict self)
                      (Some (mkModelCard (versions card) (Some tp4))),
              (model_file, written))
      end
  end.

(** [_fetch_model]. *)
Definition _fetch_model (model_name : string) : string := model_name.

(** [load], from what [torch.load] reads in the file: the model is built by
    [_init_model_with_state_dict], which the subclass implements, and gets
    the model card of the file when there is one.  Training mode and device
    are not part of the state of a model here. *)
Definition load (_init_model_with_state_dict : ModelState → result t)
    (state : ModelState) : result t :=
  model ← _init_model_with_state_dict state;
  Ok (match saved_model_card state with
      | Some card => mkModel (_get_state_dict model) (Some card)
      | None => model
      end).

End Model.

(** ** flair.training_utils.Result *)

Module Result.

Record t : Type := mk {
  main_score : Qc;
  log_line : string;
  log_header : string;
  detailed_results : string;
  classification_report : gmap string (gmap string Qc);
  loss : Qc;
}.

End Result.

Inductive log_level : Type := INFO | WARNING | ERROR.

(** ** Python dicts in insertion order, collections.Counter *)

Fixpoint dict_get {V : Type} (k : string) (d : list (string * V)) : option V :=
  match d with
  | [] => None
  | (k', v) :: d' => if decide (k = k') then Some v else dict_get k d'
  end.

(** [d[k] = [v]] for a new key, [d[k].append(v)] for a known one. *)
Fixpoint dict_append (k v : string) (d : list (string * list string))
    : list (string * list string) :=
  match d with
  | [] => [(k, [v])]
  | (k', vs) :: d' =>
      if decide (k = k') then (k', vs ++ [v]) :: d'
      else (k', vs) :: dict_append k v d'
  end.

(** [Counter.update(xs)]: one more occurrence of every element of [xs]. *)
Fixpoint counter_add (x : string) (c : list (string * nat)) : list (string * nat) :=
  match c with
  | [] => [(x, 1)]
  | (y, n) :: c' =>
      if decide (x = y) then (y, S n) :: c' else (y, n) :: counter_add x c'
  end.

Definition counter_update (c : list (string * nat)) (xs : list string)
    : list (string * nat) :=
  foldl (λ c x, counter_add x c) c xs.

(** [sorted(xs, key=key, reverse=True)]: by decreasing key, elements of equal
    key in their original order. *)
Fixpoint insert_desc {A : Type} (key : A → nat) (x : A) (sorted : list A) : list A :=
  match sorted with
  | [] => [x]
  | y :: ys =>
      if decide (key y ≤ key x) then x :: y :: ys else y :: insert_desc key x ys
  end.

Definition sorted_desc {A : Type} (key : A → nat) (xs : list A) : list A :=
  foldr (insert_desc key) [] xs.

(** [Counter.most_common()]: by decreasing count, elements of equal count in
    the order they were first counted. *)
Definition most_common (c : list (string * nat)) : list (string * nat) :=
  sorted_desc snd c.

(** ** Classifier *)

Module Classifier.

(** What [self.predict(batch, ..., return_loss=True)] hands back: the loss
    with the number of labels it was summed over, the loss alone, or, when
    [predict] returned early, the list of sentences it was given. *)
Inductive predict_return : Type :=
  | LossAndCount (loss : Qc) (count : nat)
  | LossOnly (loss : Qc)
  | Sentences (sentences : list loc).

(** The variables for computing scores, with the running [sentence_id] and
    the [is_word_level] flag. *)
Record spans : Type := mkSpans {
  all_spans : list string;
  all_true_values : list (string * list string);
  all_predicted_values : list (string * list string);
  sentence_id : nat;
  is_word_level : bool;
}.

Definition no_spans : spans := mkSpans [] [] [] 0 false.

Definition representation (sentence_id : nat) (label : Label) : string :=
  str sentence_id +:+ ": " +:+ identifier label.

(** [gold_label_dictionary and gold_label_dictionary.get_idx_for_item(value)
    == 0]: a dictionary is an object with [__len__], so [None] and the empty
    dictionary are both falsy. *)
Definition is_unknown (gold_label_dictionary : option Dictionary.t) (v : string)
    : bool :=
  match gold_label_dictionary with
  | None => false
  | Some d =>
      negb (bool_decide (Dictionary.len d = 0))
      && bool_decide (Dictionary.get_idx_for_item d v = 0)
  end.

Definition add_span (key : string) (all_spans : list string) : list string :=
  if decide (key ∈ all_spans) then all_spans else all_spans ++ [key].

Definition record_gold (gold_label_dictionary : option Dictionary.t)
    (st : spans) (gold_label : Label) : spans :=
  let key := representation (sentence_id st) gold_label in
  let v := if is_unknown gold_label_dictionary (value gold_label)
           then "<unk>" else value gold_label in
  {| all_spans := add_span key (all_spans st);
     all_true_values := dict_append key v (all_true_values st);
     all_predicted_values := all_predicted_values st;
     sentence_id := sentence_id st;
     is_word_level := is_word_level st || is_span gold_label |}.

Definition record_predicted (st : spans) (predicted_span : Label) : spans :=
  let key := representation (sentence_id st) predicted_span in
  {| all_spans := add_span key (all_spans st);
     all_true_values := all_true_values st;
     all_predicted_values :=
       dict_append key (value predicted_span) (all_predicted_values st);
     sentence_id := sentence_id st;
     is_word_level := is_word_level st |}.

Definition next_sentence (st : spans) : spans :=
  {| all_spans := all_spans st;
     all_true_values := all_true_values st;
     all_predicted_values := all_predicted_values st;
     sentence_id := S (sentence_id st);
     is_word_level := is_word_level st |}.

(** The body of [for datapoint in batch] that gets the gold and the
    predicted labels of one data point. *)
Definition collect_datapoint (gold_label_type : string)
    (gold_label_dictionary : option Dictionary.t) (h : heap)
    (st : spans) (datapoint : loc) : spans :=
  let st1 := foldl (record_gold gold_label_dictionary) st
               (get_labels h datapoint gold_label_type) in
  let st2 := foldl record_predicted st1 (get_labels h datapoint "predicted") in
  next_sentence st2.

(** The evaluation dictionary: "O", then every gold value, then every
    predicted value. *)
Definition add_all_values (d : Dictionary.t) (values : list (string * list string))
    : Dictionary.t :=
  foldl (λ d kv, foldl Dictionary.add_item d kv.2) d values.

Definition evaluation_label_dictionary (st : spans) : Dictionary.t :=
  let d := Dictionary.add_item (Dictionary.new false) "O" in
  add_all_values (add_all_values d (all_true_values st)) (all_predicted_values st).

(** [np.zeros(len(dictionary))] with a 1 at the index of every value. *)
Definition indicator (d : Dictionary.t) (values : list string) : list nat :=
  foldl (λ row v, <[Dictionary.get_idx_for_item d v := 1]> row)
        (replicate (Dictionary.len d) 0) values.

Definition values_or_O (span : string) (values : list (string * list string))
    : list string :=
  default ["O"] (dict_get span values).

Definition y_true (st : spans) : list (list nat) :=
  (λ span, indicator (evaluation_label_dictionary st)
             (values_or_O span (all_true_values st))) <$> all_spans st.

Definition y_pred (st : spans) : list (list nat) :=
  (λ span, indicator (evaluation_label_dictionary st)
             (values_or_O span (all_predicted_values st))) <$> all_spans st.

Definition chain_values (values : list (string * list string)) : list string :=
  concat (snd <$> values).

Definition label_counter (st : spans) : list (string * nat) :=
  counter_update (counter_update [] (chain_values (all_true_values st)))
                 (chain_values (all_predicted_values st)).

(** The classes that are scored: [target_names] with their [labels]. *)
Definition targets (exclude_labels : list string) (st : spans)
    : list (string * nat) :=
  (λ nc, (nc.1, Dictionary.get_idx_for_item (evaluation_label_dictionary st) nc.1))
    <$> filter (λ nc, nc.1 ≠ "O" ∧ nc.1 ∉ exclude_labels)
          (most_common (label_counter st)).

(** The evaluation numbers, as they stand after the branch on the number of
    labels found. *)
Record numbers : Type := mkNumbers {
  accuracy_score : Qc;
  precision_score : Qc;
  recall_score : Qc;
  micro_f_score : Qc;
  macro_f_score : Qc;
  main_score : Qc;
  classification_report : string;
  classification_report_dict : gmap string (gmap string Qc);
}.

Definition no_labels_message : string :=
  "ACHTUNG! No gold labels and no all_predicted_values found! Could be an "
  +:+ "error in your corpus or how you initialize the trainer!".

Definition zero_numbers : numbers :=
  mkNumbers 0%Qc 0%Qc 0%Qc 0%Qc 0%Qc 0%Qc EmptyString ∅.

(** The state of the loop over the batches. *)
Record loop_state : Type := mkLoop {
  objects : heap;
  eval_loss : Qc;
  average_over : nat;
  found : spans;
  lines : list string;
}.

(** What a call leaves behind: the returned [Result], the records sent to the
    logger, the file written when [out_path] is set, and the data points. *)
Record outcome : Type := mkOutcome {
  returned : Result.t;
  logged : list (log_level * string);
  written : option (string * string);
  datapoints : heap;
}.

(** [if out_path:] a path that was not given is falsy, and so is the empty
    string; a [Path] object is always truthy and never renders as the empty
    string. *)
Definition path_is_set (out_path : option string) : bool :=
  match out_path with
  | Some path => negb (bool_decide (path = EmptyString))
  | None => false
  end.

Section Evaluate.

(** [self.predict], implemented by the subclass: it may add labels to the
    data points and may raise. *)
Variable predict : heap → list loc → result (heap * predict_return).

(** The printout of one data point when [out_path] is set: the lines it
    produces and, for word-level output, the tags it sets on the tokens. *)
Variable printout : bool → string → heap → loc → heap * list string.

(** sklearn.metrics, [round(_, 4)] and the formatting of a float. *)
Variable sklearn_classification_report :
  list (list nat) → list (list nat) → list string → list nat → string.
Variable sklearn_classification_report_dict :
  list (list nat) → list (list nat) → list string → list nat
  → gmap string (gmap string Qc).
Variable sklearn_accuracy_score : list (list nat) → list (list nat) → Qc.
Variable round4 : Qc → Qc.
Variable format_float : Qc → string.

Definition report_entry (report : gmap string (gmap string Qc))
    (group metric : string) : result Qc :=
  match report !! group with
  | None => Raise (KeyError group)
  | Some row =>
      match row !! metric with
      | None => Raise (KeyError metric)
      | Some x => Ok x
      end
  end.

Definition add_loss (loss_and_count : predict_return) (eval_loss : Qc)
    (average_over : nat) : result (Qc * nat) :=
  match loss_and_count with
  | LossAndCount loss count => Ok ((eval_loss + loss)%Qc, average_over + count)
  | LossOnly loss => Ok ((eval_loss + loss)%Qc, average_over)
  | Sentences _ => Raise TypeError
  end.

Definition printout_batch (is_word_level : bool) (gold_label_type : string)
    (batch : list loc) (h : heap) (lines : list string) : heap * list string :=
  foldl (λ acc datapoint,
           let '(h', new_lines) := printout is_word_level gold_label_type acc.1 datapoint in
           (h', acc.2 ++ new_lines))
        (h, lines) batch.

(** The body of [for batch in data_loader]. *)
Definition batch_step (gold_label_type : string) (out_path : option string)
    (gold_label_dictionary : option Dictionary.t)
    (batch : list loc) (st : loop_state) : result loop_state :=
  let h1 := foldl (λ h datapoint, remove_labels datapoint "predicted" h)
              (objects st) batch in
  '(h2, loss_and_count) ← predict h1 batch;
  '(eval_loss', average_over') ←
     add_loss loss_and_count (eval_loss st) (average_over st);
  let found' := foldl (collect_datapoint gold_label_type gold_label_dictionary h2)
                  (found st) batch in
  let '(h3, lines') :=
    if path_is_set out_path
    then printout_batch (is_word_level found') gold_label_type batch h2 (lines st)
    else (h2, lines st) in
  Ok (mkLoop h3 eval_loss' average_over' found' lines').

Definition run_batches (gold_label_type : string) (out_path : option string)
    (mini_batch_size : nat) (gold_label_dictionary : option Dictionary.t)
    (h : heap) (data_points : list loc) : result loop_state :=
  if decide (mini_batch_size = 0) then Raise ValueError
  else for_each (batches mini_batch_size data_points)
         (batch_step gold_label_type out_path gold_label_dictionary)
         (mkLoop h 0%Qc 0 no_spans []).

(** The branch on [len(all_true_values) + len(all_predicted_values) > 1]. *)
Definition compute_numbers (main_evaluation_metric : string * string)
    (exclude_labels : list string) (st : spans)
    : result (numbers * list (log_level * string)) :=
  let target_names := fst <$> targets exclude_labels st in
  let labels := snd <$> targets exclude_labels st in
  if decide (1 < length (all_true_values st) + length (all_predicted_values st)) then
    let report := sklearn_classification_report
                    (y_true st) (y_pred st) target_names labels in
    let report_dict := sklearn_classification_report_dict
                         (y_true st) (y_pred st) target_names labels in
    let accuracy := round4 (sklearn_accuracy_score (y_true st) (y_pred st)) in
    precision ← report_entry report_dict "micro avg" "precision";
    recall ← report_entry report_dict "micro avg" "recall";
    micro_f ← report_entry report_dict "micro avg" "f1-score";
    macro_f ← report_entry report_dict "macro avg" "f1-score";
    main ← report_entry report_dict main_evaluation_metric.1 main_evaluation_metric.2;
    Ok (mkNumbers accuracy (round4 precision) (round4 recall) (round4 micro_f)
          (round4 macro_f) main report report_dict, [])
  else
    Ok (zero_numbers, [(ERROR, no_labels_message)]).

Definition make_result (n : numbers) (eval_loss : Qc) (average_over : nat)
    : Result.t :=
  let detailed_result :=
    newline +:+ "Results:"
    +:+ newline +:+ "- F-score (micro) " +:+ format_float (micro_f_score n)
    +:+ newline +:+ "- F-score (macro) " +:+ format_float (macro_f_score n)
    +:+ newline +:+ "- Accuracy " +:+ format_float (accuracy_score n)
    +:+ newline +:+ newline +:+ "By class:" +:+ newline +:+ classification_report n in
  let log_header :=
    "PRECISION" +:+ tab +:+ "RECALL" +:+ tab +:+ "F1" +:+ tab +:+ "ACCURACY" in
  let log_line :=
    format_float (precision_score n) +:+ tab +:+ format_float (recall_score n)
    +:+ tab +:+ format_float (micro_f_score n) +:+ tab
    +:+ format_float (accuracy_score n) in
  let eval_loss :=
    if decide (0 < average_over)
    then (eval_loss / Q2Qc (inject_Z (Z.of_nat average_over)))%Qc
    else eval_loss in
  Result.mk (main_score n) log_line log_header detailed_result
            (classification_report_dict n) eval_loss.

Definition evaluate (h : heap) (data_points : list loc) (gold_label_type : string)
    (out_path : option string) (mini_batch_size : nat)
    (main_evaluation_metric : string * string) (exclude_labels : list string)
    (gold_label_dictionary : option Dictionary.t) : result outcome :=
  st ← run_batches gold_label_type out_path mini_batch_size
         gold_label_dictionary h data_points;
  let written :=
    if path_is_set out_path
    then (λ path, (path, String.concat EmptyString (lines st))) <$> out_path
    else None in
  '(n, logged) ← compute_numbers main_evaluation_metric exclude_labels (found st);
  Ok (mkOutcome (make_result n (eval_loss st) (average_over st)) logged written
        (objects st)).

End Evaluate.

End Classifier.

(** ** DefaultClassifier: configuration and loss *)

Module DefaultClassifier.

(** The argument of the [multi_label_threshold] setter: [type(x) is dict]
    or anything else. *)
Inductive threshold_arg (V : Type) : Type :=
  | IsDict (d : gmap string V)
  | NotDict (x : V).
Arguments IsDict {V} d.
Arguments NotDict {V} x.

Definition double_quote : string := String (Ascii.ascii_of_nat 34) EmptyString.

Definition missing_default_message : string :=
  "multi_label_threshold dict should have a " +:+ double_quote +:+ "default"
    +:+ double_quote +:+ " key".

Definition multi_label_threshold_setter {V}
    (x : threshold_arg V) : result (gmap string V) :=
  match x with
  | IsDict d =>
      if decide (is_Some (d !! "default")) then Ok d
      else Raise (Exception missing_default_message)
  | NotDict x => Ok {["default" := x]}
  end.

Definition _get_label_threshold {V}
    (multi_label_threshold : gmap string V) (label_value : string) : result V :=
  match multi_label_threshold !! "default" with
  | None => Raise (KeyError "default")
  | Some label_threshold =>
      match multi_label_threshold !! label_value with
      | Some override => Ok override
      | None => Ok label_threshold
      end
  end.

(** *** Tensors *)

(** A two-dimensional tensor: its shape and its cells. *)
Record tensor : Type := mkTensor {
  size0 : nat;
  size1 : nat;
  data : nat → nat → Qc;
}.

(** [t[i, j].item()]. *)
Definition item (t : tensor) (i j : nat) : result Qc :=
  if decide (i < size0 t ∧ j < size1 t) then Ok (data t i j) else Raise IndexError.

Definition row (t : tensor) (i : nat) : list Qc := data t i <$> seq 0 (size1 t).

Definition tensor_of_rows (n : nat) (rows : list (list Qc)) : tensor :=
  mkTensor (length rows) n (λ i j, default 0%Qc (rows !! i ≫= (.!! j))).

(** The largest entry of a row and the first index that holds it. *)
Fixpoint row_max_from (best : Qc) (best_idx idx : nat) (xs : list Qc) : Qc * nat :=
  match xs with
  | [] => (best, best_idx)
  | x :: xs' =>
      if decide (best < x)%Qc then row_max_from x idx (S idx) xs'
      else row_max_from best best_idx (S idx) xs'
  end.

Definition row_max (xs : list Qc) : Qc * nat :=
  match xs with
  | [] => (0%Qc, 0)
  | x :: xs' => row_max_from x 0 1 xs'
  end.

(** [torch.max(t, dim=-1)]: for every row the pair of [conf] and [idx]; an
    empty reduction dimension is an error. *)
Definition tensor_max (t : tensor) : result (list (Qc * nat)) :=
  if decide (size1 t = 0) then Raise IndexError
  else Ok ((λ i, row_max (row t i)) <$> seq 0 (size0 t)).

(** *** The classifier *)

Record t : Type := mk {
  label_type : option string;
  label_dictionary : Dictionary.t;
  multi_label : bool;
  _multi_label_threshold : gmap string Qc;
  weight_dict : option (gmap string Qc);
  loss_weights : option (list Qc);
}.

(** The list the weight tensor is built from: 1.0 for every class,
    overwritten by the weights given. *)
Definition weight_list (label_dictionary : Dictionary.t)
    (loss_weights : gmap string Qc) : list Qc :=
  foldl (λ weight_list it,
           match loss_weights !! it.2 with
           | Some w => <[it.1 := w]> weight_list
           | None => weight_list
           end)
        (replicate (Dictionary.len label_dictionary) 1%Qc)
        (enumerate (Dictionary.get_items label_dictionary)).

(** [__init__]; [FloatTensor] is [torch.FloatTensor] on a list of floats,
    which stores every weight in single precision. *)
Definition init (FloatTensor : list Qc → list Qc)
    (label_type : option string) (label_dictionary : Dictionary.t)
    (multi_label : bool) (multi_label_threshold : threshold_arg Qc)
    (loss_weights : option (gmap string Qc)) : result t :=
  threshold ← multi_label_threshold_setter multi_label_threshold;
  Ok (mk label_type label_dictionary multi_label threshold loss_weights
         (FloatTensor ∘ weight_list label_dictionary <$> loss_weights)).

(** [self.multi_label_threshold = x] on an existing classifier. *)
Definition set_multi_label_threshold (self : t) (x : threshold_arg Qc) : result t :=
  threshold ← multi_label_threshold_setter x;
  Ok (mk (label_type self) (label_dictionary self) (multi_label self) threshold
         (weight_dict self) (loss_weights self)).

(** What [forward_pass(batch, return_label_candidates=True)] returns. *)
Record forward_output : Type := mkForward {
  scores : tensor;
  gold_labels : list (list string);
  sentences : list loc;
  label_candidates : list Label;
}.

(** The argument of [predict]: one data point or a list of them. *)
Inductive predict_arg : Type :=
  | OnePoint (sentence : loc)
  | Points (sentences : list loc).

(** What [predict] returns: its (possibly filtered) input on an early return,
    the loss and the label count when [return_loss] is set, [None]
    otherwise. *)
Inductive predict_result : Type :=
  | ReturnedArgument (sentences : predict_arg)
  | ReturnedLoss (overall_loss : Qc) (label_count : nat)
  | ReturnedNone.

Section Runtime.

(** [torch.sigmoid] on one cell and [softmax] on one row. *)
Variable sigmoid : Qc → Qc.
Variable softmax : list Qc → list Qc.

(** [torch.nn.BCEWithLogitsLoss(weight)] and [torch.nn.CrossEntropyLoss(weight)]. *)
Variable BCEWithLogitsLoss : option (list Qc) → tensor → list (list Qc) → Qc.
Variable CrossEntropyLoss : option (list Qc) → tensor → list nat → Qc.

(** The forward pass of the task at hand. *)
Variable forward_pass : heap → list loc → result forward_output.

Definition sigmoided (scores : tensor) : tensor :=
  mkTensor (size0 scores) (size1 scores) (λ i j, sigmoid (data scores i j)).

Definition softmaxed (scores : tensor) : tensor :=
  mkTensor (size0 scores) (size1 scores)
    (λ i j, default 0%Qc (softmax (row scores i) !! j)).

(** [any(labels)]: some point has a gold label. *)
Definition any_labels (labels : list (list string)) : bool :=
  existsb (λ label, negb (bool_decide (label = []))) labels.

Definition multi_hot_targets (self : t) (labels : list (list string))
    : list (list Qc) :=
  (λ all_labels_for_point,
     (λ l, if decide (l ∈ all_labels_for_point) then 1%Qc else 0%Qc)
       <$> Dictionary.get_items (label_dictionary self)) <$> labels.

Definition class_index_targets (self : t) (labels : list (list string)) : list nat :=
  (λ label, match label with
            | first :: _ => Dictionary.get_idx_for_item (label_dictionary self) first
            | [] => Dictionary.get_idx_for_item (label_dictionary self) "O"
            end) <$> labels.

Definition _calculate_loss (self : t) (scores : tensor) (labels : list (list string))
    : Qc * nat :=
  if negb (any_labels labels) then (0%Qc, 1)
  else if multi_label self then
    (BCEWithLogitsLoss (loss_weights self) scores (multi_hot_targets self labels),
     length (multi_hot_targets self labels))
  else
    (CrossEntropyLoss (loss_weights self) scores (class_index_targets self labels),
     length (class_index_targets self labels)).

(** The multi-label branch for one point: one pass over the classes. *)
Definition label_point_multi (self : t) (return_probabilities_for_all_classes : bool)
    (label_name : string) (sig : tensor) (s_idx : nat) (sentence : loc)
    (label_candidate : Label) (h : heap) : result heap :=
  for_each (seq 0 (size1 sig))
    (λ l_idx h,
       label_value ← Dictionary.get_item_for_index (label_dictionary self) l_idx;
       if decide (label_value = "O") then Ok h else
       label_threshold ← _get_label_threshold (_multi_label_threshold self) label_value;
       label_score ← item sig s_idx l_idx;
       if bool_decide (label_threshold < label_score)%Qc
          || return_probabilities_for_all_classes
       then Ok (add_complex_label sentence label_name
                  (spawn label_candidate label_value label_score) h)
       else Ok h)
    h.

(** The single-label branch with all probabilities, for one point. *)
Definition label_point_all (self : t) (label_name : string) (soft : tensor)
    (s_idx : nat) (sentence : loc) (label_candidate : Label) (h : heap)
    : result heap :=
  for_each (seq 0 (size1 soft))
    (λ l_idx h,
       label_value ← Dictionary.get_item_for_index (label_dictionary self) l_idx;
       if decide (label_value = "O") then Ok h else
       label_score ← item soft s_idx l_idx;
       Ok (add_complex_label sentence label_name
             (spawn label_candidate label_value label_score) h))
    h.

(** The single-label branch with the best class only, for one point. *)
Definition label_point_best (self : t) (label_name : string) (sentence : loc)
    (label_candidate : Label) (c : Qc) (i : nat) (h : heap) : result heap :=
  label_value ← Dictionary.get_item_for_index (label_dictionary self) i;
  if decide (label_value = "O") then Ok h
  else Ok (add_complex_label sentence label_name
             (spawn label_candidate label_value c) h).

(** The body of [if len(label_candidates) > 0]. *)
Definition add_predictions (self : t) (return_probabilities_for_all_classes : bool)
    (label_name : string) (out : forward_output) (h : heap) : result heap :=
  let points := zip (sentences out) (label_candidates out) in
  if multi_label self then
    for_each (enumerate points)
      (λ p h, label_point_multi self return_probabilities_for_all_classes
                label_name (sigmoided (scores out)) p.1 p.2.1 p.2.2 h)
      h
  else if return_probabilities_for_all_classes then
    for_each (enumerate points)
      (λ p h, label_point_all self label_name (softmaxed (scores out))
                p.1 p.2.1 p.2.2 h)
      h
  else
    best ← tensor_max (softmaxed (scores out));
    for_each (zip points best)
      (λ p h, label_point_best self label_name p.1.1 p.1.2 p.2.1 p.2.2 h)
      h.

(** The state of the loop over the batches of [predict]. *)
Record predict_state : Type := mkPredict {
  objects : heap;
  overall_loss : Qc;
  label_count : nat;
}.

(** The body of [for batch in dataloader]. *)
Definition predict_batch (self : t) (return_probabilities_for_all_classes : bool)
    (label_name : string) (return_loss : bool)
    (batch : list loc) (st : predict_state) : result predict_state :=
  match batch with
  | [] => Ok st
  | _ =>
      let h1 := foldl (λ h sentence, remove_labels sentence label_name h)
                  (objects st) batch in
      out ← forward_pass h1 batch;
      let '(loss, count) :=
        if return_loss
        then ((overall_loss st + (_calculate_loss self (scores out) (gold_labels out)).1)%Qc,
              label_count st + length (label_candidates out))
        else (overall_loss st, label_count st) in
      h2 ← (if decide (0 < length (label_candidates out))
            then add_predictions self return_probabilities_for_all_classes
                   label_name out h1
            else Ok h1);
      Ok (mkPredict h2 loss count)
  end.

Definition predict (self : t) (h : heap) (arg : predict_arg)
    (mini_batch_size : nat) (return_probabilities_for_all_classes : bool)
    (label_name : option string) (return_loss : bool)
    : result (heap * predict_result) :=
  let label_name := default (default "label" (label_type self)) label_name in
  let falsy := match arg with
               | OnePoint sentence => bool_decide (num_tokens (h sentence) = 0)
               | Points sentences => bool_decide (sentences = [])
               end in
  if falsy then Ok (h, ReturnedArgument arg) else
  let sentences := match arg with
                   | OnePoint sentence => [sentence]
                   | Points sentences => sentences
                   end in
  let sentences := filter (λ sentence, 0 < num_tokens (h sentence)) sentences in
  if decide (length sentences = 0) then Ok (h, ReturnedArgument (Points sentences)) else
  let reordered_sentences := sorted_desc (λ sentence, num_tokens (h sentence)) sentences in
  if decide (mini_batch_size = 0) then Raise ValueError else
  st ← for_each (batches mini_batch_size reordered_sentences)
         (predict_batch self return_probabilities_for_all_classes label_name return_loss)
         (mkPredict h 0%Qc 0);
  Ok (objects st,
      if return_loss then ReturnedLoss (overall_loss st) (label_count st)
      else ReturnedNone).

(** [forward_loss]. *)
Variable forward_pass_scores : heap → list loc → result (tensor * list (list string)).

Definition forward_loss (self : t) (h : heap) (sentences : list loc)
    : result (Qc * nat) :=
  '(scores, labels) ← forward_pass_scores h sentences;
  Ok (_calculate_loss self scores labels).

(** [predict] as [Classifier.evaluate] calls it: on a batch, with
    [label_name='predicted'] and [return_loss=True]. *)
Definition predict_for_evaluate (self : t) (mini_batch_size : nat)
    (h : heap) (batch : list loc) : result (heap * Classifier.predict_return) :=
  '(h', r) ← predict self h (Points batch) mini_batch_size false
               (Some "predicted") true;
  match r with
  | ReturnedLoss loss count => Ok (h', Classifier.LossAndCount loss count)
  | ReturnedArgument (Points sentences) => Ok (h', Classifier.Sentences sentences)
  | ReturnedArgument (OnePoint sentence) => Ok (h', Classifier.Sentences [sentence])
  | ReturnedNone => Raise TypeError
  end.

End Runtime.

End DefaultClassifier.

(** * Vocabulary of the statements *)

(** An entry of the training parameters that [save] can snapshot: a live
    object, or no entry at all. *)
Definition live_or_absent (o : option Model.pyvalue) : Prop :=
  match o with
  | None | Some (Model.Live _ _) => True
  | Some _ => False
  end.

(** The state dict [save] leaves behind for such an entry. *)
Definition snapshot_of (o : option Model.pyvalue) : option Model.pyvalue :=
  match o with
  | Some (Model.Live _ state) => Some (Model.StateDict state)
  | _ => None
  end.

(** An entry of the training parameters of a model, if it has any. *)
Definition training_parameter (self : Model.t) (key : string)
    : option Model.pyvalue :=
  match Model.model_card self with
  | Some card =>
      match Model.training_parameters card with
      | Some tp => tp !! key
      | None => None
      end
  | None => None
  end.

(** The values recorded under a key, none when the key is unknown. *)
Definition values_of (key : string) (values : list (string * list string))
    : list string :=
  default [] (dict_get key values).

(** The value [evaluate] records for a gold label. *)
Definition recorded_gold_value (gold_label_dictionary : option Dictionary.t)
    (gold_label : Label) : string :=
  if Classifier.is_unknown gold_label_dictionary (value gold_label)
  then "<unk>" else value gold_label.

(** The labels of a list that are recorded under a key for sentence [n]. *)
Definition with_key (n : nat) (key : string) (labels : list Label) : list Label :=
  filter (λ label, Classifier.representation n label = key) labels.

(** Every key of [all_spans] has a gold value or a predicted value. *)
Definition keys_have_values (st : Classifier.spans) : Prop :=
  ∀ key, key ∈ Classifier.all_spans st →
    is_Some (dict_get key (Classifier.all_true_values st))
    ∨ is_Some (dict_get key (Classifier.all_predicted_values st)).

(** The number of rows of a multi-hot matrix that are set for a class: on
    [y_pred] the denominator of the precision of the class, on [y_true] the
    denominator of its recall. *)
Definition support (rows : list (list nat)) (class : nat) : nat :=
  length (filter (λ r, r !! class = Some 1) rows).

(** Adding labels of one type to data points, one call of
    [add_complex_label] after the other. *)
Definition attach_all (typename : string) (calls : list (loc * Label)) (h : heap)
    : heap :=
  foldl (λ h c, add_complex_label c.1 typename c.2 h) h calls.

(** The [add_complex_label] calls of the multi-label branch for one point
    and one class index. *)
Definition multi_label_class_calls (sigmoid : Qc → Qc) (self : DefaultClassifier.t)
    (return_probabilities_for_all_classes : bool) (scores : DefaultClassifier.tensor)
    (s_idx : nat) (sentence : loc) (label_candidate : Label) (l_idx : nat)
    : list (loc * Label) :=
  match Dictionary.get_item_for_index (DefaultClassifier.label_dictionary self) l_idx with
  | Ok label_value =>
      if decide (label_value = "O") then [] else
      match DefaultClassifier._get_label_threshold
              (DefaultClassifier._multi_label_threshold self) label_value with
      | Ok label_threshold =>
          let label_score := sigmoid (DefaultClassifier.data scores s_idx l_idx) in
          if bool_decide (label_threshold < label_score)%Qc
             || return_probabilities_for_all_classes
          then [(sentence, spawn label_candidate label_value label_score)]
          else []
      | Raise _ => []
      end
  | Raise _ => []
  end.

(** The calls of the multi-label branch for a whole batch. *)
Definition multi_label_calls (sigmoid : Qc → Qc) (self : DefaultClassifier.t)
    (return_probabilities_for_all_classes : bool)
    (out : DefaultClassifier.forward_output) : list (loc * Label) :=
  enumerate (zip (DefaultClassifier.sentences out) (DefaultClassifier.label_candidates out))
  ≫= λ p, seq 0 (DefaultClassifier.size1 (DefaultClassifier.scores out))
          ≫= multi_label_class_calls sigmoid self return_probabilities_for_all_classes
               (DefaultClassifier.scores out) p.1 p.2.1 p.2.2.

(** The calls of the single-label branch that keeps the best class only. *)
Definition best_label_call (self : DefaultClassifier.t) (sentence : loc)
    (label_candidate : Label) (c : Qc) (i : nat) : list (loc * Label) :=
  match Dictionary.get_item_for_index (DefaultClassifier.label_dictionary self) i with
  | Ok label_value =>
      if decide (label_value = "O") then []
      else [(sentence, spawn label_candidate label_value c)]
  | Raise _ => []
  end.

(** The calls of that branch for a whole batch: sentences, candidates and
    the best class of every row, zipped. *)
Definition best_label_calls (softmax : list Qc → list Qc) (self : DefaultClassifier.t)
    (out : DefaultClassifier.forward_output) : list (loc * Label) :=
  zip (zip (DefaultClassifier.sentences out) (DefaultClassifier.label_candidates out))
      ((λ i, DefaultClassifier.row_max
               (DefaultClassifier.row
                  (DefaultClassifier.softmaxed softmax (DefaultClassifier.scores out)) i))
         <$> seq 0 (DefaultClassifier.size0 (DefaultClassifier.scores out)))
  ≫= λ p, best_label_call self p.1.1 p.1.2 p.2.1 p.2.2.

(** [all_spans] lists every key once, and lists exactly the keys that have
    a gold value or a predicted value. *)
Definition spans_consistent (st : Classifier.spans) : Prop :=
  NoDup (Classifier.all_spans st)
  ∧ ∀ key, key ∈ Classifier.all_spans st
           ↔ is_Some (dict_get key (Classifier.all_true_values st))
             ∨ is_Some (dict_get key (Classifier.all_predicted_values st)).

(** A row of a multi-hot matrix over [n] classes: [n] entries, each 0 or 1. *)
Definition indicator_row (n : nat) (r : list nat) : Prop :=
  length r = n ∧ ∀ x, x ∈ r → x = 0 ∨ x = 1.

(** The number of times a value was recorded, on the gold and on the
    predicted side together. *)
Definition occurrences (st : Classifier.spans) (x : string) : nat :=
  length (filter (eq x)
            (Classifier.chain_values (Classifier.all_true_values st)
             ++ Classifier.chain_values (Classifier.all_predicted_values st))).

(** What a call of [add_complex_label] made by [predict] may be: on one of
    the sentences of the forward pass, with a class of the label dictionary
    other than "O". *)
Definition predicted_call (self : DefaultClassifier.t) (sentences : list loc)
    (call : loc * Label) : Prop :=
  call.1 ∈ sentences
  ∧ value call.2 ≠ "O"
  ∧ value call.2 ∈ Dictionary.get_items (DefaultClassifier.label_dictionary self).

(** The softmax of a row of scores has one probability per score. *)
Definition keeps_length (softmax : list Qc → list Qc) : Prop :=
  ∀ xs, length (softmax xs) = length xs.

(** The labels of the single-label branch with all probabilities for one
    point: one label per class other than "O", in the order of the classes,
    with the entry of the class in the softmax of the row of scores of the
    point. *)
Definition all_probability_labels (softmax : list Qc → list Qc)
    (self : DefaultClassifier.t) (scores : DefaultClassifier.tensor)
    (s_idx : nat) (label_candidate : Label) : list Label :=
  seq 0 (DefaultClassifier.size1 scores)
  ≫= λ l_idx,
       match Dictionary.idx2item (DefaultClassifier.label_dictionary self) !! l_idx,
             softmax (DefaultClassifier.row scores s_idx) !! l_idx with
       | Some label_value, Some probability =>
           if decide (label_value = "O") then []
           else [spawn label_candidate label_value probability]
       | _, _ => []
       end.

(** The reordering of [predict], as it is written: the indices of the
    sentences sorted by decreasing length of their sentence, then the
    sentences at these indices. *)
Definition rev_order_len_index (h : heap) (sentences : list loc) : list nat :=
  sorted_desc (λ k, num_tokens (h (default 0 (sentences !! k))))
    (seq 0 (length sentences)).

Definition reordered_sentences (h : heap) (sentences : list loc) : list loc :=
  (λ index, default 0 (sentences !! index)) <$> rev_order_len_index h sentences.

(** The sentences [predict] works on: those of its argument that have
    tokens. *)
Definition sentences_with_tokens (h : heap) (arg : DefaultClassifier.predict_arg)
    : list loc :=
  filter (λ sentence, 0 < num_tokens (h sentence))
    match arg with
    | DefaultClassifier.OnePoint sentence => [sentence]
    | DefaultClassifier.Points sentences => sentences
    end.

(** The batches of a call of [predict]: the sentences with tokens, the
    longest first, [mini_batch_size] at a time. *)
Definition predict_batches (h : heap) (arg : DefaultClassifier.predict_arg)
    (mini_batch_size : nat) : list (list loc) :=
  batches mini_batch_size
    (sorted_desc (λ sentence, num_tokens (h sentence)) (sentences_with_tokens h arg)).

(** What a round of the loop of [predict] establishes about its batch, for
    the calls [calls_of] that the mode at hand makes: the forward pass was
    run on the batch when its sentences had no label of the predicted type,
    it returned sentences of the batch with scores of the shape [P], and
    every sentence of the batch has the labels of its calls. *)
Definition labelled_by
    (forward_pass : heap → list loc → result DefaultClassifier.forward_output)
    (calls_of : DefaultClassifier.forward_output → list (loc * Label))
    (P : DefaultClassifier.forward_output → Prop)
    (label_name : string) (batch : list loc) (h : heap) : Prop :=
  ∃ h0 out,
    forward_pass h0 batch = Ok out
    ∧ DefaultClassifier.sentences out ⊆ batch
    ∧ P out
    ∧ (∀ sentence, sentence ∈ batch → get_labels h0 sentence label_name = [])
    ∧ ∀ sentence, sentence ∈ batch →
        get_labels h sentence label_name
        = snd <$> filter (λ call, call.1 = sentence) (calls_of out).

(** The labels of a list that belong to the same sub-unit as [label]. *)
Definition same_unit (label : Label) (labels : list Label) : list Label :=
  filter (λ l, identifier l = identifier label) labels.

(** What has been recorded for data point number [n]: under the key of a
    label, the values of the gold labels and of the predicted labels of its
    sub-unit that the data point has in [h], the gold ones through
    [gold_value]. *)
Definition recorded_from (gold_value : Label → string) (gold_label_type : string)
    (n : nat) (datapoint : loc) (h : heap) (found : Classifier.spans) : Prop :=
  ∀ label,
    values_of (Classifier.representation n label) (Classifier.all_true_values found)
    = gold_value <$> same_unit label (get_labels h datapoint gold_label_type)
    ∧ values_of (Classifier.representation n label)
        (Classifier.all_predicted_values found)
      = value <$> same_unit label (get_labels h datapoint "predicted").

(** The state of the variables for computing scores when the data points
    [processed] have been gone through: every one of them was read in the
    state in which [predict] had left its batch, and nothing is recorded
    for the numbers to come. *)
Definition recorded_so_far
    (predict : heap → list loc → result (heap * Classifier.predict_return))
    (gold_value : Label → string) (gold_label_type : string)
    (processed : list loc) (found : Classifier.spans) : Prop :=
  Classifier.sentence_id found = length processed
  ∧ (∀ n datapoint, processed !! n = Some datapoint →
       ∃ h0 batch h2 r,
         datapoint ∈ batch
         ∧ predict h0 batch = Ok (h2, r)
         ∧ recorded_from gold_value gold_label_type n datapoint h2 found)
  ∧ ∀ n label, length processed ≤ n →
      values_of (Classifier.representation n label) (Classifier.all_true_values found)
      = []
      ∧ values_of (Classifier.representation n label)
          (Classifier.all_predicted_values found) = [].

(** * Concrete inputs *)

(** A model that was trained with SGD and an annealing scheduler. *)
Definition trained_parameters : gmap string Model.pyvalue :=
  <["optimizer" := Model.Live "SGD" "momentum buffers"]>
    (<["scheduler" := Model.Live "AnnealOnPlateau" "bad epochs"]>
       {["learning_rate" := Model.Plain "0.1"]}).

Definition trained_card : Model.ModelCard :=
  Model.mkModelCard {["flair_version" := "0.9"]} (Some trained_parameters).

Definition trained_model : Model.t :=
  Model.mkModel "weights" (Some trained_card).

(** A gold label dictionary with the unknown sentinel, and two data points:
    the first with a gold label the dictionary does not know and a
    prediction, the second without any label. *)
Definition gold_dictionary : Dictionary.t :=
  Dictionary.add_item (Dictionary.new true) "PER".

Definition misc_gold : Label := mkLabel "Span [1,2]" "MISC" 1%Qc true.
Definition loc_predicted : Label := mkLabel "Span [1,2]" "LOC" (Q2Qc (9 # 10)) true.

Definition two_points : heap :=
  λ o, match o with
       | 0 => mkDataPoint 4 [("gold", misc_gold); ("predicted", loc_predicted)]
       | _ => mkDataPoint 3 []
       end.

(** One data point whose only label is a gold label, and a [predict] that
    finds nothing to predict for it. *)
Definition per_gold : Label := mkLabel "Sentence" "PER" 1%Qc false.

Definition one_gold_label : heap :=
  λ o, match o with
       | 0 => mkDataPoint 3 [("gold", per_gold)]
       | _ => mkDataPoint 0 []
       end.

Definition predict_no_label (h : heap) (batch : list loc)
    : result (heap * Classifier.predict_return) :=
  Ok (h, Classifier.LossAndCount 0%Qc (length batch)).

(** A classifier over the classes O, PER and LOC with the thresholds
    default 0.5 and LOC 0.8, in multi-label and in single-label mode, a
    label candidate for the whole sentence, and two forward passes on data
    point 0 whose scores are already probabilities. *)
Definition candidate : Label := mkLabel "Sentence" EmptyString 0%Qc false.

Definition three_classes : Dictionary.t := Dictionary.Build ["O"; "PER"; "LOC"].

Definition loc_threshold : gmap string Qc :=
  <["LOC" := Q2Qc (8 # 10)]> {["default" := Q2Qc (5 # 10)]}.

Definition multi_label_classifier : DefaultClassifier.t :=
  DefaultClassifier.mk None three_classes true loc_threshold None None.

Definition single_label_classifier : DefaultClassifier.t :=
  DefaultClassifier.mk None three_classes false loc_threshold None None.

Definition per_and_loc_scores : DefaultClassifier.forward_output :=
  DefaultClassifier.mkForward
    (DefaultClassifier.tensor_of_rows 3 [[Q2Qc (1 # 10); Q2Qc (6 # 10); Q2Qc (7 # 10)]])
    [["PER"]] [0] [candidate].

Definition mostly_O_scores : DefaultClassifier.forward_output :=
  DefaultClassifier.mkForward
    (DefaultClassifier.tensor_of_rows 3 [[Q2Qc (7 # 10); Q2Qc (2 # 10); Q2Qc (1 # 10)]])
    [["PER"]] [0] [candidate].

(** A data point that still carries the label of an earlier prediction,
    and a forward pass that finds nothing to label. *)
Definition stale_prediction : heap :=
  λ o, match o with
       | 0 => mkDataPoint 3 [("gold", per_gold);
                             ("predicted", mkLabel "Sentence" "LOC" (Q2Qc (9 # 10)) false)]
       | _ => mkDataPoint 0 []
       end.

Definition no_candidates : DefaultClassifier.forward_output :=
  DefaultClassifier.mkForward (DefaultClassifier.tensor_of_rows 3 []) [] [] [].

(** A [predict] that labels every data point of the batch LOC, and a report
    with the two average rows only. *)
Definition predict_loc (h : heap) (batch : list loc)
    : result (heap * Classifier.predict_return) :=
  Ok (foldl (λ h o, add_complex_label o "predicted" loc_predicted h) h batch,
      Classifier.LossAndCount 1%Qc (length batch)).

Definition averages_only : gmap string (gmap string Qc) :=
  <["micro avg" := <["precision" := 0%Qc]> (<["recall" := 0%Qc]> {["f1-score" := 0%Qc]})]>
    {["macro avg" := {["f1-score" := 0%Qc]}]}.

(** * Properties *)

(** ** The result monad *)

Lemma bind_Ok {A B} (m : result A) (k : A → result B) (b : B) :
  m ≫= k = Ok b ↔ ∃ a, m = Ok a ∧ k a = Ok b.
Proof.
  destruct m as [a|e]; cbn; split.
  - eauto.
  - by intros (a' & [= <-] & Hk).
  - done.
  - by intros (a' & ? & _).
Qed.

(** ** Batches *)

Lemma concat_batches_fuel {A : Type} (fuel n : nat) (xs : list A) :
  0 < n → length xs ≤ fuel → concat (batches_fuel fuel n xs) = xs.
Proof.
  intros Hn. revert xs. induction fuel as [|fuel IH]; intros xs Hlen.
  - destruct xs; [done|cbn in Hlen; lia].
  - destruct xs as [|x xs]; [done|].
    cbn [batches_fuel concat]. rewrite IH; [apply take_drop|].
    rewrite length_drop. cbn in *. lia.
Qed.

Lemma concat_batches {A : Type} (n : nat) (xs : list A) :
  0 < n → concat (batches n xs) = xs.
Proof. intros Hn. by apply concat_batches_fuel. Qed.


Lemma batches_fuel_not_nil {A : Type} (fuel n : nat) (xs batch : list A) :
  0 < n → batch ∈ batches_fuel fuel n xs → batch ≠ [].
Proof.
  intros Hn. revert xs. induction fuel as [|fuel IH]; intros xs; cbn.
  - by intros ?%elem_of_nil.
  - destruct xs as [|x xs]; [by intros ?%elem_of_nil|].
    intros [->|Hin]%elem_of_cons; [|by eapply IH].
    destruct n; [lia|done].
Qed.

Lemma batches_not_nil {A : Type} (n : nat) (xs batch : list A) :
  0 < n → batch ∈ batches n xs → batch ≠ [].
Proof. apply batches_fuel_not_nil. Qed.

(** ** Sorting by decreasing key *)

Lemma insert_desc_Permutation {A : Type} (key : A → nat) (x : A) (l : list A) :
  insert_desc key x l ≡ₚ x :: l.
Proof.
  induction l as [|y l IH]; cbn; [done|].
  case_decide; [done|]. rewrite IH. apply Permutation_swap.
Qed.

Lemma sorted_desc_Permutation {A : Type} (key : A → nat) (l : list A) :
  sorted_desc key l ≡ₚ l.
Proof.
  unfold sorted_desc. induction l as [|x l IH]; cbn; [done|].
  by rewrite insert_desc_Permutation, IH.
Qed.

Lemma insert_desc_sorted {A : Type} (key : A → nat) (x : A) (l : list A) :
  StronglySorted (λ a b, key b ≤ key a) l →
  StronglySorted (λ a b, key b ≤ key a) (insert_desc key x l).
Proof.
  induction 1 as [|y l Hsorted IH Hy]; cbn.
  - repeat constructor.
  - case_decide as Hle.
    + constructor; [by constructor|]. constructor; [done|].
      eapply Forall_impl; [exact Hy|]. cbn. lia.
    + constructor; [done|].
      rewrite insert_desc_Permutation. constructor; [lia|done].
Qed.

Lemma sorted_desc_sorted {A : Type} (key : A → nat) (l : list A) :
  StronglySorted (λ a b, key b ≤ key a) (sorted_desc key l).
Proof.
  unfold sorted_desc. induction l as [|x l IH]; cbn; [constructor|].
  by apply insert_desc_sorted.
Qed.

(** Elements of equal key keep their order. *)
Lemma insert_desc_filter {A : Type} (key : A → nat) (k : nat) (x : A) (l : list A) :
  StronglySorted (λ a b, key b ≤ key a) l →
  filter (λ a, key a = k) (insert_desc key x l)
  = filter (λ a, key a = k) (x :: l).
Proof.
  induction 1 as [|y l Hsorted IH Hy]; cbn [insert_desc]; [done|].
  case_decide as Hle; [done|].
  rewrite (filter_cons _ y), IH, !(filter_cons _ x), (filter_cons _ y).
  repeat case_decide; try done. lia.
Qed.

Lemma sorted_desc_stable {A : Type} (key : A → nat) (k : nat) (l : list A) :
  filter (λ a, key a = k) (sorted_desc key l) = filter (λ a, key a = k) l.
Proof.
  induction l as [|x l IH]; [done|].
  change (sorted_desc key (x :: l)) with (insert_desc key x (sorted_desc key l)).
  rewrite insert_desc_filter by apply sorted_desc_sorted.
  by rewrite !filter_cons, IH.
Qed.

Lemma filter_all {A : Type} (P : A → Prop) `{∀ x, Decision (P x)} (l : list A) :
  (∀ x, x ∈ l → P x) → filter P l = l.
Proof.
  induction l as [|x l IH]; intros Hall; [done|].
  rewrite filter_cons, decide_True by (apply Hall; constructor).
  rewrite IH; [done|]. intros y Hy. apply Hall. by constructor.
Qed.

Lemma filter_none {A : Type} (P : A → Prop) `{∀ x, Decision (P x)} (l : list A) :
  (∀ x, x ∈ l → ¬ P x) → filter P l = [].
Proof.
  induction l as [|x l IH]; intros Hall; [done|].
  rewrite filter_cons, decide_False by (apply Hall; constructor).
  apply IH. intros y Hy. apply Hall. by constructor.
Qed.


(** ** DefaultClassifier: the threshold configuration *)


Lemma get_label_threshold_total {V} (m : gmap string V) (label_value : string) :
  is_Some (m !! "default") →
  ∃ threshold, DefaultClassifier._get_label_threshold m label_value = Ok threshold.
Proof.
  intros [dflt Hd]. unfold DefaultClassifier._get_label_threshold. rewrite Hd.
  destruct (m !! label_value); eauto.
Qed.

(** C4: a threshold dict without a "default" key is refused when it is
    assigned: the setter raises, so does the assignment on an existing
    classifier, and so does the constructor, which therefore builds no
    classifier that could fail later in [predict]. *)
Theorem threshold_dict_without_default_raises (d : gmap string Qc) :
  d !! "default" = None →
  DefaultClassifier.multi_label_threshold_setter (DefaultClassifier.IsDict d)
    = Raise (Exception DefaultClassifier.missing_default_message)
  ∧ (∀ self,
       DefaultClassifier.set_multi_label_threshold self (DefaultClassifier.IsDict d)
       = Raise (Exception DefaultClassifier.missing_default_message))
  ∧ (∀ FloatTensor label_type label_dictionary multi_label loss_weights,
       DefaultClassifier.init FloatTensor label_type label_dictionary multi_label
         (DefaultClassifier.IsDict d) loss_weights
       = Raise (Exception DefaultClassifier.missing_default_message)).
Proof.
  intros Hd.
  assert (DefaultClassifier.multi_label_threshold_setter (DefaultClassifier.IsDict d)
          = Raise (Exception DefaultClassifier.missing_default_message)) as Hset.
  { cbn. case_decide as Hsome; [|done]. rewrite Hd in Hsome. by destruct Hsome. }
  split; [done|]. split.
  - intros self. unfold DefaultClassifier.set_multi_label_threshold. by rewrite Hset.
  - intros. unfold DefaultClassifier.init. by rewrite Hset.
Qed.

Lemma threshold_dict_without_default_raises_witness :
  DefaultClassifier.multi_label_threshold_setter
    (DefaultClassifier.IsDict ({["LOC" := Q2Qc (8 # 10)]} : gmap string Qc))
  = Raise (Exception DefaultClassifier.missing_default_message).
Proof.
  apply (threshold_dict_without_default_raises {["LOC" := Q2Qc (8 # 10)]}).
  reflexivity.
Defined.



(** ** DefaultClassifier: the loss *)

Lemma any_labels_false (labels : list (list string)) :
  DefaultClassifier.any_labels labels = false ↔ Forall (λ label, label = []) labels.
Proof.
  unfold DefaultClassifier.any_labels. induction labels as [|label labels IH]; cbn.
  - split; [constructor|done].
  - rewrite orb_false_iff, IH, negb_false_iff, bool_decide_eq_true.
    split.
    + intros [? ?]. by constructor.
    + by inversion 1.
Qed.

(** C7: without any gold label in the batch the loss is 0 with count 1;
    otherwise, in single-label mode, the loss is the categorical loss on the
    targets that hold, for every point, the dictionary index of its first
    gold label, or of "O" when it has none, and the count is the number of
    points. *)
Theorem calculate_loss_targets
    (BCEWithLogitsLoss : option (list Qc) → DefaultClassifier.tensor → list (list Qc) → Qc)
    (CrossEntropyLoss : option (list Qc) → DefaultClassifier.tensor → list nat → Qc)
    (self : DefaultClassifier.t) (scores : DefaultClassifier.tensor)
    (labels : list (list string)) :
  (Forall (λ label, label = []) labels →
     DefaultClassifier._calculate_loss BCEWithLogitsLoss CrossEntropyLoss
       self scores labels = (0%Qc, 1))
  ∧ (¬ Forall (λ label, label = []) labels →
     DefaultClassifier.multi_label self = false →
     ∃ targets : list nat,
       DefaultClassifier._calculate_loss BCEWithLogitsLoss CrossEntropyLoss
         self scores labels
       = (CrossEntropyLoss (DefaultClassifier.loss_weights self) scores targets,
          length labels)
       ∧ length targets = length labels
       ∧ ∀ i label, labels !! i = Some label →
           targets !! i
           = Some (Dictionary.get_idx_for_item
                     (DefaultClassifier.label_dictionary self) (hd "O" label))).
Proof.
  unfold DefaultClassifier._calculate_loss. split.
  - intros Hnone. apply any_labels_false in Hnone. by rewrite Hnone.
  - intros Hsome Hsingle.
    destruct (DefaultClassifier.any_labels labels) eqn:Hany;
      [|by apply any_labels_false in Hany].
    cbn. rewrite Hsingle.
    exists (DefaultClassifier.class_index_targets self labels).
    unfold DefaultClassifier.class_index_targets.
    rewrite !length_fmap. split; [done|]. split; [done|].
    intros i label Hi. rewrite list_lookup_fmap, Hi. cbn. by destruct label.
Qed.

Lemma calculate_loss_targets_witness :
  DefaultClassifier._calculate_loss (λ _ _ _, Q2Qc 7) (λ _ _ targets, Q2Qc 3)
    (DefaultClassifier.mk None (Dictionary.Build ["O"; "PER"; "LOC"]) false
       {["default" := Q2Qc (5 # 10)]} None None)
    (DefaultClassifier.tensor_of_rows 3 []) [[]; []]
  = (0%Qc, 1)
  ∧ ∃ targets : list nat,
      DefaultClassifier._calculate_loss (λ _ _ _, Q2Qc 7) (λ _ _ targets, Q2Qc 3)
        (DefaultClassifier.mk None (Dictionary.Build ["O"; "PER"; "LOC"]) false
           {["default" := Q2Qc (5 # 10)]} None None)
        (DefaultClassifier.tensor_of_rows 3 []) [["LOC"; "PER"]; []]
      = (Q2Qc 3, 2)
      ∧ length targets = 2
      ∧ ∀ i label, [["LOC"; "PER"]; []] !! i = Some label →
          targets !! i
          = Some (Dictionary.get_idx_for_item (Dictionary.Build ["O"; "PER"; "LOC"])
                    (hd "O" label)).
Proof.
  split.
  - apply (calculate_loss_targets (λ _ _ _, Q2Qc 7) (λ _ _ targets, Q2Qc 3)).
    by repeat constructor.
  - apply (calculate_loss_targets (λ _ _ _, Q2Qc 7) (λ _ _ targets, Q2Qc 3)
             (DefaultClassifier.mk None (Dictionary.Build ["O"; "PER"; "LOC"]) false
                {["default" := Q2Qc (5 # 10)]} None None)
             (DefaultClassifier.tensor_of_rows 3 []) [["LOC"; "PER"]; []]).
    + intros H. by inversion H.
    + reflexivity.
Defined.

(** ** Model.save *)

Lemma snapshot_live_or_absent (key : string) (tp : gmap string Model.pyvalue) :
  live_or_absent (tp !! key) →
  Model.snapshot key tp
  = Ok (tp !! key,
        match tp !! key with
        | Some (Model.Live cls state) =>
            <[key := Model.Class cls]>
              (<[key +:+ "_state_dict" := Model.StateDict state]> tp)
        | _ => tp
        end).
Proof.
  unfold Model.snapshot. destruct (tp !! key) as [[]|]; cbn; done.
Qed.

Lemma restore_live (key : string) (o : option Model.pyvalue)
    (tp : gmap string Model.pyvalue) :
  live_or_absent o →
  Model.restore key o tp = match o with Some v => <[key := v]> tp | None => tp end.
Proof. destruct o as [[]|]; cbn; done. Qed.

(** C8, as amended: when the optimizer and scheduler entries of the training
    parameters are live objects (or absent), [save] returns, and afterwards
    both entries hold the objects they held before and every other key is
    unchanged, except that a state dict has been left behind under
    "optimizer_state_dict" / "scheduler_state_dict" for every live object
    that was snapshot; without the object, an entry under
    "optimizer_state_dict" / "scheduler_state_dict" is what it was, too. *)
Theorem save_restores_live_references (self : Model.t) (model_file : string)
    (card : Model.ModelCard) (tp : gmap string Model.pyvalue) :
  Model.model_card self = Some card →
  Model.training_parameters card = Some tp →
  live_or_absent (tp !! "optimizer") →
  live_or_absent (tp !! "scheduler") →
  ∃ tp' written,
    Model.save self model_file
    = Ok (Model.mkModel (Model._get_state_dict self)
            (Some (Model.mkModelCard (Model.versions card) (Some tp'))),
          (model_file, written))
    ∧ tp' !! "optimizer" = tp !! "optimizer"
    ∧ tp' !! "scheduler" = tp !! "scheduler"
    ∧ (∀ key, key ≠ "optimizer_state_dict" → key ≠ "scheduler_state_dict" →
         tp' !! key = tp !! key)
    ∧ (is_Some (tp !! "optimizer") →
         tp' !! "optimizer_state_dict" = snapshot_of (tp !! "optimizer"))
    ∧ (is_Some (tp !! "scheduler") →
         tp' !! "scheduler_state_dict" = snapshot_of (tp !! "scheduler"))
    ∧ (∀ cls state, tp !! "optimizer" = Some (Model.Live cls state) →
         tp' !! "optimizer_state_dict" = Some (Model.StateDict state))
    ∧ (∀ cls state, tp !! "scheduler" = Some (Model.Live cls state) →
         tp' !! "scheduler_state_dict" = Some (Model.StateDict state))
    ∧ (tp !! "optimizer" = None →
         tp' !! "optimizer_state_dict" = tp !! "optimizer_state_dict")
    ∧ (tp !! "scheduler" = None →
         tp' !! "scheduler_state_dict" = tp !! "scheduler_state_dict").
Proof.
  intros Hcard Htp Hopt Hsch. unfold Model.save. rewrite Hcard, Htp.
  unfold Model.snapshot.
  change ("optimizer" +:+ "_state_dict") with "optimizer_state_dict".
  change ("scheduler" +:+ "_state_dict") with "scheduler_state_dict".
  destruct (tp !! "optimizer") as [[ocls ost| | |]|] eqn:Eo; try done;
    destruct (tp !! "scheduler") as [[scls sst| | |]|] eqn:Es; try done;
    cbn; simplify_map_eq; cbn;
    eexists _, _; (split; [reflexivity|]);
    repeat split; intros;
    try match goal with
        | |- _ !! ?k = _ !! ?k =>
            destruct (decide (k = "optimizer")) as [?|?];
            destruct (decide (k = "scheduler")) as [?|?]
        end;
    simplify_map_eq; try done;
    by match goal with H : is_Some None |- _ => destruct H end.
Qed.

Lemma save_restores_live_references_witness :
  ∃ tp' written,
    Model.save trained_model "best-model.pt"
    = Ok (Model.mkModel "weights"
            (Some (Model.mkModelCard {["flair_version" := "0.9"]} (Some tp'))),
          ("best-model.pt", written))
    ∧ tp' !! "optimizer" = Some (Model.Live "SGD" "momentum buffers")
    ∧ tp' !! "scheduler" = Some (Model.Live "AnnealOnPlateau" "bad epochs").
Proof.
  destruct (save_restores_live_references trained_model "best-model.pt"
              trained_card trained_parameters)
    as (tp' & written & Hsave & Hopt & Hsch & _); [reflexivity..|].
  exists tp', written. split; [exact Hsave|]. split; [exact Hopt|exact Hsch].
Defined.

(** C8 as stated fails: after [save] the training parameters are not what
    they were, they also hold the state dicts. *)
Lemma save_leaves_state_dicts_behind :
  ¬ (∀ self model_file self' written,
       Model.save self model_file = Ok (self', written) →
       Model.model_card self' = Model.model_card self).
Proof.
  intros Hframe.
  pose proof (Hframe trained_model "best-model.pt" _ _ eq_refl) as Hsame.
  assert (training_parameter trained_model "optimizer_state_dict" = None) as Hbefore
    by reflexivity.
  unfold training_parameter in Hbefore. rewrite <- Hsame in Hbefore.
  vm_compute in Hbefore. discriminate Hbefore.
Qed.

(** ** Dicts in insertion order *)

#[local] Arguments values_of : simpl never.
#[local] Arguments with_key : simpl never.
#[local] Arguments attach_all : simpl never.

Lemma values_of_dict_append (k k' v : string) (d : list (string * list string)) :
  values_of k' (dict_append k v d)
  = values_of k' d ++ (if decide (k = k') then [v] else []).
Proof.
  unfold values_of. induction d as [|[k0 vs] d IH]; cbn.
  - repeat case_decide; simplify_eq; done.
  - destruct (decide (k = k0)) as [->|Hne]; cbn.
    + destruct (decide (k' = k0)) as [->|Hne']; cbn.
      * by rewrite decide_True.
      * rewrite decide_False by done. by rewrite app_nil_r.
    + destruct (decide (k' = k0)) as [->|Hne']; cbn.
      * rewrite decide_False by done. by rewrite app_nil_r.
      * apply IH.
Qed.

Lemma dict_get_dict_append (k k' v : string) (d : list (string * list string)) :
  dict_get k' (dict_append k v d)
  = if decide (k = k') then Some (values_of k d ++ [v]) else dict_get k' d.
Proof.
  unfold values_of. induction d as [|[k0 vs] d IH]; cbn.
  - repeat case_decide; simplify_eq; done.
  - destruct (decide (k = k0)) as [->|Hne]; cbn.
    + repeat case_decide; simplify_eq; done.
    + rewrite IH. repeat case_decide; simplify_eq; done.
Qed.


Lemma elem_of_add_span (key key' : string) (spans : list string) :
  key' ∈ Classifier.add_span key spans ↔ key' = key ∨ key' ∈ spans.
Proof.
  unfold Classifier.add_span. case_decide as Hin.
  - split; [by right|]. by intros [->|?].
  - rewrite elem_of_app, list_elem_of_singleton. tauto.
Qed.

(** ** Classifier.evaluate: composite keys *)

Lemma string_of_uint_colon_inj (d1 d2 : Decimal.uint) (r1 r2 : string) :
  NilEmpty.string_of_uint d1 +:+ String (Ascii.ascii_of_nat 58) r1
  = NilEmpty.string_of_uint d2 +:+ String (Ascii.ascii_of_nat 58) r2 →
  d1 = d2 ∧ r1 = r2.
Proof.
  revert d2. induction d1 as [|d1 IH|d1 IH|d1 IH|d1 IH|d1 IH|d1 IH|d1 IH|d1 IH|d1 IH|d1 IH];
    intros [|d2|d2|d2|d2|d2|d2|d2|d2|d2|d2]; cbn; intros Heq;
    try discriminate Heq;
    try (injection Heq as Heq; apply IH in Heq as [-> ->]; done).
  by injection Heq as ->.
Qed.

Lemma str_colon_inj (n m : nat) (r1 r2 : string) :
  str n +:+ String (Ascii.ascii_of_nat 58) r1 = str m +:+ String (Ascii.ascii_of_nat 58) r2 →
  n = m ∧ r1 = r2.
Proof.
  unfold str.
  assert (∀ d, NilZero.string_of_uint d
               = NilEmpty.string_of_uint
                   (match d with Decimal.Nil => Decimal.D0 Decimal.Nil | _ => d end))
    as Hnil by (by intros []).
  assert (∀ d, Nat.of_uint (match d with Decimal.Nil => Decimal.D0 Decimal.Nil | _ => d end)
               = Nat.of_uint d) as Hof by (by intros []).
  rewrite !Hnil. intros [Hd ->]%string_of_uint_colon_inj. split; [|done].
  apply (f_equal Nat.of_uint) in Hd.
  by rewrite !Hof, !DecimalNat.Unsigned.of_to in Hd.
Qed.

Lemma same_key (n m : nat) (label label' : Label) :
  Classifier.representation n label = Classifier.representation m label'
  ↔ n = m ∧ identifier label = identifier label'.
Proof.
  unfold Classifier.representation. split.
  - intros Heq.
    change (str n +:+ String (Ascii.ascii_of_nat 58) (String (Ascii.ascii_of_nat 32) (identifier label))
            = str m +:+ String (Ascii.ascii_of_nat 58) (String (Ascii.ascii_of_nat 32) (identifier label'))) in Heq.
    apply str_colon_inj in Heq as [-> Heq]. by injection Heq as ->.
  - by intros [-> ->].
Qed.

Lemma with_key_other (n m : nat) (label : Label) (labels : list Label) :
  n ≠ m → with_key n (Classifier.representation m label) labels = [].
Proof.
  intros Hne. unfold with_key. apply filter_none.
  intros l _ [Heq _]%same_key. done.
Qed.

Lemma with_key_same (n : nat) (label : Label) (labels : list Label) :
  with_key n (Classifier.representation n label) labels = same_unit label labels.
Proof.
  unfold with_key, same_unit. apply list_filter_iff. intros l.
  rewrite same_key. tauto.
Qed.

(** ** Classifier.evaluate: what is recorded for a data point *)

Lemma foldl_record_gold (dict : option Dictionary.t) (gs : list Label)
    (st : Classifier.spans) :
  let st' := foldl (Classifier.record_gold dict) st gs in
  Classifier.sentence_id st' = Classifier.sentence_id st
  ∧ Classifier.all_predicted_values st' = Classifier.all_predicted_values st
  ∧ ∀ key,
      values_of key (Classifier.all_true_values st')
      = values_of key (Classifier.all_true_values st)
        ++ (recorded_gold_value dict <$> with_key (Classifier.sentence_id st) key gs).
Proof.
  revert st. induction gs as [|g gs IH]; intros st; cbn.
  - repeat split. intros key. by rewrite app_nil_r.
  - destruct (IH (Classifier.record_gold dict st g)) as (Hid & Hpred & Htrue).
    cbn in Hid, Hpred. repeat split; [done..|].
    intros key. rewrite Htrue. cbn. rewrite values_of_dict_append.
    unfold with_key. rewrite filter_cons. rewrite <- app_assoc. f_equal.
    case_decide; by rewrite ?decide_True, ?decide_False by done.
Qed.

Lemma foldl_record_predicted (ps : list Label) (st : Classifier.spans) :
  let st' := foldl Classifier.record_predicted st ps in
  Classifier.sentence_id st' = Classifier.sentence_id st
  ∧ Classifier.all_true_values st' = Classifier.all_true_values st
  ∧ ∀ key,
      values_of key (Classifier.all_predicted_values st')
      = values_of key (Classifier.all_predicted_values st)
        ++ (value <$> with_key (Classifier.sentence_id st) key ps).
Proof.
  revert st. induction ps as [|p ps IH]; intros st; cbn.
  - repeat split. intros key. by rewrite app_nil_r.
  - destruct (IH (Classifier.record_predicted st p)) as (Hid & Htrue & Hpred).
    cbn in Hid, Htrue. repeat split; [done..|].
    intros key. rewrite Hpred. cbn. rewrite values_of_dict_append.
    unfold with_key. rewrite filter_cons. rewrite <- app_assoc. f_equal.
    case_decide; by rewrite ?decide_True, ?decide_False by done.
Qed.

Lemma collect_datapoint_values (gold_label_type : string)
    (dict : option Dictionary.t) (h : heap) (st : Classifier.spans) (datapoint : loc) :
  let st' := Classifier.collect_datapoint gold_label_type dict h st datapoint in
  Classifier.sentence_id st' = S (Classifier.sentence_id st)
  ∧ (∀ key,
       values_of key (Classifier.all_true_values st')
       = values_of key (Classifier.all_true_values st)
         ++ (recorded_gold_value dict
               <$> with_key (Classifier.sentence_id st) key
                     (get_labels h datapoint gold_label_type)))
  ∧ (∀ key,
       values_of key (Classifier.all_predicted_values st')
       = values_of key (Classifier.all_predicted_values st)
         ++ (value <$> with_key (Classifier.sentence_id st) key
                         (get_labels h datapoint "predicted"))).
Proof.
  unfold Classifier.collect_datapoint. cbn.
  destruct (foldl_record_gold dict (get_labels h datapoint gold_label_type) st)
    as (Hid1 & Hpred1 & Htrue1).
  destruct (foldl_record_predicted (get_labels h datapoint "predicted")
              (foldl (Classifier.record_gold dict) st
                 (get_labels h datapoint gold_label_type)))
    as (Hid2 & Htrue2 & Hpred2).
  cbn in *. repeat split.
  - by rewrite Hid2, Hid1.
  - intros key. by rewrite Htrue2, Htrue1.
  - intros key. by rewrite Hpred2, Hid1, Hpred1.
Qed.

Section Recorded.

Context (predict : heap → list loc → result (heap * Classifier.predict_return))
        (printout : bool → string → heap → loc → heap * list string).

Lemma collect_datapoint_recorded (gold_label_type : string)
    (dict : option Dictionary.t) (h0 h2 : heap) (batch : list loc)
    (r : Classifier.predict_return) (processed : list loc)
    (found : Classifier.spans) (datapoint : loc) :
  predict h0 batch = Ok (h2, r) →
  datapoint ∈ batch →
  recorded_so_far predict (recorded_gold_value dict) gold_label_type processed found →
  recorded_so_far predict (recorded_gold_value dict) gold_label_type
    (processed ++ [datapoint])
    (Classifier.collect_datapoint gold_label_type dict h2 found datapoint).
Proof.
  intros Hpredict Hin (Hid & Hdone & Hnext).
  destruct (collect_datapoint_values gold_label_type dict h2 found datapoint)
    as (Hid' & Htrue & Hpred).
  cbn zeta in Hid', Htrue, Hpred. rewrite Hid in Htrue, Hpred.
  split; [|split].
  - rewrite Hid', Hid, length_app. cbn. lia.
  - intros n dp Hn. apply lookup_app_Some in Hn as [Hn|[Hlen Hn]].
    + destruct (Hdone n dp Hn) as (h0' & batch' & h2' & r' & Hin' & Hpredict' & Hrec).
      exists h0', batch', h2', r'. split; [done|]. split; [done|].
      intros label. rewrite Htrue, Hpred.
      apply lookup_lt_Some in Hn.
      rewrite !with_key_other by lia. rewrite !app_nil_r. apply Hrec.
    + apply list_lookup_singleton_Some in Hn as [Hn <-].
      assert (n = length processed) as -> by lia.
      exists h0, batch, h2, r. split; [done|]. split; [done|].
      intros label. rewrite Htrue, Hpred.
      destruct (Hnext (length processed) label) as [-> ->]; [done|].
      by rewrite !with_key_same.
  - intros n label Hn. rewrite length_app in Hn. cbn in Hn.
    rewrite Htrue, Hpred. rewrite !with_key_other by lia.
    rewrite !app_nil_r. apply Hnext. lia.
Qed.

Lemma collect_batch_recorded (gold_label_type : string)
    (dict : option Dictionary.t) (h0 h2 : heap) (batch : list loc)
    (r : Classifier.predict_return) (todo processed : list loc)
    (found : Classifier.spans) :
  predict h0 batch = Ok (h2, r) →
  (∀ datapoint, datapoint ∈ todo → datapoint ∈ batch) →
  recorded_so_far predict (recorded_gold_value dict) gold_label_type processed found →
  recorded_so_far predict (recorded_gold_value dict) gold_label_type
    (processed ++ todo)
    (foldl (Classifier.collect_datapoint gold_label_type dict h2) found todo).
Proof.
  intros Hpredict. revert processed found.
  induction todo as [|datapoint todo IH]; intros processed found Hsub Hrec; cbn.
  - by rewrite app_nil_r.
  - rewrite cons_middle, (assoc_L (++) processed [datapoint] todo). apply IH.
    + intros dp Hdp. apply Hsub. by constructor.
    + eapply collect_datapoint_recorded; [done| |done]. apply Hsub. constructor.
Qed.

Lemma batch_step_recorded (gold_label_type : string) (out_path : option string)
    (dict : option Dictionary.t) (batch processed : list loc)
    (st st' : Classifier.loop_state) :
  Classifier.batch_step predict printout gold_label_type out_path dict batch st
  = Ok st' →
  recorded_so_far predict (recorded_gold_value dict) gold_label_type processed
    (Classifier.found st) →
  recorded_so_far predict (recorded_gold_value dict) gold_label_type
    (processed ++ batch) (Classifier.found st').
Proof.
  unfold Classifier.batch_step.
  intros ([h2 r] & Hpredict & Hrest)%bind_Ok Hrec.
  apply bind_Ok in Hrest as ([eval_loss' average_over'] & _ & Hrest).
  assert (Classifier.found st'
          = foldl (Classifier.collect_datapoint gold_label_type dict h2)
              (Classifier.found st) batch) as ->.
  { destruct (Classifier.path_is_set out_path);
      [destruct Classifier.printout_batch|]; by injection Hrest as <-. }
  by eapply collect_batch_recorded.
Qed.

Lemma for_each_recorded (gold_label_type : string) (out_path : option string)
    (dict : option Dictionary.t) (bs : list (list loc)) (processed : list loc)
    (st st' : Classifier.loop_state) :
  for_each bs (Classifier.batch_step predict printout gold_label_type out_path dict) st
  = Ok st' →
  recorded_so_far predict (recorded_gold_value dict) gold_label_type processed
    (Classifier.found st) →
  recorded_so_far predict (recorded_gold_value dict) gold_label_type
    (processed ++ concat bs) (Classifier.found st').
Proof.
  revert processed st. induction bs as [|batch bs IH]; intros processed st; cbn.
  - intros [= <-]. by rewrite app_nil_r.
  - intros (st1 & Hstep & Hrest)%bind_Ok Hrec.
    rewrite (assoc_L (++) processed batch (concat bs)).
    eapply IH; [done|]. by eapply batch_step_recorded.
Qed.

(** C6: when the loop over the batches has come to its end with a gold
    label dictionary that has an index 0, every data point was read in the
    state in which [predict] had left its batch, and under the composite
    key of its number and a sub-unit the recorded gold values are, in
    order, those of its gold labels of that sub-unit, with "<unk>" in the
    place of every value that maps to index 0 of the dictionary and the
    value itself otherwise; the recorded predicted values are exactly the
    values of its predicted labels of that sub-unit, whatever index they
    map to. *)
Theorem unknown_gold_values_replaced_predicted_kept (gold_label_type : string)
    (out_path : option string) (mini_batch_size : nat) (d : Dictionary.t)
    (h : heap) (data_points : list loc) (st : Classifier.loop_state) :
  Dictionary.len d ≠ 0 →
  Classifier.run_batches predict printout gold_label_type out_path
    mini_batch_size (Some d) h data_points = Ok st →
  ∀ n datapoint, data_points !! n = Some datapoint →
    ∃ h0 batch h2 r,
      datapoint ∈ batch
      ∧ predict h0 batch = Ok (h2, r)
      ∧ ∀ label,
          values_of (Classifier.representation n label)
            (Classifier.all_true_values (Classifier.found st))
          = (λ gold_label,
               if decide (Dictionary.get_idx_for_item d (value gold_label) = 0)
               then "<unk>" else value gold_label)
              <$> same_unit label (get_labels h2 datapoint gold_label_type)
          ∧ values_of (Classifier.representation n label)
              (Classifier.all_predicted_values (Classifier.found st))
            = value <$> same_unit label (get_labels h2 datapoint "predicted").
Proof.
  intros Hlen. unfold Classifier.run_batches. case_decide as Hsize; [done|].
  intros Hrun n datapoint Hn.
  apply (for_each_recorded gold_label_type out_path (Some d) _ []) in Hrun.
  - rewrite app_nil_l, concat_batches in Hrun by lia.
    destruct Hrun as (_ & Hdone & _).
    destruct (Hdone n datapoint Hn) as (h0 & batch & h2 & r & Hin & Hpredict & Hrec).
    exists h0, batch, h2, r. split; [done|]. split; [done|].
    intros label. destruct (Hrec label) as [-> ->]. split; [|done].
    apply list_fmap_ext. intros i g _. unfold recorded_gold_value. cbn.
    rewrite (bool_decide_eq_false_2 _ Hlen). cbn.
    by case_bool_decide; case_decide.
  - split; [done|]. split; [by intros n' dp ?|]. by intros n' label _.
Qed.

End Recorded.

(** A gold label MISC that the dictionary does not know and a predicted
    label LOC that it does not know either: "<unk>" and "LOC" are
    recorded. *)
Lemma unknown_gold_values_replaced_predicted_kept_witness :
  ∃ st,
    Classifier.run_batches
      (λ _ batch, Ok (two_points, Classifier.LossAndCount 0%Qc (length batch)))
      (λ _ _ h _, (h, [])) "gold" None 32 (Some gold_dictionary) two_points [0; 1]
    = Ok st
    ∧ get_labels two_points 0 "gold" = [misc_gold]
    ∧ get_labels two_points 0 "predicted" = [loc_predicted]
    ∧ values_of "0: Span [1,2]" (Classifier.all_true_values (Classifier.found st))
      = ["<unk>"]
    ∧ values_of "0: Span [1,2]" (Classifier.all_predicted_values (Classifier.found st))
      = ["LOC"].
Proof.
  eexists. split; [reflexivity|]. split; [reflexivity|]. split; [reflexivity|].
  destruct (unknown_gold_values_replaced_predicted_kept
              (λ _ batch, Ok (two_points, Classifier.LossAndCount 0%Qc (length batch)))
              (λ _ _ h _, (h, [])) "gold" None 32 gold_dictionary two_points [0; 1]
              _ ltac:(vm_compute; discriminate) eq_refl 0 0 eq_refl)
    as (h0 & batch & h2 & r & _ & Hpredict & Hrec).
  injection Hpredict as <- _.
  destruct (Hrec misc_gold) as [Hgold Hpred].
  split; [exact Hgold|exact Hpred].
Defined.

(** Values that were recorded stay recorded when further labels are. *)
Lemma collect_datapoint_keeps_values (gold_label_type : string)
    (dict : option Dictionary.t) (h : heap) (st : Classifier.spans) (datapoint : loc)
    (key v : string) :
  let st' := Classifier.collect_datapoint gold_label_type dict h st datapoint in
  (v ∈ values_of key (Classifier.all_true_values st) →
     v ∈ values_of key (Classifier.all_true_values st'))
  ∧ (v ∈ values_of key (Classifier.all_predicted_values st) →
       v ∈ values_of key (Classifier.all_predicted_values st')).
Proof.
  destruct (collect_datapoint_values gold_label_type dict h st datapoint)
    as (_ & Htrue & Hpred).
  cbn. rewrite Htrue, Hpred. split; intros Hv; apply elem_of_app; by left.
Qed.

(** ** Classifier.evaluate: the rows that are scored *)

Lemma add_item_extends (d : Dictionary.t) (item : string) :
  ∃ rest, Dictionary.idx2item (Dictionary.add_item d item)
          = Dictionary.idx2item d ++ rest.
Proof.
  unfold Dictionary.add_item. destruct (Dictionary.item2idx d item).
  - exists []. by rewrite app_nil_r.
  - by exists [item].
Qed.

Lemma foldl_add_item_extends (items : list string) (d : Dictionary.t) :
  ∃ rest, Dictionary.idx2item (foldl Dictionary.add_item d items)
          = Dictionary.idx2item d ++ rest.
Proof.
  revert d. induction items as [|item items IH]; intros d; cbn.
  - exists []. by rewrite app_nil_r.
  - destruct (IH (Dictionary.add_item d item)) as [rest2 ->].
    destruct (add_item_extends d item) as [rest1 ->].
    exists (rest1 ++ rest2). by rewrite app_assoc.
Qed.

Lemma add_all_values_extends (values : list (string * list string))
    (d : Dictionary.t) :
  ∃ rest, Dictionary.idx2item (Classifier.add_all_values d values)
          = Dictionary.idx2item d ++ rest.
Proof.
  unfold Classifier.add_all_values.
  revert d. induction values as [|kv values IH]; intros d; cbn.
  - exists []. by rewrite app_nil_r.
  - destruct (IH (foldl Dictionary.add_item d kv.2)) as [rest2 ->].
    destruct (foldl_add_item_extends kv.2 d) as [rest1 ->].
    exists (rest1 ++ rest2). by rewrite app_assoc.
Qed.

Lemma evaluation_label_dictionary_O (st : Classifier.spans) :
  ∃ rest, Dictionary.idx2item (Classifier.evaluation_label_dictionary st)
          = "O" :: rest.
Proof.
  unfold Classifier.evaluation_label_dictionary.
  destruct (add_all_values_extends (Classifier.all_predicted_values st)
              (Classifier.add_all_values
                 (Dictionary.add_item (Dictionary.new false) "O")
                 (Classifier.all_true_values st))) as [rest2 ->].
  destruct (add_all_values_extends (Classifier.all_true_values st)
              (Dictionary.add_item (Dictionary.new false) "O")) as [rest1 ->].
  exists (rest1 ++ rest2). by rewrite <- app_assoc.
Qed.

Lemma indicator_O (st : Classifier.spans) :
  Dictionary.get_item_for_index (Classifier.evaluation_label_dictionary st) 0 = Ok "O"
  ∧ Classifier.indicator (Classifier.evaluation_label_dictionary st) ["O"]
    = <[0 := 1]> (replicate (Dictionary.len (Classifier.evaluation_label_dictionary st)) 0).
Proof.
  destruct (evaluation_label_dictionary_O st) as [rest Hitems].
  unfold Dictionary.get_item_for_index, Classifier.indicator,
    Dictionary.get_idx_for_item, Dictionary.item2idx.
  rewrite Hitems. cbn. by rewrite decide_True.
Qed.

Lemma collect_datapoint_without_labels (gold_label_type : string)
    (dict : option Dictionary.t) (h : heap) (st : Classifier.spans) (datapoint : loc) :
  get_labels h datapoint gold_label_type = [] →
  get_labels h datapoint "predicted" = [] →
  Classifier.collect_datapoint gold_label_type dict h st datapoint
  = Classifier.next_sentence st.
Proof.
  intros Hgold Hpred. unfold Classifier.collect_datapoint.
  by rewrite Hgold, Hpred.
Qed.

(** C9, as amended: a key of [all_spans] without gold values is scored with
    the gold row that is set for "O" alone (index 0 of the evaluation
    dictionary), and likewise on the predicted side; a data point without
    gold and without predicted labels only advances the sentence counter: it
    adds no key, so no row, and the number of rows set for any class is what
    it was. *)
Theorem one_sided_keys_score_against_O (gold_label_type : string)
    (dict : option Dictionary.t) (h : heap) (st : Classifier.spans) (datapoint : loc) :
  let d := Classifier.evaluation_label_dictionary st in
  (∀ i span, Classifier.all_spans st !! i = Some span →
     (dict_get span (Classifier.all_true_values st) = None →
        Classifier.y_true st !! i = Some (Classifier.indicator d ["O"]))
     ∧ (dict_get span (Classifier.all_predicted_values st) = None →
          Classifier.y_pred st !! i = Some (Classifier.indicator d ["O"])))
  ∧ Dictionary.get_item_for_index d 0 = Ok "O"
  ∧ Classifier.indicator d ["O"] = <[0 := 1]> (replicate (Dictionary.len d) 0)
  ∧ (get_labels h datapoint gold_label_type = [] →
     get_labels h datapoint "predicted" = [] →
     let st' := Classifier.collect_datapoint gold_label_type dict h st datapoint in
     Classifier.all_spans st' = Classifier.all_spans st
     ∧ Classifier.y_true st' = Classifier.y_true st
     ∧ Classifier.y_pred st' = Classifier.y_pred st
     ∧ ∀ class,
         support (Classifier.y_true st') class = support (Classifier.y_true st) class
         ∧ support (Classifier.y_pred st') class = support (Classifier.y_pred st) class).
Proof.
  intros d. subst d.
  split; [|split; [apply indicator_O|split; [apply indicator_O|]]].
  - intros i span Hi. unfold Classifier.y_true, Classifier.y_pred.
    rewrite !list_lookup_fmap, Hi. cbn. unfold Classifier.values_or_O.
    split; by intros ->.
  - intros Hgold Hpred st'. subst st'.
    rewrite (collect_datapoint_without_labels _ dict _ st _ Hgold Hpred).
    done.
Qed.

Lemma one_sided_keys_score_against_O_witness :
  Classifier.y_true
    (Classifier.collect_datapoint "gold" None two_points
       (Classifier.collect_datapoint "gold" None two_points Classifier.no_spans 0) 1)
  = Classifier.y_true
      (Classifier.collect_datapoint "gold" None two_points Classifier.no_spans 0).
Proof.
  destruct (one_sided_keys_score_against_O "gold" None two_points
              (Classifier.collect_datapoint "gold" None two_points
                 Classifier.no_spans 0) 1)
    as (_ & _ & _ & Hempty).
  destruct Hempty as (_ & Htrue & _); [reflexivity|reflexivity|].
  exact Htrue.
Defined.

(** C9 as stated fails: a data point without labels does not add a row that
    compares "O" with "O"; it adds no row. *)
Lemma empty_datapoint_adds_no_O_row :
  ¬ (∀ gold_label_type dict h st datapoint,
       get_labels h datapoint gold_label_type = [] →
       get_labels h datapoint "predicted" = [] →
       let st' := Classifier.collect_datapoint gold_label_type dict h st datapoint in
       let O_row := Classifier.indicator (Classifier.evaluation_label_dictionary st') ["O"] in
       Classifier.y_true st' = Classifier.y_true st ++ [O_row]
       ∧ Classifier.y_pred st' = Classifier.y_pred st ++ [O_row]).
Proof.
  intros Hrow.
  destruct (Hrow "gold" None two_points Classifier.no_spans 1 eq_refl eq_refl)
    as [Htrue _].
  vm_compute in Htrue. discriminate Htrue.
Qed.

(** The rows of the two data points: one row for the span, gold MISC against
    predicted LOC, and nothing for the second data point. *)
Example two_points_rows :
  let st := foldl (Classifier.collect_datapoint "gold" None two_points)
              Classifier.no_spans [0; 1] in
  Classifier.all_spans st = ["0: Span [1,2]"]
  ∧ Classifier.y_true st = [[0; 1; 0]]
  ∧ Classifier.y_pred st = [[0; 0; 1]].
Proof. vm_compute. done. Qed.

(** *** No key without a value *)

Lemma record_gold_keys (dict : option Dictionary.t) (st : Classifier.spans)
    (g : Label) :
  keys_have_values st → keys_have_values (Classifier.record_gold dict st g).
Proof.
  intros Hinv key. unfold Classifier.record_gold. cbn.
  rewrite elem_of_add_span, dict_get_dict_append.
  intros [->|Hin].
  - left. rewrite decide_True by done. eauto.
  - case_decide; [left; eauto|]. by apply Hinv.
Qed.

Lemma record_predicted_keys (st : Classifier.spans) (p : Label) :
  keys_have_values st → keys_have_values (Classifier.record_predicted st p).
Proof.
  intros Hinv key. unfold Classifier.record_predicted. cbn.
  rewrite elem_of_add_span, dict_get_dict_append.
  intros [->|Hin].
  - right. rewrite decide_True by done. eauto.
  - case_decide; [right; eauto|]. by apply Hinv.
Qed.

Lemma foldl_invariant {A S : Type} (P : S → Prop) (f : S → A → S) (xs : list A) (s : S) :
  (∀ s x, P s → P (f s x)) → P s → P (foldl f s xs).
Proof.
  intros Hstep. revert s. induction xs as [|x xs IH]; intros s Hs; cbn; [done|].
  apply IH. by apply Hstep.
Qed.

Lemma collect_datapoint_keys (gold_label_type : string)
    (dict : option Dictionary.t) (h : heap) (st : Classifier.spans) (datapoint : loc) :
  keys_have_values st →
  keys_have_values (Classifier.collect_datapoint gold_label_type dict h st datapoint).
Proof.
  intros Hinv. unfold Classifier.collect_datapoint.
  assert (keys_have_values
            (foldl Classifier.record_predicted
               (foldl (Classifier.record_gold dict) st
                  (get_labels h datapoint gold_label_type))
               (get_labels h datapoint "predicted"))) as Hinv'.
  { apply foldl_invariant; [intros; by apply record_predicted_keys|].
    apply foldl_invariant; [intros; by apply record_gold_keys|done]. }
  exact Hinv'.
Qed.

Lemma for_each_invariant {A S : Type} (P : S → Prop) (body : A → S → result S)
    (xs : list A) (s s' : S) :
  (∀ x s s', body x s = Ok s' → P s → P s') →
  P s → for_each xs body s = Ok s' → P s'.
Proof.
  intros Hstep. revert s. induction xs as [|x xs IH]; intros s Hs; cbn.
  - by intros [= <-].
  - intros (s1 & Hbody & Hrest)%bind_Ok. eapply IH; [|done]. eauto.
Qed.

(** ** Classifier.evaluate: the whole call *)

Section EvaluateProperties.

Context (predict : heap → list loc → result (heap * Classifier.predict_return))
        (printout : bool → string → heap → loc → heap * list string)
        (sklearn_classification_report :
           list (list nat) → list (list nat) → list string → list nat → string)
        (sklearn_classification_report_dict :
           list (list nat) → list (list nat) → list string → list nat
           → gmap string (gmap string Qc))
        (sklearn_accuracy_score : list (list nat) → list (list nat) → Qc)
        (round4 : Qc → Qc)
        (format_float : Qc → string).

Lemma batch_step_found (gold_label_type : string) (out_path : option string)
    (dict : option Dictionary.t) (batch : list loc)
    (st st' : Classifier.loop_state) :
  Classifier.batch_step predict printout gold_label_type out_path dict batch st
  = Ok st' →
  ∃ h, Classifier.found st'
       = foldl (Classifier.collect_datapoint gold_label_type dict h)
           (Classifier.found st) batch.
Proof.
  unfold Classifier.batch_step.
  intros ([h2 loss_and_count] & _ & Hrest)%bind_Ok.
  apply bind_Ok in Hrest as ([eval_loss' average_over'] & _ & Hrest).
  exists h2. destruct (Classifier.path_is_set out_path);
    [destruct Classifier.printout_batch|];
    by injection Hrest as <-.
Qed.

(** Whatever [predict] does, every key that the loop over the batches puts
    into [all_spans] has a gold value or a predicted value: no row is scored
    with the default on both sides. *)
Lemma found_keys_have_values (gold_label_type : string) (out_path : option string)
    (mini_batch_size : nat) (dict : option Dictionary.t) (h : heap)
    (data_points : list loc) (st : Classifier.loop_state) :
  Classifier.run_batches predict printout gold_label_type out_path
    mini_batch_size dict h data_points = Ok st →
  keys_have_values (Classifier.found st).
Proof.
  unfold Classifier.run_batches. case_decide; [done|].
  apply (for_each_invariant (λ st, keys_have_values (Classifier.found st))).
  - intros batch s s' (h2 & ->)%batch_step_found Hs.
    apply foldl_invariant; [|done].
    intros; by apply collect_datapoint_keys.
  - intros key Hkey. cbn in Hkey. by apply elem_of_nil in Hkey.
Qed.

(** C1, at an input with exactly one gold label and no prediction: the
    branch that computes the report is not taken; the call reports that no
    labels were found and returns zeros. *)
Theorem single_gold_label_reported_as_no_labels :
  ∃ o,
    Classifier.evaluate predict_no_label printout sklearn_classification_report
      sklearn_classification_report_dict sklearn_accuracy_score round4
      format_float one_gold_label [0] "gold" None 32
      ("micro avg", "f1-score") [] None = Ok o
    ∧ get_labels one_gold_label 0 "gold" = [per_gold]
    ∧ Classifier.logged o = [(ERROR, Classifier.no_labels_message)]
    ∧ Result.main_score (Classifier.returned o) = 0%Qc
    ∧ Result.classification_report (Classifier.returned o) = ∅
    ∧ Classifier.returned o
      = Classifier.make_result format_float Classifier.zero_numbers
          (0 + 0)%Qc 1.
Proof. eexists. split; [reflexivity|]. cbn. done. Qed.

End EvaluateProperties.

(** ** DefaultClassifier.predict: the labels that are added *)

Lemma get_labels_add_complex_label (o o' : loc) (typename typename' : string)
    (label : Label) (h : heap) :
  get_labels (add_complex_label o typename label h) o' typename'
  = get_labels h o' typename'
    ++ (if decide (o' = o ∧ typename = typename') then [label] else []).
Proof.
  unfold get_labels, add_complex_label, update.
  destruct (decide (o' = o)) as [->|Hne]; cbn.
  - rewrite filter_app, fmap_app. f_equal.
    rewrite filter_cons, filter_nil. cbn.
    repeat case_decide; destruct_and?; simplify_eq; try done.
    exfalso; eauto.
  - rewrite decide_False by (by intros [? _]). by rewrite app_nil_r.
Qed.

Lemma get_labels_attach_all (typename : string) (calls : list (loc * Label))
    (h : heap) (o : loc) :
  get_labels (attach_all typename calls h) o typename
  = get_labels h o typename ++ (snd <$> filter (λ c, c.1 = o) calls).
Proof.
  unfold attach_all. revert h. induction calls as [|[o' l] calls IH]; intros h; cbn.
  - by rewrite app_nil_r.
  - rewrite IH, get_labels_add_complex_label.
    rewrite <- app_assoc. f_equal.
    repeat case_decide; destruct_and?; simplify_eq; try done.
    exfalso; eauto.
Qed.

Lemma attach_all_app (typename : string) (calls1 calls2 : list (loc * Label))
    (h : heap) :
  attach_all typename (calls1 ++ calls2) h
  = attach_all typename calls2 (attach_all typename calls1 h).
Proof. unfold attach_all. by rewrite foldl_app. Qed.

(** A loop whose body only adds labels adds the labels of all its rounds. *)
Lemma for_each_attach {A : Type} (typename : string) (xs : list A)
    (body : A → heap → result heap) (calls : A → list (loc * Label)) (h : heap) :
  (∀ x h, x ∈ xs → body x h = Ok (attach_all typename (calls x) h)) →
  for_each xs body h = Ok (attach_all typename (xs ≫= calls) h).
Proof.
  revert h. induction xs as [|x xs IH]; intros h Hbody; cbn; [done|].
  rewrite Hbody by constructor. cbn.
  rewrite IH, attach_all_app; [done|].
  intros y h' Hy. apply Hbody. by constructor.
Qed.

Lemma get_labels_remove_labels (o o' : loc) (typename : string) (h : heap) :
  get_labels (remove_labels o typename h) o' typename
  = if decide (o' = o) then [] else get_labels h o' typename.
Proof.
  unfold get_labels, remove_labels, update. case_decide; [|done]. cbn.
  induction (annotations (h o)) as [|a l IH]; [done|].
  rewrite (filter_cons (λ a, a.1 ≠ typename)).
  case_decide as Ha; [|done].
  rewrite filter_cons. by rewrite decide_False.
Qed.

Lemma get_labels_remove_labels_other (o o' : loc) (typename t : string) (h : heap) :
  t ≠ typename → get_labels (remove_labels o typename h) o' t = get_labels h o' t.
Proof.
  intros Ht. unfold get_labels, remove_labels, update. case_decide; [|done].
  subst o'. cbn. f_equal.
  induction (annotations (h o)) as [|a l IH]; [done|].
  rewrite (filter_cons (λ a, a.1 ≠ typename)), (filter_cons _ a l).
  destruct (decide (a.1 = t)) as [Ha|Ha].
  - rewrite decide_True by congruence. rewrite filter_cons, decide_True by done.
    by rewrite IH.
  - case_decide; [|done]. by rewrite filter_cons, decide_False.
Qed.

Lemma remove_labels_clears (batch : list loc) (typename : string) (h : heap)
    (sentence : loc) :
  sentence ∈ batch →
  get_labels (foldl (λ h sentence, remove_labels sentence typename h) h batch)
    sentence typename = [].
Proof.
  revert h. induction batch as [|o batch IH]; intros h Hin; cbn.
  - by apply elem_of_nil in Hin.
  - apply elem_of_cons in Hin as [->|Hin]; [|by apply IH].
    apply (foldl_invariant (λ h, get_labels h o typename = [])).
    + intros h' o' Hnone. rewrite get_labels_remove_labels. by case_decide.
    + rewrite get_labels_remove_labels. by rewrite decide_True.
Qed.

Lemma get_labels_cleared (batch : list loc) (typename : string) (h : heap) (o : loc) :
  get_labels (foldl (λ h sentence, remove_labels sentence typename h) h batch)
    o typename
  = if decide (o ∈ batch) then [] else get_labels h o typename.
Proof.
  case_decide as Hin; [by apply remove_labels_clears|].
  revert h. induction batch as [|o' batch IH]; intros h; cbn; [done|].
  rewrite IH by (intros ?; apply Hin; by constructor).
  rewrite get_labels_remove_labels. rewrite decide_False; [done|].
  intros ->. apply Hin. constructor.
Qed.

Lemma elem_of_calls_for (o : loc) (label : Label) (calls : list (loc * Label)) :
  label ∈ snd <$> filter (λ c, c.1 = o) calls ↔ (o, label) ∈ calls.
Proof.
  rewrite list_elem_of_fmap. split.
  - intros ([o' l] & -> & [Ho Hin]%list_elem_of_filter). cbn in Ho. by subst o'.
  - intros Hin. exists (o, label). split; [done|]. by apply list_elem_of_filter.
Qed.

Lemma elem_of_enumerate {A : Type} (xs : list A) (i : nat) (x : A) :
  (i, x) ∈ enumerate xs ↔ xs !! i = Some x.
Proof.
  unfold enumerate. rewrite elem_of_lookup_imap. split.
  - by intros (j & y & [= -> ->] & Hj).
  - intros Hi. by exists i, x.
Qed.

Section PredictProperties.

Context (sigmoid : Qc → Qc) (softmax : list Qc → list Qc).

Lemma elem_of_multi_label_class_calls (self : DefaultClassifier.t) (ret : bool)
    (scores : DefaultClassifier.tensor) (s_idx : nat) (sentence : loc)
    (cand : Label) (l_idx : nat) (o : loc) (label : Label) :
  (o, label) ∈ multi_label_class_calls sigmoid self ret scores s_idx sentence cand l_idx
  ↔ ∃ label_value threshold,
      Dictionary.get_item_for_index (DefaultClassifier.label_dictionary self) l_idx
        = Ok label_value
      ∧ label_value ≠ "O"
      ∧ DefaultClassifier._get_label_threshold
          (DefaultClassifier._multi_label_threshold self) label_value = Ok threshold
      ∧ ((threshold < sigmoid (DefaultClassifier.data scores s_idx l_idx))%Qc
         ∨ ret = true)
      ∧ o = sentence
      ∧ label = spawn cand label_value
                  (sigmoid (DefaultClassifier.data scores s_idx l_idx)).
Proof.
  unfold multi_label_class_calls.
  destruct (Dictionary.get_item_for_index _ l_idx) as [v|e].
  2:{ split; [by intros ?%elem_of_nil|]. by intros (? & ? & ? & _). }
  destruct (decide (v = "O")) as [->|Hv].
  { split; [by intros ?%elem_of_nil|]. by intros (? & ? & [= <-] & ? & _). }
  destruct (DefaultClassifier._get_label_threshold _ v) as [t|e] eqn:Ht.
  2:{ split; [by intros ?%elem_of_nil|].
      intros (? & ? & [= <-] & _ & Ht' & _). by rewrite Ht in Ht'. }
  cbn. destruct (bool_decide _ || ret) eqn:Hcond.
  - rewrite list_elem_of_singleton. split.
    + intros [= -> ->]. exists v, t. repeat split; try done.
      apply orb_true_iff in Hcond as [Hlt%bool_decide_eq_true|?]; eauto.
    + intros (v' & t' & [= <-] & _ & Ht' & _ & -> & ->). done.
  - split; [by intros ?%elem_of_nil|].
    intros (v' & t' & [= <-] & _ & Ht' & Hc & _).
    rewrite Ht in Ht'. injection Ht' as <-.
    apply orb_false_iff in Hcond as [Hlt%bool_decide_eq_false Hret].
    destruct Hc as [?|?]; [done|congruence].
Qed.

Lemma label_point_multi_calls (self : DefaultClassifier.t) (ret : bool)
    (label_name : string) (scores : DefaultClassifier.tensor) (s_idx : nat)
    (sentence : loc) (cand : Label) (h : heap) :
  is_Some (DefaultClassifier._multi_label_threshold self !! "default") →
  DefaultClassifier.size1 scores
    ≤ Dictionary.len (DefaultClassifier.label_dictionary self) →
  s_idx < DefaultClassifier.size0 scores →
  DefaultClassifier.label_point_multi self ret label_name
    (DefaultClassifier.sigmoided sigmoid scores) s_idx sentence cand h
  = Ok (attach_all label_name
          (seq 0 (DefaultClassifier.size1 scores)
           ≫= multi_label_class_calls sigmoid self ret scores s_idx sentence cand) h).
Proof.
  intros Hdefault Hclasses Hrow. unfold DefaultClassifier.label_point_multi.
  apply for_each_attach. intros l_idx h' [_ Hl]%elem_of_seq. cbn in Hl.
  unfold multi_label_class_calls, Dictionary.get_item_for_index.
  destruct (lookup_lt_is_Some_2 (Dictionary.idx2item (DefaultClassifier.label_dictionary self)) l_idx)
    as [v Hv]; [unfold Dictionary.len in Hclasses; lia|].
  rewrite Hv. cbn. case_decide; [done|].
  destruct (get_label_threshold_total _ v Hdefault) as [t Ht]. rewrite Ht. cbn.
  unfold DefaultClassifier.item. cbn. rewrite decide_True by done. cbn.
  by destruct (bool_decide _ || ret).
Qed.

Lemma add_predictions_multi_calls (self : DefaultClassifier.t) (ret : bool)
    (label_name : string) (out : DefaultClassifier.forward_output) (h : heap) :
  DefaultClassifier.multi_label self = true →
  is_Some (DefaultClassifier._multi_label_threshold self !! "default") →
  DefaultClassifier.size1 (DefaultClassifier.scores out)
    ≤ Dictionary.len (DefaultClassifier.label_dictionary self) →
  length (zip (DefaultClassifier.sentences out) (DefaultClassifier.label_candidates out))
    ≤ DefaultClassifier.size0 (DefaultClassifier.scores out) →
  DefaultClassifier.add_predictions sigmoid softmax self ret label_name out h
  = Ok (attach_all label_name (multi_label_calls sigmoid self ret out) h).
Proof.
  intros Hmulti Hdefault Hclasses Hrows. unfold DefaultClassifier.add_predictions.
  rewrite Hmulti. unfold multi_label_calls.
  apply for_each_attach. intros [s_idx [sentence cand]] h' Hp%elem_of_enumerate.
  cbn. apply label_point_multi_calls; [done..|].
  apply lookup_lt_Some in Hp. lia.
Qed.

Lemma get_label_threshold_override (m : gmap string Qc) (label_value : string)
    (default_threshold : Qc) :
  m !! "default" = Some default_threshold →
  DefaultClassifier._get_label_threshold m label_value
  = Ok (default default_threshold (m !! label_value)).
Proof.
  intros Hd. unfold DefaultClassifier._get_label_threshold. rewrite Hd.
  by destruct (m !! label_value).
Qed.

Lemma multi_label_calls_targets (self : DefaultClassifier.t) (ret : bool)
    (out : DefaultClassifier.forward_output) (call : loc * Label) :
  call ∈ multi_label_calls sigmoid self ret out →
  call.1 ∈ DefaultClassifier.sentences out.
Proof.
  unfold multi_label_calls.
  intros ([s_idx [sentence cand]] & Hin & Hp)%list_elem_of_bind. cbn in Hin.
  apply list_elem_of_bind in Hin as (l_idx & Hin & _). destruct call as [o label].
  apply elem_of_multi_label_class_calls in Hin as (_ & _ & _ & _ & _ & _ & -> & _).
  apply elem_of_enumerate, lookup_zip_Some in Hp as [Hp _].
  by eapply list_elem_of_lookup_2.
Qed.

Lemma multi_label_calls_iff (self : DefaultClassifier.t) (ret : bool)
    (out : DefaultClassifier.forward_output) (default_threshold : Qc)
    (s_idx : nat) (sentence : loc) (cand : Label) (l_idx : nat) (label_value : string) :
  DefaultClassifier._multi_label_threshold self !! "default" = Some default_threshold →
  DefaultClassifier.sentences out !! s_idx = Some sentence →
  DefaultClassifier.label_candidates out !! s_idx = Some cand →
  l_idx < DefaultClassifier.size1 (DefaultClassifier.scores out) →
  Dictionary.get_item_for_index (DefaultClassifier.label_dictionary self) l_idx
    = Ok label_value →
  label_value ≠ "O" →
  let label_score :=
    sigmoid (DefaultClassifier.data (DefaultClassifier.scores out) s_idx l_idx) in
  (sentence, spawn cand label_value label_score)
    ∈ multi_label_calls sigmoid self ret out
  ↔ (default default_threshold
       (DefaultClassifier._multi_label_threshold self !! label_value) < label_score)%Qc
    ∨ ret = true.
Proof.
  intros Hd Hs Hc Hl Hv HO score.
  pose proof (get_label_threshold_override _ label_value _ Hd) as Ht.
  unfold multi_label_calls. rewrite list_elem_of_bind. split.
  - intros ([s' [sentence' cand']] & Hin & Hp). cbn in Hin.
    apply list_elem_of_bind in Hin as (l' & Hin & Hl').
    apply elem_of_multi_label_class_calls
      in Hin as (v' & t' & Hv' & _ & Ht' & Hcond & _ & Heq).
    injection Heq as _ <- Hscore _. rewrite Ht in Ht'. injection Ht' as <-.
    subst score. by rewrite Hscore.
  - intros Hcond. exists (s_idx, (sentence, cand)). split.
    + cbn. apply list_elem_of_bind. exists l_idx. split.
      * apply elem_of_multi_label_class_calls. eexists label_value, _. done.
      * apply elem_of_seq. lia.
    + apply elem_of_enumerate, lookup_zip_Some. done.
Qed.

(** *** The best class of a row *)

Lemma row_max_from_spec (xs : list Qc) (best : Qc) (best_idx idx : nat) (c : Qc) (i : nat) :
  DefaultClassifier.row_max_from best best_idx idx xs = (c, i) →
  (best ≤ c)%Qc
  ∧ (∀ x, x ∈ xs → (x ≤ c)%Qc)
  ∧ ((c = best ∧ i = best_idx) ∨ (∃ k, i = idx + k ∧ xs !! k = Some c)).
Proof.
  revert best best_idx idx. induction xs as [|x xs IH]; intros best best_idx idx; cbn.
  - intros [= <- <-]. split; [apply Qcle_refl|]. split; [|by left].
    by intros x ?%elem_of_nil.
  - case_decide as Hlt; intros (Hle & Hall & Hpos)%IH.
    + split; [eapply Qcle_trans; [by apply Qclt_le_weak|done]|]. split.
      * intros y [->|Hy]%elem_of_cons; [done|by apply Hall].
      * right. destruct Hpos as [[-> ->]|(k & -> & Hk)].
        -- exists 0. split; [lia|done].
        -- exists (S k). split; [lia|done].
    + split; [done|]. split.
      * intros y [->|Hy]%elem_of_cons; [|by apply Hall].
        eapply Qcle_trans; [by apply Qcnot_lt_le|done].
      * destruct Hpos as [?|(k & -> & Hk)]; [by left|].
        right. exists (S k). split; [lia|done].
Qed.

Lemma row_max_spec (xs : list Qc) (c : Qc) (i : nat) :
  xs ≠ [] →
  DefaultClassifier.row_max xs = (c, i) →
  xs !! i = Some c ∧ ∀ x, x ∈ xs → (x ≤ c)%Qc.
Proof.
  destruct xs as [|x xs]; [done|]. intros _. cbn.
  intros (Hle & Hall & Hpos)%row_max_from_spec. split.
  - destruct Hpos as [[-> ->]|(k & -> & Hk)]; done.
  - intros y [->|Hy]%elem_of_cons; [done|by apply Hall].
Qed.

Lemma lookup_row (t : DefaultClassifier.tensor) (i j : nat) (x : Qc) :
  DefaultClassifier.row t i !! j = Some x
  ↔ j < DefaultClassifier.size1 t ∧ x = DefaultClassifier.data t i j.
Proof.
  unfold DefaultClassifier.row. rewrite list_lookup_fmap. split.
  - destruct (seq 0 (DefaultClassifier.size1 t) !! j) as [j'|] eqn:Hj; [|done].
    apply lookup_seq in Hj as [-> Hj]. cbn. by intros [= <-].
  - intros [Hj ->]. by rewrite lookup_seq_lt.
Qed.

(** [conf] and [idx] of a row of a tensor with at least one column: [conf]
    is the entry at [idx], and no entry of the row is larger. *)
Lemma row_max_of_tensor (t : DefaultClassifier.tensor) (s_idx : nat) (c : Qc) (i : nat) :
  0 < DefaultClassifier.size1 t →
  DefaultClassifier.row_max (DefaultClassifier.row t s_idx) = (c, i) →
  i < DefaultClassifier.size1 t
  ∧ c = DefaultClassifier.data t s_idx i
  ∧ ∀ j, j < DefaultClassifier.size1 t → (DefaultClassifier.data t s_idx j ≤ c)%Qc.
Proof.
  intros Hcols Hmax. apply row_max_spec in Hmax as [Hi Hall].
  - apply lookup_row in Hi as [Hi ->]. split; [done|]. split; [done|].
    intros j Hj. apply Hall. apply list_elem_of_lookup. exists j.
    by apply lookup_row.
  - intros Hnil. apply (f_equal length) in Hnil.
    unfold DefaultClassifier.row in Hnil. rewrite length_fmap, length_seq in Hnil.
    cbn in Hnil. lia.
Qed.

(** A cell of the softmax tensor is the entry of its column in the softmax
    of its row of scores. *)
Lemma softmaxed_lookup (scores : DefaultClassifier.tensor) (i j : nat) :
  keeps_length softmax →
  j < DefaultClassifier.size1 scores →
  softmax (DefaultClassifier.row scores i) !! j
  = Some (DefaultClassifier.data (DefaultClassifier.softmaxed softmax scores) i j).
Proof.
  intros Hlen Hj. cbn.
  destruct (softmax (DefaultClassifier.row scores i) !! j) as [p|] eqn:Hp; [done|].
  apply lookup_ge_None in Hp. rewrite Hlen in Hp. unfold DefaultClassifier.row in Hp.
  rewrite length_fmap, length_seq in Hp. lia.
Qed.

(** The calls on one object, when a single round of the loop is about it. *)
Lemma calls_of_single_round {A : Type} (xs : list A) (calls : A → list (loc * Label))
    (target : A → loc) (i : nat) (x : A) :
  (∀ y c, c ∈ calls y → c.1 = target y) →
  xs !! i = Some x →
  (∀ j y, xs !! j = Some y → target y = target x → j = i) →
  filter (λ c, c.1 = target x) (xs ≫= calls) = calls x.
Proof.
  intros Htarget Hi Hunique.
  assert (∀ ys, (∀ y, y ∈ ys → target y ≠ target x) →
            filter (λ c, c.1 = target x) (ys ≫= calls) = []) as Hother.
  { intros ys Hys. apply filter_none.
    intros c (y & Hc & Hy)%list_elem_of_bind Heq.
    apply (Hys y Hy). by rewrite <- (Htarget y c Hc). }
  rewrite <- (take_drop_middle xs i x Hi) at 1.
  rewrite bind_app, bind_cons, !filter_app.
  rewrite Hother, Hother, app_nil_l, app_nil_r.
  - apply filter_all. intros c Hc. by apply Htarget.
  - intros y (j & Hj)%list_elem_of_lookup Heq. rewrite lookup_drop in Hj.
    apply (Hunique _ _ Hj) in Heq. lia.
  - intros y (j & Hj)%list_elem_of_lookup Heq.
    apply lookup_take_Some in Hj as [Hj Hlt].
    apply (Hunique _ _ Hj) in Heq. lia.
Qed.

Lemma add_predictions_best_calls (self : DefaultClassifier.t) (label_name : string)
    (out : DefaultClassifier.forward_output) (h : heap) :
  DefaultClassifier.multi_label self = false →
  0 < DefaultClassifier.size1 (DefaultClassifier.scores out) →
  DefaultClassifier.size1 (DefaultClassifier.scores out)
    ≤ Dictionary.len (DefaultClassifier.label_dictionary self) →
  DefaultClassifier.add_predictions sigmoid softmax self false label_name out h
  = Ok (attach_all label_name (best_label_calls softmax self out) h).
Proof.
  intros Hsingle Hcols Hclasses. unfold DefaultClassifier.add_predictions.
  rewrite Hsingle. unfold DefaultClassifier.tensor_max. cbn.
  rewrite decide_False by lia. cbn. unfold best_label_calls.
  apply for_each_attach. intros [[sentence cand] [c i]] h' Hp. cbn.
  apply list_elem_of_lookup in Hp as (k & Hk).
  apply lookup_zip_Some in Hk as [_ Hbest].
  apply list_lookup_fmap_Some in Hbest as (s_idx & Hmax & _). symmetry in Hmax.
  apply row_max_of_tensor in Hmax as (Hi & _); [|done]. cbn in Hi.
  unfold DefaultClassifier.label_point_best, best_label_call,
    Dictionary.get_item_for_index.
  destruct (lookup_lt_is_Some_2
              (Dictionary.idx2item (DefaultClassifier.label_dictionary self)) i)
    as [v Hv]; [unfold Dictionary.len in Hclasses; lia|].
  rewrite Hv. cbn. by case_decide.
Qed.

Lemma best_label_calls_targets (self : DefaultClassifier.t)
    (out : DefaultClassifier.forward_output) (call : loc * Label) :
  call ∈ best_label_calls softmax self out →
  call.1 ∈ DefaultClassifier.sentences out.
Proof.
  unfold best_label_calls.
  intros ([[sentence cand] [c i]] & Hin & Hp)%list_elem_of_bind.
  unfold best_label_call in Hin. cbn in Hin.
  destruct (Dictionary.get_item_for_index _ i); [|by apply elem_of_nil in Hin].
  case_decide; [by apply elem_of_nil in Hin|].
  apply list_elem_of_singleton in Hin as ->. cbn.
  apply elem_of_zip_l in Hp. by eapply elem_of_zip_l.
Qed.

Lemma best_label_calls_for (self : DefaultClassifier.t)
    (out : DefaultClassifier.forward_output) (s_idx : nat) (sentence : loc)
    (cand : Label) :
  keeps_length softmax →
  0 < DefaultClassifier.size1 (DefaultClassifier.scores out) →
  DefaultClassifier.size1 (DefaultClassifier.scores out)
    ≤ Dictionary.len (DefaultClassifier.label_dictionary self) →
  DefaultClassifier.sentences out !! s_idx = Some sentence →
  DefaultClassifier.label_candidates out !! s_idx = Some cand →
  s_idx < DefaultClassifier.size0 (DefaultClassifier.scores out) →
  (∀ j, DefaultClassifier.sentences out !! j = Some sentence → j = s_idx) →
  ∃ i label_value probability,
    softmax (DefaultClassifier.row (DefaultClassifier.scores out) s_idx) !! i
      = Some probability
    ∧ (∀ j q,
         softmax (DefaultClassifier.row (DefaultClassifier.scores out) s_idx) !! j
           = Some q →
         (q ≤ probability)%Qc)
    ∧ Dictionary.get_item_for_index (DefaultClassifier.label_dictionary self) i
      = Ok label_value
    ∧ snd <$> filter (λ call, call.1 = sentence) (best_label_calls softmax self out)
      = if decide (label_value = "O") then []
        else [spawn cand label_value probability].
Proof.
  intros Hsoftmax Hcols Hclasses Hs Hc Hrow Hunique. unfold best_label_calls.
  set (soft := DefaultClassifier.softmaxed softmax (DefaultClassifier.scores out)).
  destruct (DefaultClassifier.row_max (DefaultClassifier.row soft s_idx))
    as [c i] eqn:Hmax.
  set (rounds :=
    zip (zip (DefaultClassifier.sentences out) (DefaultClassifier.label_candidates out))
        ((λ i, DefaultClassifier.row_max (DefaultClassifier.row soft i))
           <$> seq 0 (DefaultClassifier.size0 (DefaultClassifier.scores out)))).
  set (calls := λ p : loc * Label * (Qc * nat),
                  best_label_call self p.1.1 p.1.2 p.2.1 p.2.2).
  assert (filter (λ call, call.1 = sentence) (rounds ≫= calls)
          = calls ((sentence, cand), (c, i))) as ->.
  { apply (calls_of_single_round rounds calls (λ p, p.1.1) s_idx
             ((sentence, cand), (c, i))).
    - intros [[sentence' cand'] [c' i']] call. unfold calls, best_label_call. cbn.
      destruct (Dictionary.get_item_for_index _ i'); [|by intros ?%elem_of_nil].
      case_decide; [by intros ?%elem_of_nil|].
      by intros ->%list_elem_of_singleton.
    - apply lookup_zip_Some. split; [by apply lookup_zip_Some|].
      rewrite list_lookup_fmap, lookup_seq_lt by done. by rewrite <- Hmax.
    - intros j [[sentence' cand'] best]
        [[Hj _]%lookup_zip_Some _]%lookup_zip_Some Heq.
      cbn in Hj, Heq. subst sentence'. by apply Hunique. }
  apply row_max_of_tensor in Hmax as (Hi & -> & Hbound); [|done].
  cbn [DefaultClassifier.size1 soft DefaultClassifier.softmaxed] in Hi, Hbound.
  unfold calls, best_label_call, Dictionary.get_item_for_index.
  destruct (lookup_lt_is_Some_2
              (Dictionary.idx2item (DefaultClassifier.label_dictionary self)) i)
    as [v Hv]; [unfold Dictionary.len in Hclasses; lia|].
  exists i, v, (DefaultClassifier.data soft s_idx i). cbn [fst snd]. rewrite Hv.
  split; [by apply softmaxed_lookup|]. split; [|split; [done|by case_decide]].
  intros j q Hq.
  assert (j < DefaultClassifier.size1 (DefaultClassifier.scores out)) as Hj.
  { apply lookup_lt_Some in Hq. rewrite Hsoftmax in Hq.
    unfold DefaultClassifier.row in Hq. by rewrite length_fmap, length_seq in Hq. }
  rewrite (softmaxed_lookup _ s_idx j Hsoftmax Hj) in Hq.
  injection Hq as <-. by apply Hbound.
Qed.

End PredictProperties.

(** Scenario 3: thresholds default 0.5 and LOC 0.8, sigmoid scores PER 0.6
    and LOC 0.7: PER is attached, LOC is not. *)
Example scenario_3_labels :
  (h' ← DefaultClassifier.add_predictions id id multi_label_classifier false
          "predicted" per_and_loc_scores one_gold_label;
   Ok (get_labels h' 0 "predicted"))
  = Ok [spawn candidate "PER" (Q2Qc (6 # 10))].
Proof. vm_compute. reflexivity. Qed.

(** With the scores of scenario 3 the single label is LOC. *)
Example single_label_best_is_LOC :
  (h' ← DefaultClassifier.add_predictions id id single_label_classifier false
          "predicted" per_and_loc_scores one_gold_label;
   Ok (get_labels h' 0 "predicted"))
  = Ok [spawn candidate "LOC" (Q2Qc (7 # 10))].
Proof. vm_compute. reflexivity. Qed.

(** ** DefaultClassifier.predict: the labels of a whole call *)

(** A loop over disjoint batches whose rounds leave the labels of the
    objects outside their batch alone: what a round has established about
    its batch still holds at the end. *)
Lemma for_each_disjoint_batches {S : Type} (objects : S → heap)
    (body : list loc → S → result S) (typename : string)
    (Q : list loc → heap → Prop) (bs : list (list loc)) (st : S) :
  (∀ batch st, batch ∈ bs →
     ∃ st', body batch st = Ok st'
            ∧ (∀ o, o ∉ batch →
                 get_labels (objects st') o typename = get_labels (objects st) o typename)
            ∧ Q batch (objects st')) →
  (∀ batch h h',
     (∀ o, o ∈ batch → get_labels h' o typename = get_labels h o typename) →
     Q batch h → Q batch h') →
  NoDup (concat bs) →
  ∃ st', for_each bs body st = Ok st'
         ∧ (∀ o, o ∉ concat bs →
              get_labels (objects st') o typename = get_labels (objects st) o typename)
         ∧ ∀ batch, batch ∈ bs → Q batch (objects st').
Proof.
  intros Hbody Hstable. revert st Hbody.
  induction bs as [|b bs IH]; intros st Hbody Hdisjoint.
  - exists st. split; [done|]. split; [done|]. by intros batch ?%elem_of_nil.
  - cbn in Hdisjoint. apply NoDup_app in Hdisjoint as (_ & Hapart & Hrest).
    destruct (Hbody b st) as (st1 & Hb & Hframe1 & HQ1); [constructor|].
    destruct (IH st1) as (st' & Hloop & Hframe & HQ); [|done|].
    { intros batch s Hbatch. apply Hbody. by constructor. }
    exists st'. split; [cbn; by rewrite Hb|]. split.
    + intros o Ho. cbn in Ho. rewrite elem_of_app in Ho.
      rewrite Hframe by tauto. apply Hframe1. tauto.
    + intros batch [->|Hbatch]%elem_of_cons; [|by apply HQ].
      apply (Hstable b (objects st1)); [|done].
      intros o Ho. apply Hframe. by apply Hapart.
Qed.

Section PredictCall.

Context (sigmoid : Qc → Qc) (softmax : list Qc → list Qc)
        (BCEWithLogitsLoss : option (list Qc) → DefaultClassifier.tensor → list (list Qc) → Qc)
        (CrossEntropyLoss : option (list Qc) → DefaultClassifier.tensor → list nat → Qc)
        (forward_pass : heap → list loc → result DefaultClassifier.forward_output).

Lemma predict_batch_labelled
    (calls_of : DefaultClassifier.forward_output → list (loc * Label))
    (P : DefaultClassifier.forward_output → Prop)
    (self : DefaultClassifier.t) (ret : bool) (label_name : string)
    (return_loss : bool) (batch : list loc) (st : DefaultClassifier.predict_state) :
  batch ≠ [] →
  (∀ h0, ∃ out, forward_pass h0 batch = Ok out
                ∧ DefaultClassifier.sentences out ⊆ batch
                ∧ P out) →
  (∀ out h0, P out →
     DefaultClassifier.label_candidates out ≠ [] →
     DefaultClassifier.add_predictions sigmoid softmax self ret label_name out h0
     = Ok (attach_all label_name (calls_of out) h0)) →
  (∀ out, DefaultClassifier.label_candidates out = [] → calls_of out = []) →
  (∀ out call, call ∈ calls_of out → call.1 ∈ DefaultClassifier.sentences out) →
  ∃ st',
    DefaultClassifier.predict_batch sigmoid softmax BCEWithLogitsLoss CrossEntropyLoss
      forward_pass self ret label_name return_loss batch st = Ok st'
    ∧ (∀ o, o ∉ batch →
         get_labels (DefaultClassifier.objects st') o label_name
         = get_labels (DefaultClassifier.objects st) o label_name)
    ∧ labelled_by forward_pass calls_of P label_name batch (DefaultClassifier.objects st').
Proof.
  intros Hbatch Hforward Hadd Hnone Htargets. unfold DefaultClassifier.predict_batch.
  destruct batch as [|sentence batch]; [done|].
  set (h1 := foldl (λ h sentence, remove_labels sentence label_name h)
               (DefaultClassifier.objects st) (sentence :: batch)).
  destruct (Hforward h1) as (out & Hout & Hsub & HP). rewrite Hout.
  cbn [mbind result_bind rbind].
  destruct (if return_loss then _ else _) as [loss count].
  assert ((if decide (0 < length (DefaultClassifier.label_candidates out))
           then DefaultClassifier.add_predictions sigmoid softmax self ret
                  label_name out h1
           else Ok h1)
          = Ok (attach_all label_name (calls_of out) h1)) as ->.
  { case_decide as Hcand.
    - apply Hadd; [done|]. intros Hnil. rewrite Hnil in Hcand. cbn in Hcand. lia.
    - rewrite Hnone; [done|]. destruct (DefaultClassifier.label_candidates out); [done|].
      cbn in Hcand. lia. }
  cbn [mbind result_bind rbind]. eexists. split; [reflexivity|].
  cbn [DefaultClassifier.objects]. split.
  - intros o Ho. rewrite get_labels_attach_all. subst h1.
    rewrite get_labels_cleared, decide_False by done.
    rewrite (filter_none (λ c, c.1 = o)); [by rewrite app_nil_r|].
    intros call Hcall Heq. apply Ho, Hsub. rewrite <- Heq. by eapply Htargets.
  - exists h1, out. split; [done|]. split; [done|]. split; [done|]. split.
    + intros o Ho. subst h1. by apply remove_labels_clears.
    + intros o Ho. rewrite get_labels_attach_all. subst h1.
      by rewrite (remove_labels_clears _ _ _ _ Ho).
Qed.

Lemma predict_labelled
    (calls_of : DefaultClassifier.forward_output → list (loc * Label))
    (P : DefaultClassifier.forward_output → Prop)
    (self : DefaultClassifier.t) (h : heap) (arg : DefaultClassifier.predict_arg)
    (mini_batch_size : nat) (ret : bool) (label_name : option string)
    (return_loss : bool) :
  let name := default (default "label" (DefaultClassifier.label_type self)) label_name in
  mini_batch_size ≠ 0 →
  NoDup (sentences_with_tokens h arg) →
  (∀ batch h0, batch ∈ predict_batches h arg mini_batch_size →
     ∃ out, forward_pass h0 batch = Ok out
            ∧ DefaultClassifier.sentences out ⊆ batch
            ∧ P out) →
  (∀ out h0, P out →
     DefaultClassifier.label_candidates out ≠ [] →
     DefaultClassifier.add_predictions sigmoid softmax self ret name out h0
     = Ok (attach_all name (calls_of out) h0)) →
  (∀ out, DefaultClassifier.label_candidates out = [] → calls_of out = []) →
  (∀ out call, call ∈ calls_of out → call.1 ∈ DefaultClassifier.sentences out) →
  ∃ h' r,
    DefaultClassifier.predict sigmoid softmax BCEWithLogitsLoss CrossEntropyLoss
      forward_pass self h arg mini_batch_size ret label_name return_loss = Ok (h', r)
    ∧ ∀ batch, batch ∈ predict_batches h arg mini_batch_size →
        labelled_by forward_pass calls_of P name batch h'.
Proof.
  intros name Hsize Hnodup Hforward Hadd Hnone Htargets.
  unfold DefaultClassifier.predict. fold name.
  assert (∀ batch, batch ∈ @nil (list loc) → labelled_by forward_pass calls_of P name batch h)
    as Hvacuous by (by intros batch ?%elem_of_nil).
  destruct (match arg with
            | DefaultClassifier.OnePoint sentence => bool_decide (num_tokens (h sentence) = 0)
            | DefaultClassifier.Points sentences => bool_decide (sentences = [])
            end) eqn:Hfalsy.
  { eexists _, _. split; [reflexivity|].
    assert (sentences_with_tokens h arg = []) as Hkept.
    { unfold sentences_with_tokens. destruct arg as [sentence|sentences].
      - apply bool_decide_eq_true in Hfalsy. rewrite filter_cons, decide_False by lia.
        done.
      - apply bool_decide_eq_true in Hfalsy. by subst. }
    unfold predict_batches. by rewrite Hkept. }
  fold (sentences_with_tokens h arg).
  case_decide as Hkept.
  { eexists _, _. split; [reflexivity|].
    unfold predict_batches. apply nil_length_inv in Hkept. by rewrite Hkept. }
  rewrite decide_False by done. fold (predict_batches h arg mini_batch_size).
  destruct (for_each_disjoint_batches DefaultClassifier.objects
              (DefaultClassifier.predict_batch sigmoid softmax BCEWithLogitsLoss
                 CrossEntropyLoss forward_pass self ret name return_loss)
              name (labelled_by forward_pass calls_of P name)
              (predict_batches h arg mini_batch_size)
              (DefaultClassifier.mkPredict h 0%Qc 0))
    as (st' & Hloop & _ & Hlabelled).
  - intros batch st Hbatch. apply predict_batch_labelled; try done.
    + eapply batches_not_nil; [|done]. lia.
    + intros h0. by apply Hforward.
  - intros batch h1 h2 Hsame (h0 & out & Hout & Hsub & HP & Hclear & Hlabels).
    exists h0, out. split; [done|]. split; [done|]. split; [done|]. split; [done|].
    intros sentence Hs. rewrite Hsame by done. by apply Hlabels.
  - unfold predict_batches. rewrite concat_batches by lia.
    eapply NoDup_Permutation_proper; [|done]. apply sorted_desc_Permutation.
  - rewrite Hloop. cbn [mbind result_bind rbind]. eexists _, _. split; [reflexivity|].
    done.
Qed.

(** C2: in multi-label mode, with a threshold configuration that has its
    "default" entry, distinct sentences and a forward pass that returns, for
    every batch, sentences of the batch with one row of scores per point
    and at most one column per class, [predict] returns, and for every batch
    it has run the forward pass on the batch, stripped of the labels of the
    predicted type; for every point of what the forward pass returned and
    every class other than "O": the label that carries the class and its
    sigmoid score is on the point when [predict] has returned if and only
    if the score is strictly above the threshold of the class (its own
    entry in the configuration, otherwise the "default" entry) or all
    probabilities were asked for. *)
Theorem multi_label_attached_iff_above_threshold (self : DefaultClassifier.t)
    (h : heap) (arg : DefaultClassifier.predict_arg) (mini_batch_size : nat)
    (return_probabilities_for_all_classes : bool) (label_name : option string)
    (return_loss : bool) (default_threshold : Qc) :
  let name := default (default "label" (DefaultClassifier.label_type self)) label_name in
  DefaultClassifier.multi_label self = true →
  DefaultClassifier._multi_label_threshold self !! "default" = Some default_threshold →
  mini_batch_size ≠ 0 →
  NoDup (sentences_with_tokens h arg) →
  (∀ batch h0, batch ∈ predict_batches h arg mini_batch_size →
     ∃ out, forward_pass h0 batch = Ok out
            ∧ DefaultClassifier.sentences out ⊆ batch
            ∧ DefaultClassifier.size1 (DefaultClassifier.scores out)
              ≤ Dictionary.len (DefaultClassifier.label_dictionary self)
            ∧ length (zip (DefaultClassifier.sentences out)
                        (DefaultClassifier.label_candidates out))
              ≤ DefaultClassifier.size0 (DefaultClassifier.scores out)) →
  ∃ h' r,
    DefaultClassifier.predict sigmoid softmax BCEWithLogitsLoss CrossEntropyLoss
      forward_pass self h arg mini_batch_size return_probabilities_for_all_classes
      label_name return_loss = Ok (h', r)
    ∧ ∀ batch, batch ∈ predict_batches h arg mini_batch_size →
        ∃ h0 out,
          forward_pass h0 batch = Ok out
          ∧ (∀ sentence, sentence ∈ batch → get_labels h0 sentence name = [])
          ∧ ∀ s_idx sentence label_candidate l_idx label_value,
              DefaultClassifier.sentences out !! s_idx = Some sentence →
              DefaultClassifier.label_candidates out !! s_idx = Some label_candidate →
              l_idx < DefaultClassifier.size1 (DefaultClassifier.scores out) →
              Dictionary.get_item_for_index (DefaultClassifier.label_dictionary self) l_idx
                = Ok label_value →
              label_value ≠ "O" →
              let label_score :=
                sigmoid (DefaultClassifier.data (DefaultClassifier.scores out) s_idx l_idx) in
              let label_threshold :=
                default default_threshold
                  (DefaultClassifier._multi_label_threshold self !! label_value) in
              spawn label_candidate label_value label_score
                ∈ get_labels h' sentence name
              ↔ (label_threshold < label_score)%Qc
                ∨ return_probabilities_for_all_classes = true.
Proof.
  intros name Hmulti Hdefault Hsize Hnodup Hforward.
  destruct (predict_labelled
              (multi_label_calls sigmoid self return_probabilities_for_all_classes)
              (λ out,
                 DefaultClassifier.size1 (DefaultClassifier.scores out)
                 ≤ Dictionary.len (DefaultClassifier.label_dictionary self)
                 ∧ length (zip (DefaultClassifier.sentences out)
                             (DefaultClassifier.label_candidates out))
                   ≤ DefaultClassifier.size0 (DefaultClassifier.scores out))
              self h arg mini_batch_size return_probabilities_for_all_classes
              label_name return_loss) as (h' & r & Hpredict & Hlabelled);
    [done|done|done| | | |].
  - intros out h0 [Hclasses Hrows] _. by apply add_predictions_multi_calls.
  - intros out Hnil. unfold multi_label_calls. rewrite Hnil.
    by rewrite zip_with_nil_r.
  - intros out call. apply multi_label_calls_targets.
  - exists h', r. split; [done|]. intros batch Hbatch.
    destruct (Hlabelled batch Hbatch) as (h0 & out & Hout & Hsub & _ & Hclear & Hlabels).
    exists h0, out. split; [done|]. split; [done|].
    intros s_idx sentence cand l_idx v Hs Hc Hl Hv HO score threshold.
    fold name in Hlabels. rewrite Hlabels, elem_of_calls_for.
    + by apply multi_label_calls_iff.
    + apply Hsub. by eapply list_elem_of_lookup_2.
Qed.

(** C3: in single-label mode without all probabilities, with distinct
    sentences and a forward pass that returns, for every batch, sentences
    of the batch with scores of at least one and at most one column per
    class, [predict] returns, and for every batch it has run the forward
    pass on the batch, stripped of the labels of the predicted type; every
    point that the forward pass returned once and with a row of scores has,
    when [predict] has returned, exactly one label of the predicted type:
    the class at an index of a largest entry of the softmax of its row of
    scores, with that entry as its score; or no label of that type at all
    when that class is "O". *)
Theorem single_label_best_class_attached (self : DefaultClassifier.t)
    (h : heap) (arg : DefaultClassifier.predict_arg) (mini_batch_size : nat)
    (label_name : option string) (return_loss : bool) :
  let name := default (default "label" (DefaultClassifier.label_type self)) label_name in
  keeps_length softmax →
  DefaultClassifier.multi_label self = false →
  mini_batch_size ≠ 0 →
  NoDup (sentences_with_tokens h arg) →
  (∀ batch h0, batch ∈ predict_batches h arg mini_batch_size →
     ∃ out, forward_pass h0 batch = Ok out
            ∧ DefaultClassifier.sentences out ⊆ batch
            ∧ (DefaultClassifier.label_candidates out ≠ [] →
                 0 < DefaultClassifier.size1 (DefaultClassifier.scores out))
            ∧ DefaultClassifier.size1 (DefaultClassifier.scores out)
              ≤ Dictionary.len (DefaultClassifier.label_dictionary self)) →
  ∃ h' r,
    DefaultClassifier.predict sigmoid softmax BCEWithLogitsLoss CrossEntropyLoss
      forward_pass self h arg mini_batch_size false label_name return_loss
    = Ok (h', r)
    ∧ ∀ batch, batch ∈ predict_batches h arg mini_batch_size →
        ∃ h0 out,
          forward_pass h0 batch = Ok out
          ∧ (∀ sentence, sentence ∈ batch → get_labels h0 sentence name = [])
          ∧ ∀ s_idx sentence label_candidate,
              DefaultClassifier.sentences out !! s_idx = Some sentence →
              DefaultClassifier.label_candidates out !! s_idx = Some label_candidate →
              s_idx < DefaultClassifier.size0 (DefaultClassifier.scores out) →
              (∀ j, DefaultClassifier.sentences out !! j = Some sentence → j = s_idx) →
              ∃ i label_value probability,
                softmax (DefaultClassifier.row (DefaultClassifier.scores out) s_idx) !! i
                  = Some probability
                ∧ (∀ j q,
                     softmax (DefaultClassifier.row (DefaultClassifier.scores out) s_idx)
                       !! j = Some q →
                     (q ≤ probability)%Qc)
                ∧ Dictionary.get_item_for_index
                    (DefaultClassifier.label_dictionary self) i = Ok label_value
                ∧ get_labels h' sentence name
                  = if decide (label_value = "O") then []
                    else [spawn label_candidate label_value probability].
Proof.
  intros name Hsoftmax Hsingle Hsize Hnodup Hforward.
  destruct (predict_labelled (best_label_calls softmax self)
              (λ out,
                 (DefaultClassifier.label_candidates out ≠ [] →
                    0 < DefaultClassifier.size1 (DefaultClassifier.scores out))
                 ∧ DefaultClassifier.size1 (DefaultClassifier.scores out)
                   ≤ Dictionary.len (DefaultClassifier.label_dictionary self))
              self h arg mini_batch_size false label_name return_loss)
    as (h' & r & Hpredict & Hlabelled); [done|done|done| | | |].
  - intros out h0 [Hcols Hclasses] Hcand. apply add_predictions_best_calls; auto.
  - intros out Hnil. unfold best_label_calls. rewrite Hnil.
    by rewrite zip_with_nil_r.
  - intros out call. apply best_label_calls_targets.
  - exists h', r. split; [done|]. intros batch Hbatch.
    destruct (Hlabelled batch Hbatch)
      as (h0 & out & Hout & Hsub & [Hcols Hclasses] & Hclear & Hlabels).
    exists h0, out. split; [done|]. split; [done|].
    intros s_idx sentence cand Hs Hc Hrow Hunique.
    fold name in Hlabels. rewrite Hlabels.
    + apply best_label_calls_for; try done.
      apply Hcols. intros Hnil. by rewrite Hnil in Hc.
    + apply Hsub. by eapply list_elem_of_lookup_2.
Qed.

End PredictCall.

(** Scenario 3 through [predict]: thresholds default 0.5 and LOC 0.8, sigmoid
    scores PER 0.6 and LOC 0.7: PER is attached, LOC is not. *)
Lemma multi_label_attached_iff_above_threshold_witness :
  ∃ h' r,
    DefaultClassifier.predict id id (λ _ _ _, 0%Qc) (λ _ _ _, 0%Qc)
      (λ _ _, Ok per_and_loc_scores) multi_label_classifier one_gold_label
      (DefaultClassifier.Points [0]) 32 false (Some "predicted") false = Ok (h', r)
    ∧ spawn candidate "PER" (Q2Qc (6 # 10)) ∈ get_labels h' 0 "predicted"
    ∧ spawn candidate "LOC" (Q2Qc (7 # 10)) ∉ get_labels h' 0 "predicted".
Proof.
  assert (predict_batches one_gold_label (DefaultClassifier.Points [0]) 32 = [[0]])
    as Hbatches by reflexivity.
  destruct (multi_label_attached_iff_above_threshold id id (λ _ _ _, 0%Qc)
              (λ _ _ _, 0%Qc) (λ _ _, Ok per_and_loc_scores) multi_label_classifier
              one_gold_label (DefaultClassifier.Points [0]) 32 false
              (Some "predicted") false (Q2Qc (5 # 10)))
    as (h' & r & Hrun & Hlabels).
  - reflexivity.
  - reflexivity.
  - discriminate.
  - apply NoDup_singleton.
  - intros batch h0 Hbatch. rewrite Hbatches in Hbatch.
    apply list_elem_of_singleton in Hbatch as ->.
    exists per_and_loc_scores. split; [reflexivity|]. split; [done|].
    split; vm_compute; lia.
  - exists h', r. split; [exact Hrun|].
    destruct (Hlabels [0]) as (h0 & out & Hout & _ & Hiff).
    { rewrite Hbatches. constructor. }
    injection Hout as <-. split.
    + apply (Hiff 0 0 candidate 1 "PER");
        [reflexivity| reflexivity| vm_compute; lia| reflexivity| discriminate|].
      left. reflexivity.
    + intros Hin.
      apply (Hiff 0 0 candidate 2 "LOC") in Hin;
        [| reflexivity| reflexivity| vm_compute; lia| reflexivity| discriminate].
      destruct Hin as [Hlt|Hall]; [|discriminate Hall].
      vm_compute in Hlt. discriminate Hlt.
Defined.

(** Scenario 5 through [predict]: the largest softmax probability is that of
    "O": no label is attached. *)
Lemma single_label_best_class_attached_witness :
  ∃ h' r,
    DefaultClassifier.predict id id (λ _ _ _, 0%Qc) (λ _ _ _, 0%Qc)
      (λ _ _, Ok mostly_O_scores) single_label_classifier one_gold_label
      (DefaultClassifier.Points [0]) 32 false (Some "predicted") false = Ok (h', r)
    ∧ get_labels h' 0 "predicted" = [].
Proof.
  assert (predict_batches one_gold_label (DefaultClassifier.Points [0]) 32 = [[0]])
    as Hbatches by reflexivity.
  destruct (single_label_best_class_attached id id (λ _ _ _, 0%Qc)
              (λ _ _ _, 0%Qc) (λ _ _, Ok mostly_O_scores) single_label_classifier
              one_gold_label (DefaultClassifier.Points [0]) 32
              (Some "predicted") false)
    as (h' & r & Hrun & Hlabels).
  - intros xs. reflexivity.
  - reflexivity.
  - discriminate.
  - apply NoDup_singleton.
  - intros batch h0 Hbatch. rewrite Hbatches in Hbatch.
    apply list_elem_of_singleton in Hbatch as ->.
    exists mostly_O_scores. split; [reflexivity|]. split; [done|].
    split; [intros _|]; vm_compute; lia.
  - exists h', r. split; [exact Hrun|].
    destruct (Hlabels [0]) as (h0 & out & Hout & _ & Hbest).
    { rewrite Hbatches. constructor. }
    injection Hout as <-.
    destruct (Hbest 0 0 candidate) as (i & v & p & Hp & Hmax & Hv & Hnone).
    + reflexivity.
    + reflexivity.
    + vm_compute. lia.
    + intros [|j] Hj; [reflexivity|discriminate Hj].
    + assert (i = 0) as ->.
      { pose proof (Hmax 0 (Q2Qc (7 # 10)) eq_refl) as Hle.
        destruct i as [|[|[|i]]]; [reflexivity| | |discriminate Hp];
          injection Hp as <-; vm_compute in Hle; exfalso; apply Hle; reflexivity. }
      injection Hv as <-. exact Hnone.
Defined.

(** ** Classifier.evaluate: when nothing is recorded, and when the report is computed *)





Section ReportProperties.

Context (sklearn_classification_report :
           list (list nat) → list (list nat) → list string → list nat → string)
        (sklearn_classification_report_dict :
           list (list nat) → list (list nat) → list string → list nat
           → gmap string (gmap string Qc))
        (sklearn_accuracy_score : list (list nat) → list (list nat) → Qc)
        (round4 : Qc → Qc).

(** With more than one key recorded the numbers are those of the report:
    accuracy and the micro and macro averages rounded, the main score as
    the report has it, and nothing is logged. *)
Lemma report_computed_above_one_key (main_evaluation_metric : string * string)
    (exclude_labels : list string) (st : Classifier.spans)
    (micro macro group : gmap string Qc) (precision recall micro_f macro_f main : Qc) :
  let target_names := fst <$> Classifier.targets exclude_labels st in
  let labels := snd <$> Classifier.targets exclude_labels st in
  let report_dict :=
    sklearn_classification_report_dict (Classifier.y_true st) (Classifier.y_pred st)
      target_names labels in
  1 < length (Classifier.all_true_values st)
      + length (Classifier.all_predicted_values st) →
  report_dict !! "micro avg" = Some micro →
  report_dict !! "macro avg" = Some macro →
  report_dict !! main_evaluation_metric.1 = Some group →
  micro !! "precision" = Some precision →
  micro !! "recall" = Some recall →
  micro !! "f1-score" = Some micro_f →
  macro !! "f1-score" = Some macro_f →
  group !! main_evaluation_metric.2 = Some main →
  Classifier.compute_numbers sklearn_classification_report
    sklearn_classification_report_dict sklearn_accuracy_score round4
    main_evaluation_metric exclude_labels st
  = Ok (Classifier.mkNumbers
          (round4 (sklearn_accuracy_score (Classifier.y_true st) (Classifier.y_pred st)))
          (round4 precision) (round4 recall) (round4 micro_f) (round4 macro_f) main
          (sklearn_classification_report (Classifier.y_true st) (Classifier.y_pred st)
             target_names labels)
          report_dict,
        []).
Proof.
  intros target_names labels report_dict Hmany Hmicro Hmacro Hgroup Hp Hr Hf Hm Hmain.
  unfold Classifier.compute_numbers. rewrite decide_True by done.
  fold target_names labels report_dict. unfold Classifier.report_entry.
  rewrite Hmicro, Hmacro, Hgroup, Hp, Hr, Hf, Hm, Hmain. done.
Qed.

End ReportProperties.

(** ** Classifier.evaluate: the loop over the batches returns *)






Section EvaluateReturns.

Context (predict : heap → list loc → result (heap * Classifier.predict_return))
        (printout : bool → string → heap → loc → heap * list string)
        (sklearn_classification_report :
           list (list nat) → list (list nat) → list string → list nat → string)
        (sklearn_classification_report_dict :
           list (list nat) → list (list nat) → list string → list nat
           → gmap string (gmap string Qc))
        (sklearn_accuracy_score : list (list nat) → list (list nat) → Qc)
        (round4 : Qc → Qc)
        (format_float : Qc → string).




End EvaluateReturns.



(** * Further properties *)

(** ** Classifier.evaluate: composite keys are injective *)

(** X1: the composite keys of two labels are equal exactly when the labels
    belong to the same sentence number and have the same identifier: labels
    of different data points are never recorded under one key. *)
Theorem representation_inj (n m : nat) (label label' : Label) :
  Classifier.representation n label = Classifier.representation m label'
  ↔ n = m ∧ identifier label = identifier label'.
Proof.
  unfold Classifier.representation. split.
  - intros Heq.
    change (str n +:+ String (Ascii.ascii_of_nat 58) (String (Ascii.ascii_of_nat 32) (identifier label))
            = str m +:+ String (Ascii.ascii_of_nat 58) (String (Ascii.ascii_of_nat 32) (identifier label'))) in Heq.
    apply str_colon_inj in Heq as [-> Heq]. by injection Heq as ->.
  - by intros [-> ->].
Qed.

Lemma record_gold_consistent (dict : option Dictionary.t) (st : Classifier.spans)
    (g : Label) :
  spans_consistent st → spans_consistent (Classifier.record_gold dict st g).
Proof.
  intros [Hnodup Hkeys]. unfold Classifier.record_gold. split; cbn.
  - unfold Classifier.add_span. case_decide; [done|].
    apply NoDup_app. split; [done|]. split; [|apply NoDup_singleton].
    intros key Hin ->%list_elem_of_singleton. done.
  - intros key. rewrite elem_of_add_span, dict_get_dict_append, Hkeys.
    case_decide as Hk.
    + subst key. split; [intros _; left; eauto|intros _; by left].
    + split; [by intros [->|?]|intros ?; by right].
Qed.

Lemma record_predicted_consistent (st : Classifier.spans) (p : Label) :
  spans_consistent st → spans_consistent (Classifier.record_predicted st p).
Proof.
  intros [Hnodup Hkeys]. unfold Classifier.record_predicted. split; cbn.
  - unfold Classifier.add_span. case_decide; [done|].
    apply NoDup_app. split; [done|]. split; [|apply NoDup_singleton].
    intros key Hin ->%list_elem_of_singleton. done.
  - intros key. rewrite elem_of_add_span, dict_get_dict_append, Hkeys.
    case_decide as Hk.
    + subst key. split; [intros _; right; eauto|intros _; by left].
    + split; [by intros [->|?]|intros ?; by right].
Qed.

Lemma collect_datapoint_consistent (gold_label_type : string)
    (dict : option Dictionary.t) (h : heap) (st : Classifier.spans) (datapoint : loc) :
  spans_consistent st →
  spans_consistent (Classifier.collect_datapoint gold_label_type dict h st datapoint).
Proof.
  intros Hinv. unfold Classifier.collect_datapoint.
  assert (spans_consistent
            (foldl Classifier.record_predicted
               (foldl (Classifier.record_gold dict) st
                  (get_labels h datapoint gold_label_type))
               (get_labels h datapoint "predicted"))) as Hinv'.
  { apply foldl_invariant; [intros; by apply record_predicted_consistent|].
    apply foldl_invariant; [intros; by apply record_gold_consistent|done]. }
  exact Hinv'.
Qed.

Lemma foldl_collect_sentence_id (gold_label_type : string)
    (dict : option Dictionary.t) (h : heap) (batch : list loc) (st : Classifier.spans) :
  Classifier.sentence_id
    (foldl (Classifier.collect_datapoint gold_label_type dict h) st batch)
  = Classifier.sentence_id st + length batch.
Proof.
  revert st. induction batch as [|datapoint batch IH]; intros st; cbn; [lia|].
  rewrite IH.
  destruct (collect_datapoint_values gold_label_type dict h st datapoint) as [-> _].
  lia.
Qed.

Section RunProperties.

Context (predict : heap → list loc → result (heap * Classifier.predict_return))
        (printout : bool → string → heap → loc → heap * list string).

(** X2: whatever [predict] does to the data points, when the loop over the
    batches has come to its end, [all_spans] holds no key twice and holds
    exactly the keys that have a gold value or a predicted value. *)
Theorem found_spans_consistent (gold_label_type : string) (out_path : option string)
    (mini_batch_size : nat) (dict : option Dictionary.t) (h : heap)
    (data_points : list loc) (st : Classifier.loop_state) :
  Classifier.run_batches predict printout gold_label_type out_path
    mini_batch_size dict h data_points = Ok st →
  NoDup (Classifier.all_spans (Classifier.found st))
  ∧ ∀ key,
      key ∈ Classifier.all_spans (Classifier.found st)
      ↔ is_Some (dict_get key (Classifier.all_true_values (Classifier.found st)))
        ∨ is_Some (dict_get key (Classifier.all_predicted_values (Classifier.found st))).
Proof.
  unfold Classifier.run_batches. case_decide; [done|].
  apply (for_each_invariant (λ st, spans_consistent (Classifier.found st))).
  - intros batch s s' (h2 & ->)%(batch_step_found predict printout) Hs.
    apply foldl_invariant; [|done].
    intros; by apply collect_datapoint_consistent.
  - split; [constructor|]. intros key. cbn. split.
    + by intros ?%elem_of_nil.
    + by intros [[? ?]|[? ?]].
Qed.

Lemma for_each_sentence_id (gold_label_type : string) (out_path : option string)
    (dict : option Dictionary.t) (bs : list (list loc))
    (st st' : Classifier.loop_state) :
  for_each bs (Classifier.batch_step predict printout gold_label_type out_path dict) st
  = Ok st' →
  Classifier.sentence_id (Classifier.found st')
  = Classifier.sentence_id (Classifier.found st) + length (concat bs).
Proof.
  revert st. induction bs as [|batch bs IH]; intros st; cbn.
  - intros [= <-]. lia.
  - intros (st1 & Hstep & Hrest)%bind_Ok.
    apply batch_step_found in Hstep as (h2 & Hfound).
    rewrite (IH _ Hrest), Hfound, foldl_collect_sentence_id, length_app. lia.
Qed.

(** X3: the sentence counter starts at 0 and advances once per data point,
    whether or not the data point has labels and however the data points
    are batched: at the end of the loop it is the number of data points. *)
Theorem sentence_id_counts_data_points (gold_label_type : string)
    (out_path : option string) (mini_batch_size : nat) (dict : option Dictionary.t)
    (h : heap) (data_points : list loc) (st : Classifier.loop_state) :
  Classifier.run_batches predict printout gold_label_type out_path
    mini_batch_size dict h data_points = Ok st →
  Classifier.sentence_id (Classifier.found st) = length data_points.
Proof.
  unfold Classifier.run_batches. case_decide as Hsize; [done|].
  intros ->%for_each_sentence_id. cbn.
  rewrite concat_batches by lia. done.
Qed.

End RunProperties.

Lemma found_spans_consistent_witness :
  ∃ st,
    Classifier.run_batches predict_no_label (λ _ _ h _, (h, [])) "gold" None 2 None
      two_points [0; 1; 2] = Ok st
    ∧ NoDup (Classifier.all_spans (Classifier.found st)).
Proof.
  eexists. split; [reflexivity|].
  eapply (found_spans_consistent predict_no_label (λ _ _ h _, (h, []))
            "gold" None 2 None two_points [0; 1; 2]).
  reflexivity.
Defined.

Lemma sentence_id_counts_data_points_witness :
  ∃ st,
    Classifier.run_batches predict_no_label (λ _ _ h _, (h, [])) "gold" None 2 None
      two_points [0; 1; 2] = Ok st
    ∧ Classifier.sentence_id (Classifier.found st) = 3.
Proof.
  eexists. split; [reflexivity|].
  apply (sentence_id_counts_data_points predict_no_label (λ _ _ h _, (h, []))
           "gold" None 2 None two_points [0; 1; 2]).
  reflexivity.
Defined.

(** ** Classifier.evaluate: the evaluation dictionary and the rows *)

Lemma item2idx_Some (d : Dictionary.t) (item : string) (i : nat) :
  Dictionary.item2idx d item = Some i → Dictionary.idx2item d !! i = Some item.
Proof.
  unfold Dictionary.item2idx.
  destruct (list_find (eq item) (Dictionary.idx2item d)) as [[j x]|] eqn:Hfind; [|done].
  intros [= <-]. by apply list_find_Some in Hfind as (Hj & -> & _).
Qed.

Lemma item2idx_None (d : Dictionary.t) (item : string) :
  Dictionary.item2idx d item = None ↔ item ∉ Dictionary.idx2item d.
Proof.
  unfold Dictionary.item2idx. rewrite fmap_None, list_find_None, Forall_forall.
  split.
  - intros Hall Hin. by apply (Hall item).
  - intros Hnot x Hx ->. done.
Qed.

Lemma item2idx_lookup (d : Dictionary.t) (item : string) (i : nat) :
  NoDup (Dictionary.idx2item d) →
  Dictionary.idx2item d !! i = Some item → Dictionary.item2idx d item = Some i.
Proof.
  intros Hnodup Hi.
  destruct (Dictionary.item2idx d item) as [j|] eqn:Hj.
  - apply item2idx_Some in Hj. f_equal. by eapply NoDup_lookup.
  - apply item2idx_None in Hj. destruct Hj. by eapply list_elem_of_lookup_2.
Qed.

Lemma add_item_items (d : Dictionary.t) (item x : string) :
  x ∈ Dictionary.idx2item (Dictionary.add_item d item)
  ↔ x ∈ Dictionary.idx2item d ∨ x = item.
Proof.
  unfold Dictionary.add_item.
  destruct (Dictionary.item2idx d item) as [i|] eqn:Hi; cbn.
  - apply item2idx_Some, list_elem_of_lookup_2 in Hi.
    split; [by left|]. by intros [?| ->].
  - by rewrite elem_of_app, list_elem_of_singleton.
Qed.

Lemma add_item_NoDup (d : Dictionary.t) (item : string) :
  NoDup (Dictionary.idx2item d) →
  NoDup (Dictionary.idx2item (Dictionary.add_item d item)).
Proof.
  intros Hnodup. unfold Dictionary.add_item.
  destruct (Dictionary.item2idx d item) as [i|] eqn:Hi; cbn; [done|].
  apply item2idx_None in Hi. apply NoDup_app. split; [done|].
  split; [|apply NoDup_singleton].
  by intros x Hx ->%list_elem_of_singleton.
Qed.

Lemma foldl_add_item_items (items : list string) (d : Dictionary.t) (x : string) :
  x ∈ Dictionary.idx2item (foldl Dictionary.add_item d items)
  ↔ x ∈ Dictionary.idx2item d ∨ x ∈ items.
Proof.
  revert d. induction items as [|item items IH]; intros d; cbn.
  - split; [by left|]. by intros [?|?%elem_of_nil].
  - rewrite IH, add_item_items, elem_of_cons. tauto.
Qed.

Lemma elem_of_chain_values (x : string) (values : list (string * list string)) :
  x ∈ Classifier.chain_values values ↔ ∃ kv, kv ∈ values ∧ x ∈ kv.2.
Proof.
  unfold Classifier.chain_values. induction values as [|kv values IH]; cbn.
  - split; [by intros ?%elem_of_nil|]. by intros (? & ?%elem_of_nil & _).
  - rewrite elem_of_app, IH. split.
    + intros [?|(kv' & ? & ?)]; [exists kv|exists kv']; split; try done;
        by constructor.
    + intros (kv' & [->|?]%elem_of_cons & ?); [by left|right; eauto].
Qed.

Lemma add_all_values_items (values : list (string * list string))
    (d : Dictionary.t) (x : string) :
  x ∈ Dictionary.idx2item (Classifier.add_all_values d values)
  ↔ x ∈ Dictionary.idx2item d ∨ x ∈ Classifier.chain_values values.
Proof.
  unfold Classifier.add_all_values, Classifier.chain_values.
  revert d. induction values as [|kv values IH]; intros d; cbn.
  - split; [by left|]. by intros [?|?%elem_of_nil].
  - rewrite IH, foldl_add_item_items, elem_of_app. tauto.
Qed.

Lemma add_all_values_NoDup (values : list (string * list string)) (d : Dictionary.t) :
  NoDup (Dictionary.idx2item d) →
  NoDup (Dictionary.idx2item (Classifier.add_all_values d values)).
Proof.
  unfold Classifier.add_all_values. intros Hd.
  apply (foldl_invariant (λ d, NoDup (Dictionary.idx2item d))); [|done].
  intros d' kv Hd'.
  apply (foldl_invariant (λ d, NoDup (Dictionary.idx2item d))); [|done].
  intros; by apply add_item_NoDup.
Qed.

(** X4: the evaluation dictionary holds "O" at index 0, then every value
    that was recorded on the gold or on the predicted side, and nothing
    else, each once; on it the two lookups are inverse to each other. *)
Theorem evaluation_label_dictionary_items (st : Classifier.spans) :
  let d := Classifier.evaluation_label_dictionary st in
  NoDup (Dictionary.get_items d)
  ∧ Dictionary.get_idx_for_item d "O" = 0
  ∧ (∀ v, v ∈ Dictionary.get_items d
          ↔ v = "O"
            ∨ v ∈ Classifier.chain_values (Classifier.all_true_values st)
            ∨ v ∈ Classifier.chain_values (Classifier.all_predicted_values st))
  ∧ (∀ v, v ∈ Dictionary.get_items d →
          Dictionary.get_item_for_index d (Dictionary.get_idx_for_item d v) = Ok v)
  ∧ (∀ i v, Dictionary.get_item_for_index d i = Ok v →
            Dictionary.get_idx_for_item d v = i).
Proof.
  intros d. unfold Dictionary.get_items.
  assert (NoDup (Dictionary.idx2item d)) as Hnodup.
  { subst d. unfold Classifier.evaluation_label_dictionary.
    do 2 apply add_all_values_NoDup. cbn. apply NoDup_singleton. }
  split; [done|]. split.
  { destruct (evaluation_label_dictionary_O st) as [rest Hitems].
    unfold Dictionary.get_idx_for_item. fold d in Hitems.
    by rewrite (item2idx_lookup d "O" 0 Hnodup) by (by rewrite Hitems). }
  split.
  { intros v. subst d. unfold Classifier.evaluation_label_dictionary.
    rewrite !add_all_values_items. cbn. rewrite list_elem_of_singleton. tauto. }
  split.
  - intros v (i & Hi)%list_elem_of_lookup.
    unfold Dictionary.get_idx_for_item, Dictionary.get_item_for_index.
    rewrite (item2idx_lookup d v i Hnodup Hi). cbn. by rewrite Hi.
  - intros i v. unfold Dictionary.get_idx_for_item, Dictionary.get_item_for_index.
    destruct (Dictionary.idx2item d !! i) as [v'|] eqn:Hi; [|done].
    intros [= ->]. by rewrite (item2idx_lookup d v i Hnodup Hi).
Qed.

Lemma evaluation_label_dictionary_NoDup (st : Classifier.spans) :
  NoDup (Dictionary.idx2item (Classifier.evaluation_label_dictionary st)).
Proof.
  unfold Classifier.evaluation_label_dictionary.
  do 2 apply add_all_values_NoDup. cbn. apply NoDup_singleton.
Qed.

Lemma get_idx_for_item_inj (d : Dictionary.t) (v v' : string) :
  v ∈ Dictionary.idx2item d → v' ∈ Dictionary.idx2item d →
  Dictionary.get_idx_for_item d v = Dictionary.get_idx_for_item d v' → v = v'.
Proof.
  unfold Dictionary.get_idx_for_item. intros Hv Hv' Heq.
  destruct (Dictionary.item2idx d v) as [i|] eqn:Hi;
    [|by apply item2idx_None in Hi].
  destruct (Dictionary.item2idx d v') as [i'|] eqn:Hi';
    [|by apply item2idx_None in Hi'].
  cbn in Heq. subst i'. apply item2idx_Some in Hi, Hi'. congruence.
Qed.

Lemma get_idx_for_item_lt (d : Dictionary.t) (v : string) :
  v ∈ Dictionary.idx2item d → Dictionary.get_idx_for_item d v < Dictionary.len d.
Proof.
  unfold Dictionary.get_idx_for_item, Dictionary.len. intros Hv.
  destruct (Dictionary.item2idx d v) as [i|] eqn:Hi;
    [|by apply item2idx_None in Hi].
  cbn. by apply item2idx_Some, lookup_lt_Some in Hi.
Qed.

(** Setting the slots of some values in a row. *)
Lemma set_slots_length (d : Dictionary.t) (values : list string) (r : list nat) :
  length (foldl (λ r v, <[Dictionary.get_idx_for_item d v := 1]> r) r values)
  = length r.
Proof.
  revert r. induction values as [|v values IH]; intros r; cbn; [done|].
  by rewrite IH, length_insert.
Qed.

Lemma set_slots_hit (d : Dictionary.t) (values : list string) (r : list nat) (j : nat) :
  j < length r →
  (∃ v, v ∈ values ∧ Dictionary.get_idx_for_item d v = j) →
  foldl (λ r v, <[Dictionary.get_idx_for_item d v := 1]> r) r values !! j = Some 1.
Proof.
  revert r. induction values as [|v values IH]; intros r Hj (v' & Hin & Hidx).
  - by apply elem_of_nil in Hin.
  - cbn. destruct (decide (Exists (λ v, Dictionary.get_idx_for_item d v = j) values))
      as [Hlater|Hlast].
    + apply IH; [by rewrite length_insert|]. by apply Exists_exists in Hlater.
    + apply elem_of_cons in Hin as [->|Hin];
        [|destruct Hlast; apply Exists_exists; eauto].
      clear IH. revert Hlast.
      assert (<[Dictionary.get_idx_for_item d v := 1]> r !! j = Some 1) as Hset
        by (rewrite Hidx; by apply list_lookup_insert_eq).
      revert Hset. generalize (<[Dictionary.get_idx_for_item d v := 1]> r).
      induction values as [|w values IH]; intros r' Hset Hnone; cbn; [done|].
      apply IH.
      * rewrite list_lookup_insert_ne; [done|].
        intros Hw. apply Hnone. by constructor.
      * intros Hex. apply Hnone. by constructor.
Qed.

Lemma set_slots_miss (d : Dictionary.t) (values : list string) (r : list nat) (j : nat) :
  (∀ v, v ∈ values → Dictionary.get_idx_for_item d v ≠ j) →
  foldl (λ r v, <[Dictionary.get_idx_for_item d v := 1]> r) r values !! j = r !! j.
Proof.
  revert r. induction values as [|v values IH]; intros r Hmiss; cbn; [done|].
  rewrite IH.
  - apply list_lookup_insert_ne, Hmiss. constructor.
  - intros w Hw. apply Hmiss. by constructor.
Qed.

Lemma set_slots_entries (d : Dictionary.t) (values : list string) (r : list nat) :
  (∀ x, x ∈ r → x = 0 ∨ x = 1) →
  ∀ x, x ∈ foldl (λ r v, <[Dictionary.get_idx_for_item d v := 1]> r) r values →
       x = 0 ∨ x = 1.
Proof.
  revert r. induction values as [|v values IH]; intros r Hr; cbn; [done|].
  apply IH. intros x (j & Hj)%list_elem_of_lookup.
  apply list_lookup_insert_Some in Hj as [(_ & <- & _)|[_ Hj]]; [by right|].
  apply Hr. by eapply list_elem_of_lookup_2.
Qed.

Lemma indicator_is_row (d : Dictionary.t) (values : list string) :
  indicator_row (Dictionary.len d) (Classifier.indicator d values).
Proof.
  unfold Classifier.indicator. split.
  - by rewrite set_slots_length, length_replicate.
  - apply set_slots_entries. by intros x ->%elem_of_replicate_inv; left.
Qed.

Lemma indicator_lookup (d : Dictionary.t) (values : list string) (j : nat) :
  Classifier.indicator d values !! j = Some 1
  ↔ j < Dictionary.len d ∧ ∃ v, v ∈ values ∧ Dictionary.get_idx_for_item d v = j.
Proof.
  unfold Classifier.indicator. split.
  - intros Hj. split.
    + apply lookup_lt_Some in Hj.
      by rewrite set_slots_length, length_replicate in Hj.
    + destruct (decide (Exists (λ v, Dictionary.get_idx_for_item d v = j) values))
        as [Hex|Hnone]; [by apply Exists_exists in Hex|].
      rewrite set_slots_miss in Hj.
      * by apply lookup_replicate in Hj as [? _].
      * intros v Hv Hidx. apply Hnone, Exists_exists. eauto.
  - intros [Hj Hex]. apply set_slots_hit; [by rewrite length_replicate|done].
Qed.

(** X5: [y_true] and [y_pred] have one row per key of [all_spans], in the
    order of the keys, and every row has one entry per item of the evaluation
    dictionary, each 0 or 1. *)
Theorem rows_are_multi_hot (st : Classifier.spans) :
  let n := Dictionary.len (Classifier.evaluation_label_dictionary st) in
  length (Classifier.y_true st) = length (Classifier.all_spans st)
  ∧ length (Classifier.y_pred st) = length (Classifier.all_spans st)
  ∧ (∀ r, r ∈ Classifier.y_true st → indicator_row n r)
  ∧ (∀ r, r ∈ Classifier.y_pred st → indicator_row n r).
Proof.
  unfold Classifier.y_true, Classifier.y_pred. cbn. rewrite !length_fmap.
  split; [done|]. split; [done|].
  split; intros r (span & -> & _)%list_elem_of_fmap; apply indicator_is_row.
Qed.

Lemma dict_get_elem_of {V : Type} (k : string) (v : V) (d : list (string * V)) :
  dict_get k d = Some v → (k, v) ∈ d.
Proof.
  induction d as [|[k' v'] d IH]; cbn; [done|].
  case_decide as Hk.
  - intros [= ->]. subst k'. constructor.
  - intros ?%IH. by constructor.
Qed.

Lemma values_or_O_true_items (st : Classifier.spans) (span x : string) :
  x ∈ Classifier.values_or_O span (Classifier.all_true_values st) →
  x ∈ Dictionary.idx2item (Classifier.evaluation_label_dictionary st).
Proof.
  unfold Classifier.values_or_O, Classifier.evaluation_label_dictionary.
  rewrite !add_all_values_items. cbn. rewrite list_elem_of_singleton.
  destruct (dict_get span (Classifier.all_true_values st)) as [vs|] eqn:Hget; cbn.
  - intros Hx. left. right. apply elem_of_chain_values.
    exists (span, vs). split; [by apply dict_get_elem_of|done].
  - intros ->%list_elem_of_singleton. by left; left.
Qed.

Lemma values_or_O_predicted_items (st : Classifier.spans) (span x : string) :
  x ∈ Classifier.values_or_O span (Classifier.all_predicted_values st) →
  x ∈ Dictionary.idx2item (Classifier.evaluation_label_dictionary st).
Proof.
  unfold Classifier.values_or_O, Classifier.evaluation_label_dictionary.
  rewrite !add_all_values_items. cbn. rewrite list_elem_of_singleton.
  destruct (dict_get span (Classifier.all_predicted_values st)) as [vs|] eqn:Hget; cbn.
  - intros Hx. right. apply elem_of_chain_values.
    exists (span, vs). split; [by apply dict_get_elem_of|done].
  - intros ->%list_elem_of_singleton. by left; left.
Qed.

Lemma indicator_decodes (d : Dictionary.t) (values : list string) (v : string) :
  (∀ x, x ∈ values → x ∈ Dictionary.idx2item d) →
  v ∈ Dictionary.idx2item d →
  Classifier.indicator d values !! Dictionary.get_idx_for_item d v = Some 1
  ↔ v ∈ values.
Proof.
  intros Hvalues Hv. rewrite indicator_lookup. split.
  - intros (_ & v' & Hv' & Hidx).
    by rewrite <- (get_idx_for_item_inj d v' v (Hvalues _ Hv') Hv Hidx).
  - intros Hin. split; [by apply get_idx_for_item_lt|eauto].
Qed.

(** X6: the rows can be read back.  In the row of a key the slot of an item
    of the evaluation dictionary is 1 exactly when the item is one of the
    values recorded under the key on that side, or is "O" when no value was
    recorded there. *)
Theorem rows_decode (st : Classifier.spans) (i : nat) (span v : string) :
  let d := Classifier.evaluation_label_dictionary st in
  Classifier.all_spans st !! i = Some span →
  v ∈ Dictionary.get_items d →
  (∃ r, Classifier.y_true st !! i = Some r
        ∧ (r !! Dictionary.get_idx_for_item d v = Some 1
           ↔ v ∈ default ["O"] (dict_get span (Classifier.all_true_values st))))
  ∧ (∃ r, Classifier.y_pred st !! i = Some r
          ∧ (r !! Dictionary.get_idx_for_item d v = Some 1
             ↔ v ∈ default ["O"] (dict_get span (Classifier.all_predicted_values st)))).
Proof.
  intros d Hi Hv. unfold Classifier.y_true, Classifier.y_pred.
  rewrite !list_lookup_fmap, Hi. cbn. split; eexists; (split; [reflexivity|]).
  - apply indicator_decodes; [|done]. apply values_or_O_true_items.
  - apply indicator_decodes; [|done]. apply values_or_O_predicted_items.
Qed.

Lemma rows_decode_witness :
  ∃ r,
    Classifier.y_true
      (Classifier.collect_datapoint "gold" None two_points Classifier.no_spans 0)
      !! 0 = Some r
    ∧ (r !! 1 = Some 1 ↔ "MISC" ∈ ["MISC"]).
Proof.
  destruct (rows_decode
              (Classifier.collect_datapoint "gold" None two_points Classifier.no_spans 0)
              0 "0: Span [1,2]" "MISC") as [Htrue _].
  - reflexivity.
  - vm_compute. repeat constructor.
  - exact Htrue.
Defined.

(** ** Classifier.evaluate: the classes that are scored *)

Lemma counter_add_lookup (x y : string) (c : list (string * nat)) :
  dict_get y (counter_add x c)
  = if decide (x = y) then Some (S (default 0 (dict_get x c))) else dict_get y c.
Proof.
  induction c as [|[z n] c IH]; cbn.
  - repeat case_decide; simplify_eq; done.
  - destruct (decide (x = z)) as [->|Hxz]; cbn.
    + repeat case_decide; simplify_eq; done.
    + rewrite IH. repeat case_decide; simplify_eq; done.
Qed.

Lemma counter_add_keys (x : string) (c : list (string * nat)) :
  (counter_add x c).*1 = if decide (x ∈ c.*1) then c.*1 else c.*1 ++ [x].
Proof.
  induction c as [|[z n] c IH]; cbn.
  - rewrite decide_False; [done|]. by intros ?%elem_of_nil.
  - destruct (decide (x = z)) as [->|Hxz]; cbn.
    + rewrite decide_True; [done|]. constructor.
    + rewrite IH. destruct (decide (x ∈ c.*1)) as [Hin|Hnot].
      * rewrite decide_True; [done|]. by constructor.
      * rewrite decide_False; [done|]. by intros [?|?]%elem_of_cons.
Qed.

Lemma counter_update_keys (xs : list string) (c : list (string * nat)) :
  NoDup c.*1 →
  NoDup (counter_update c xs).*1
  ∧ ∀ y, y ∈ (counter_update c xs).*1 ↔ y ∈ c.*1 ∨ y ∈ xs.
Proof.
  unfold counter_update. revert c. induction xs as [|x xs IH]; intros c Hc; cbn.
  - split; [done|]. intros y. split; [by left|]. by intros [?|?%elem_of_nil].
  - destruct (IH (counter_add x c)) as [Hnodup Hkeys].
    + rewrite counter_add_keys. case_decide as Hx; [done|].
      apply NoDup_app. split; [done|]. split; [|apply NoDup_singleton].
      by intros y Hy ->%list_elem_of_singleton.
    + split; [done|]. intros y. rewrite Hkeys, counter_add_keys, elem_of_cons.
      case_decide as Hx.
      * split; [tauto|]. intros [?|[->|?]]; tauto.
      * rewrite elem_of_app, list_elem_of_singleton. tauto.
Qed.

Lemma counter_update_count (xs : list string) (c : list (string * nat)) (y : string) :
  default 0 (dict_get y (counter_update c xs))
  = default 0 (dict_get y c) + length (filter (eq y) xs).
Proof.
  unfold counter_update. revert c. induction xs as [|x xs IH]; intros c;
    cbn [foldl]; [cbn; lia|].
  rewrite IH, counter_add_lookup, filter_cons.
  repeat case_decide; simplify_eq; cbn; lia.
Qed.

Lemma dict_get_of_elem {V : Type} (k : string) (v : V) (d : list (string * V)) :
  NoDup d.*1 → (k, v) ∈ d → dict_get k d = Some v.
Proof.
  induction d as [|[k' v'] d IH]; cbn; [by intros _ ?%elem_of_nil|].
  intros [Hk' Hd]%NoDup_cons [[= -> ->]|Hin]%elem_of_cons.
  - by rewrite decide_True.
  - case_decide as Hk; [|by apply IH]. subst k'. destruct Hk'.
    apply list_elem_of_fmap. by exists (k, v).
Qed.

Lemma filter_fst {B : Type} (P : string → Prop) `{∀ x, Decision (P x)}
    (l : list (string * B)) :
  (filter (λ kv, P kv.1) l).*1 = filter P l.*1.
Proof.
  induction l as [|[k v] l IH]; [done|].
  rewrite filter_cons. cbn [fmap list_fmap fst]. rewrite filter_cons. cbn.
  case_decide; cbn; by rewrite IH.
Qed.

Lemma label_counter_keys (st : Classifier.spans) :
  NoDup (Classifier.label_counter st).*1
  ∧ ∀ y, y ∈ (Classifier.label_counter st).*1
         ↔ y ∈ Classifier.chain_values (Classifier.all_true_values st)
           ∨ y ∈ Classifier.chain_values (Classifier.all_predicted_values st).
Proof.
  unfold Classifier.label_counter.
  destruct (counter_update_keys
              (Classifier.chain_values (Classifier.all_true_values st)) [])
    as [Hnodup1 Hkeys1]; [constructor|].
  destruct (counter_update_keys
              (Classifier.chain_values (Classifier.all_predicted_values st))
              (counter_update []
                 (Classifier.chain_values (Classifier.all_true_values st))) Hnodup1)
    as [Hnodup2 Hkeys2].
  split; [done|]. intros y. rewrite Hkeys2, Hkeys1. cbn.
  split; [intros [[?%elem_of_nil|?]|?]; tauto|tauto].
Qed.

Lemma label_counter_count (st : Classifier.spans) (y : string) (n : nat) :
  (y, n) ∈ Classifier.label_counter st → n = occurrences st y.
Proof.
  intros Hin. destruct (label_counter_keys st) as [Hnodup _].
  pose proof (dict_get_of_elem y n _ Hnodup Hin) as Hget.
  assert (default 0 (dict_get y (Classifier.label_counter st))
          = 0 + length (filter (eq y)
                          (Classifier.chain_values (Classifier.all_true_values st)))
            + length (filter (eq y)
                        (Classifier.chain_values (Classifier.all_predicted_values st))))
    as Hcount by (unfold Classifier.label_counter; by rewrite !counter_update_count).
  rewrite Hget in Hcount. cbn in Hcount.
  unfold occurrences. rewrite filter_app, length_app. lia.
Qed.

Lemma target_names (exclude_labels : list string) (st : Classifier.spans) :
  (Classifier.targets exclude_labels st).*1
  = filter (λ x, x ≠ "O" ∧ x ∉ exclude_labels)
      (most_common (Classifier.label_counter st)).*1.
Proof.
  unfold Classifier.targets. rewrite <- list_fmap_compose.
  rewrite <- (filter_fst (λ x, x ≠ "O" ∧ x ∉ exclude_labels)).
  by apply list_fmap_ext.
Qed.

(** X7: the classes that are scored are the recorded values other than "O"
    and the excluded labels, each once, and the label that goes with a name
    is its index in the evaluation dictionary, which is never that of "O". *)
Theorem targets_are_recorded_classes (exclude_labels : list string)
    (st : Classifier.spans) :
  let scored := Classifier.targets exclude_labels st in
  NoDup scored.*1
  ∧ (∀ x, x ∈ scored.*1
          ↔ x ≠ "O" ∧ (x ∉ exclude_labels)
            ∧ (x ∈ Classifier.chain_values (Classifier.all_true_values st)
               ∨ x ∈ Classifier.chain_values (Classifier.all_predicted_values st)))
  ∧ (∀ name label, (name, label) ∈ scored →
       Dictionary.get_item_for_index (Classifier.evaluation_label_dictionary st) label
         = Ok name
       ∧ label ≠ 0).
Proof.
  intros scored. subst scored.
  destruct (label_counter_keys st) as [Hnodup Hkeys].
  assert ((most_common (Classifier.label_counter st)).*1
          ≡ₚ (Classifier.label_counter st).*1) as Hperm
    by (unfold most_common; by rewrite sorted_desc_Permutation).
  assert (∀ x, x ∈ (Classifier.targets exclude_labels st).*1
               ↔ x ≠ "O" ∧ (x ∉ exclude_labels)
                 ∧ (x ∈ Classifier.chain_values (Classifier.all_true_values st)
                    ∨ x ∈ Classifier.chain_values (Classifier.all_predicted_values st)))
    as Hnames.
  { intros x. rewrite target_names, list_elem_of_filter, Hperm, Hkeys. tauto. }
  split; [|split; [done|]].
  - rewrite target_names. apply NoDup_filter. by rewrite Hperm.
  - intros name label Hin.
    assert (name ∈ (Classifier.targets exclude_labels st).*1) as Hname.
    { apply list_elem_of_fmap. by exists (name, label). }
    apply Hnames in Hname as (HO & _ & Hrecorded).
    unfold Classifier.targets in Hin.
    apply list_elem_of_fmap in Hin as ([name' count] & [= -> ->] & _). cbn in *.
    assert (name' ∈ Dictionary.idx2item (Classifier.evaluation_label_dictionary st))
      as Hitem.
    { unfold Classifier.evaluation_label_dictionary.
      rewrite !add_all_values_items. tauto. }
    pose proof (evaluation_label_dictionary_NoDup st) as Hd.
    apply list_elem_of_lookup in Hitem as (i & Hi).
    unfold Dictionary.get_item_for_index, Dictionary.get_idx_for_item.
    rewrite (item2idx_lookup _ _ _ Hd Hi). cbn. rewrite Hi. split; [done|].
    intros ->. destruct (evaluation_label_dictionary_O st) as [rest Hrest].
    rewrite Hrest in Hi. by injection Hi as <-.
Qed.

Lemma StronglySorted_filter_fmap {A B : Type} (R : relation A) (R' : relation B)
    (f : A → B) (P : A → Prop) `{∀ x, Decision (P x)} (l : list A) :
  (∀ a b, a ∈ l → b ∈ l → R a b → R' (f a) (f b)) →
  StronglySorted R l → StronglySorted R' (f <$> filter P l).
Proof.
  intros Hf Hsorted. induction Hsorted as [|x l Hsorted IH Hx]; [constructor|].
  assert (StronglySorted R' (f <$> filter P l)) as IH'.
  { apply IH. intros a b Ha Hb. apply Hf; by constructor. }
  rewrite filter_cons. case_decide; [|done]. cbn. constructor; [done|].
  apply Forall_fmap, Forall_forall. intros y [_ Hy]%list_elem_of_filter.
  apply Hf; [constructor|by constructor|].
  by eapply Forall_forall in Hx.
Qed.

(** X8: the classes that are scored come by decreasing number of
    occurrences among the recorded gold and predicted values. *)
Theorem targets_by_decreasing_count (exclude_labels : list string)
    (st : Classifier.spans) :
  StronglySorted (λ a b, occurrences st b ≤ occurrences st a)
    (Classifier.targets exclude_labels st).*1.
Proof.
  unfold Classifier.targets. rewrite <- list_fmap_compose.
  apply (StronglySorted_filter_fmap (λ a b : string * nat, b.2 ≤ a.2)).
  - intros [a n] [b m] Ha Hb Hle. cbn in *.
    unfold most_common in Ha, Hb. rewrite sorted_desc_Permutation in Ha, Hb.
    by rewrite <- (label_counter_count st a n Ha), <- (label_counter_count st b m Hb).
  - apply sorted_desc_sorted.
Qed.

(** ** Model.save and Model.load: what is in the file *)

(** X9: for a model whose optimizer and scheduler entries are live objects
    (or absent), the file that [save] writes holds the state of the model
    and the model card with, for every live object, its class under the key
    of the object and its state dict under "<key>_state_dict"; every other
    training parameter is written as it is, an entry under
    "<key>_state_dict" included when there is no object under the key.  No
    live object is written. *)
Theorem save_writes_class_and_state_dict (self : Model.t) (model_file : string)
    (card : Model.ModelCard) (tp : gmap string Model.pyvalue) :
  Model.model_card self = Some card →
  Model.training_parameters card = Some tp →
  live_or_absent (tp !! "optimizer") →
  live_or_absent (tp !! "scheduler") →
  ∃ self' written,
    Model.save self model_file
    = Ok (self',
          (model_file,
           Model.mkModelState (Model._get_state_dict self)
             (Some (Model.mkModelCard (Model.versions card) (Some written)))))
    ∧ (∀ cls state, tp !! "optimizer" = Some (Model.Live cls state) →
         written !! "optimizer" = Some (Model.Class cls)
         ∧ written !! "optimizer_state_dict" = Some (Model.StateDict state))
    ∧ (∀ cls state, tp !! "scheduler" = Some (Model.Live cls state) →
         written !! "scheduler" = Some (Model.Class cls)
         ∧ written !! "scheduler_state_dict" = Some (Model.StateDict state))
    ∧ (∀ key, key ≠ "optimizer" → key ≠ "optimizer_state_dict" →
         key ≠ "scheduler" → key ≠ "scheduler_state_dict" →
         written !! key = tp !! key)
    ∧ (tp !! "optimizer" = None →
         written !! "optimizer" = None
         ∧ written !! "optimizer_state_dict" = tp !! "optimizer_state_dict")
    ∧ (tp !! "scheduler" = None →
         written !! "scheduler" = None
         ∧ written !! "scheduler_state_dict" = tp !! "scheduler_state_dict")
    ∧ (∀ cls state, written !! "optimizer" ≠ Some (Model.Live cls state))
    ∧ (∀ cls state, written !! "scheduler" ≠ Some (Model.Live cls state)).
Proof.
  intros Hcard Htp Hopt Hsch. unfold Model.save. rewrite Hcard, Htp.
  unfold Model.snapshot.
  change ("optimizer" +:+ "_state_dict") with "optimizer_state_dict".
  change ("scheduler" +:+ "_state_dict") with "scheduler_state_dict".
  destruct (tp !! "optimizer") as [[ocls ost| | |]|] eqn:Eo; try done;
    destruct (tp !! "scheduler") as [[scls sst| | |]|] eqn:Es; try done;
    cbn; simplify_map_eq; cbn;
    eexists _, _; (split; [reflexivity|]);
    repeat split; intros; simplify_map_eq; try done; congruence.
Qed.

Lemma save_writes_class_and_state_dict_witness :
  ∃ self' written,
    Model.save trained_model "best-model.pt"
    = Ok (self',
          ("best-model.pt",
           Model.mkModelState "weights"
             (Some (Model.mkModelCard {["flair_version" := "0.9"]} (Some written)))))
    ∧ written !! "optimizer" = Some (Model.Class "SGD")
    ∧ written !! "optimizer_state_dict" = Some (Model.StateDict "momentum buffers")
    ∧ written !! "learning_rate" = Some (Model.Plain "0.1").
Proof.
  destruct (save_writes_class_and_state_dict trained_model "best-model.pt"
              trained_card trained_parameters)
    as (self' & written & Hsave & Hopt & _ & Hother & _); [reflexivity..|].
  exists self', written. split; [exact Hsave|].
  destruct (Hopt "SGD" "momentum buffers" eq_refl) as [Hclass Hstate].
  split; [exact Hclass|]. split; [exact Hstate|].
  rewrite Hother; [reflexivity|discriminate..].
Defined.

(** X10: a model that was saved with a live optimizer and is loaded again
    carries the model card of the file, in which the optimizer is a class,
    not an object: saving the loaded model fails with a [TypeError] when
    [save] asks that class for its state dict. *)
Theorem loaded_model_cannot_be_saved
    (_init_model_with_state_dict : Model.ModelState → result Model.t)
    (self self' loaded : Model.t) (model_file model_file' : string)
    (card : Model.ModelCard) (tp : gmap string Model.pyvalue)
    (cls state : string) (written : Model.ModelState) :
  Model.model_card self = Some card →
  Model.training_parameters card = Some tp →
  tp !! "optimizer" = Some (Model.Live cls state) →
  Model.save self model_file = Ok (self', (model_file, written)) →
  Model.load _init_model_with_state_dict written = Ok loaded →
  Model.model_card loaded = Model.saved_model_card written
  ∧ training_parameter loaded "optimizer" = Some (Model.Class cls)
  ∧ training_parameter loaded "optimizer_state_dict" = Some (Model.StateDict state)
  ∧ Model.save loaded model_file' = Raise TypeError.
Proof.
  intros Hcard Htp Hopt Hsave Hload.
  unfold Model.save in Hsave. rewrite Hcard, Htp in Hsave.
  unfold Model.snapshot in Hsave. rewrite Hopt in Hsave. cbn in Hsave.
  change ("optimizer" +:+ "_state_dict") with "optimizer_state_dict" in Hsave.
  change ("scheduler" +:+ "_state_dict") with "scheduler_state_dict" in Hsave.
  rewrite !lookup_insert_ne in Hsave by done.
  unfold Model.load in Hload.
  apply bind_Ok in Hload as (model & _ & Hloaded).
  destruct (tp !! "scheduler") as [[scls sst| | |]|] eqn:Es; cbn in Hsave;
    try discriminate Hsave;
    injection Hsave as <- <-; cbn in Hloaded; injection Hloaded as <-;
    unfold training_parameter, Model.save, Model.snapshot; cbn;
    simplify_map_eq; done.
Qed.

Lemma loaded_model_cannot_be_saved_witness :
  ∃ self' written loaded,
    Model.save trained_model "best-model.pt" = Ok (self', ("best-model.pt", written))
    ∧ Model.load (λ state, Ok (Model.mkModel (Model.state state) None)) written
      = Ok loaded
    ∧ Model.save loaded "final-model.pt" = Raise TypeError.
Proof.
  eexists _, _, _. split; [reflexivity|]. split; [reflexivity|].
  eapply (loaded_model_cannot_be_saved
            (λ state, Ok (Model.mkModel (Model.state state) None))
            trained_model _ _ "best-model.pt" "final-model.pt"
            trained_card trained_parameters "SGD" "momentum buffers");
    reflexivity.
Defined.

(** ** DefaultClassifier: the weight tensor *)



(** ** DefaultClassifier.predict: input without tokens *)

Lemma num_tokens_remove_labels (batch : list loc) (typename : string) (h : heap)
    (o : loc) :
  num_tokens (foldl (λ h sentence, remove_labels sentence typename h) h batch o)
  = num_tokens (h o).
Proof.
  apply (foldl_invariant (λ h', num_tokens (h' o) = num_tokens (h o))); [|done].
  intros h' o' <-. unfold remove_labels, update. by case_decide; subst.
Qed.

Section EarlyReturn.

Context (sigmoid : Qc → Qc) (softmax : list Qc → list Qc)
        (BCEWithLogitsLoss : option (list Qc) → DefaultClassifier.tensor → list (list Qc) → Qc)
        (CrossEntropyLoss : option (list Qc) → DefaultClassifier.tensor → list nat → Qc)
        (forward_pass : heap → list loc → result DefaultClassifier.forward_output).

Lemma predict_points_without_tokens (self : DefaultClassifier.t) (h : heap)
    (sentences : list loc) (mini_batch_size : nat)
    (return_probabilities_for_all_classes : bool) (label_name : option string)
    (return_loss : bool) :
  (∀ o, o ∈ sentences → num_tokens (h o) = 0) →
  DefaultClassifier.predict sigmoid softmax BCEWithLogitsLoss CrossEntropyLoss
    forward_pass self h (DefaultClassifier.Points sentences) mini_batch_size
    return_probabilities_for_all_classes label_name return_loss
  = Ok (h, DefaultClassifier.ReturnedArgument (DefaultClassifier.Points [])).
Proof.
  intros Hempty. unfold DefaultClassifier.predict.
  case_bool_decide as Hnil; [by subst|]. cbn.
  rewrite (filter_none (λ s, 0 < num_tokens (h s)) sentences).
  - by rewrite decide_True.
  - intros o Ho. rewrite (Hempty o Ho). lia.
Qed.

(** X12: when no sentence of the input has a token, [predict] returns at
    once: the forward pass is not run, no data point is touched, and what is
    returned is the (emptied) list of sentences, also when [return_loss] is
    set; a single sentence without tokens is returned as it is. *)
Theorem predict_without_tokens (self : DefaultClassifier.t) (h : heap)
    (sentences : list loc) (sentence : loc) (mini_batch_size : nat)
    (return_probabilities_for_all_classes : bool) (label_name : option string)
    (return_loss : bool) :
  (∀ o, o ∈ sentences → num_tokens (h o) = 0) →
  num_tokens (h sentence) = 0 →
  DefaultClassifier.predict sigmoid softmax BCEWithLogitsLoss CrossEntropyLoss
    forward_pass self h (DefaultClassifier.Points sentences) mini_batch_size
    return_probabilities_for_all_classes label_name return_loss
  = Ok (h, DefaultClassifier.ReturnedArgument (DefaultClassifier.Points []))
  ∧ DefaultClassifier.predict sigmoid softmax BCEWithLogitsLoss CrossEntropyLoss
      forward_pass self h (DefaultClassifier.OnePoint sentence) mini_batch_size
      return_probabilities_for_all_classes label_name return_loss
    = Ok (h, DefaultClassifier.ReturnedArgument (DefaultClassifier.OnePoint sentence)).
Proof.
  intros Hempty Hone. split; [by apply predict_points_without_tokens|].
  unfold DefaultClassifier.predict. by rewrite bool_decide_eq_true_2.
Qed.

Lemma batch_step_without_tokens (self : DefaultClassifier.t)
    (printout : bool → string → heap → loc → heap * list string)
    (gold_label_type : string) (out_path : option string)
    (dict : option Dictionary.t) (mini_batch_size : nat)
    (batch : list loc) (st : Classifier.loop_state) :
  (∀ o, o ∈ batch → num_tokens (Classifier.objects st o) = 0) →
  Classifier.batch_step
    (DefaultClassifier.predict_for_evaluate sigmoid softmax BCEWithLogitsLoss
       CrossEntropyLoss forward_pass self mini_batch_size)
    printout gold_label_type out_path dict batch st
  = Raise TypeError.
Proof.
  intros Hempty. unfold Classifier.batch_step, DefaultClassifier.predict_for_evaluate.
  rewrite predict_points_without_tokens; [done|].
  intros o Ho. rewrite num_tokens_remove_labels. by apply Hempty.
Qed.

(** X13: [evaluate] on a classifier with this [predict] fails with a
    [TypeError] when the first batch holds only sentences without tokens:
    [predict] hands back a list, not a loss, and the list is added to
    [eval_loss]. *)
Theorem evaluate_without_tokens_raises (self : DefaultClassifier.t)
    (printout : bool → string → heap → loc → heap * list string)
    (sklearn_classification_report :
       list (list nat) → list (list nat) → list string → list nat → string)
    (sklearn_classification_report_dict :
       list (list nat) → list (list nat) → list string → list nat
       → gmap string (gmap string Qc))
    (sklearn_accuracy_score : list (list nat) → list (list nat) → Qc)
    (round4 : Qc → Qc) (format_float : Qc → string)
    (h : heap) (data_points : list loc) (gold_label_type : string)
    (out_path : option string) (mini_batch_size : nat)
    (main_evaluation_metric : string * string) (exclude_labels : list string)
    (dict : option Dictionary.t) :
  data_points ≠ [] →
  mini_batch_size ≠ 0 →
  (∀ o, o ∈ take mini_batch_size data_points → num_tokens (h o) = 0) →
  Classifier.evaluate
    (DefaultClassifier.predict_for_evaluate sigmoid softmax BCEWithLogitsLoss
       CrossEntropyLoss forward_pass self mini_batch_size)
    printout sklearn_classification_report sklearn_classification_report_dict
    sklearn_accuracy_score round4 format_float h data_points gold_label_type
    out_path mini_batch_size main_evaluation_metric exclude_labels dict
  = Raise TypeError.
Proof.
  intros Hdata Hsize Hempty.
  unfold Classifier.evaluate, Classifier.run_batches.
  rewrite decide_False by done.
  destruct data_points as [|o data_points]; [done|].
  unfold batches. cbn [length batches_fuel for_each].
  by rewrite batch_step_without_tokens.
Qed.

End EarlyReturn.

Lemma predict_without_tokens_witness :
  DefaultClassifier.predict id id (λ _ _ _, 0%Qc) (λ _ _ _, 0%Qc)
    (λ _ _, Raise NotImplementedError) multi_label_classifier one_gold_label
    (DefaultClassifier.Points [1; 2]) 32 false None true
  = Ok (one_gold_label, DefaultClassifier.ReturnedArgument (DefaultClassifier.Points [])).
Proof.
  apply (predict_without_tokens id id (λ _ _ _, 0%Qc) (λ _ _ _, 0%Qc)
           (λ _ _, Raise NotImplementedError) multi_label_classifier one_gold_label
           [1; 2] 1 32 false None true).
  - intros o [->|[->|Ho%elem_of_nil]%elem_of_cons]%elem_of_cons;
      [reflexivity|reflexivity|destruct Ho].
  - reflexivity.
Defined.

Lemma evaluate_without_tokens_raises_witness :
  Classifier.evaluate
    (DefaultClassifier.predict_for_evaluate id id (λ _ _ _, 0%Qc) (λ _ _ _, 0%Qc)
       (λ _ _, Raise NotImplementedError) multi_label_classifier 32)
    (λ _ _ h _, (h, [])) (λ _ _ _ _, EmptyString) (λ _ _ _ _, ∅) (λ _ _, 1%Qc)
    id (λ _, "0.0") one_gold_label [1; 2] "gold" None 32
    ("micro avg", "f1-score") [] None
  = Raise TypeError.
Proof.
  apply (evaluate_without_tokens_raises id id (λ _ _ _, 0%Qc) (λ _ _ _, 0%Qc)
           (λ _ _, Raise NotImplementedError) multi_label_classifier).
  - discriminate.
  - discriminate.
  - intros o [->|[->|Ho%elem_of_nil]%elem_of_cons]%elem_of_cons;
      [reflexivity|reflexivity|destruct Ho].
Defined.

(** ** DefaultClassifier.predict: what it leaves alone *)

Lemma get_labels_attach_all_other (typename t : string) (calls : list (loc * Label))
    (h : heap) (o : loc) :
  t ≠ typename → get_labels (attach_all typename calls h) o t = get_labels h o t.
Proof.
  intros Ht. unfold attach_all. revert h.
  induction calls as [|[o' l] calls IH]; intros h; cbn; [done|].
  rewrite IH, get_labels_add_complex_label.
  rewrite decide_False; [by rewrite app_nil_r|]. by intros [_ ->].
Qed.

Lemma num_tokens_attach_all (typename : string) (calls : list (loc * Label))
    (h : heap) (o : loc) :
  num_tokens (attach_all typename calls h o) = num_tokens (h o).
Proof.
  unfold attach_all.
  apply (foldl_invariant (λ h', num_tokens (h' o) = num_tokens (h o))); [|done].
  intros h' c <-. unfold add_complex_label, update. by case_decide; subst.
Qed.

(** A loop whose rounds only add labels of a kind only adds labels of that
    kind. *)
Lemma for_each_attached {A : Type} (P : loc * Label → Prop) (typename : string)
    (xs : list A) (body : A → heap → result heap) (h h' : heap) :
  (∀ x h h', x ∈ xs → body x h = Ok h' →
     ∃ calls, h' = attach_all typename calls h ∧ Forall P calls) →
  for_each xs body h = Ok h' →
  ∃ calls, h' = attach_all typename calls h ∧ Forall P calls.
Proof.
  revert h. induction xs as [|x xs IH]; intros h Hbody; cbn.
  - intros [= <-]. by exists [].
  - intros (h1 & Hx & Hrest)%bind_Ok.
    apply Hbody in Hx as (calls1 & -> & HP1); [|constructor].
    apply IH in Hrest as (calls2 & -> & HP2).
    + exists (calls1 ++ calls2). split; [by rewrite attach_all_app|].
      by apply Forall_app.
    + intros y h0 h0' Hy. apply Hbody. by constructor.
Qed.

Lemma get_item_for_index_items (d : Dictionary.t) (i : nat) (v : string) :
  Dictionary.get_item_for_index d i = Ok v → v ∈ Dictionary.get_items d.
Proof.
  unfold Dictionary.get_item_for_index, Dictionary.get_items.
  destruct (Dictionary.idx2item d !! i) as [v'|] eqn:Hi; [|done].
  intros [= <-]. by eapply list_elem_of_lookup_2.
Qed.

Section FrameProperties.

Context (sigmoid : Qc → Qc) (softmax : list Qc → list Qc)
        (BCEWithLogitsLoss : option (list Qc) → DefaultClassifier.tensor → list (list Qc) → Qc)
        (CrossEntropyLoss : option (list Qc) → DefaultClassifier.tensor → list nat → Qc)
        (forward_pass : heap → list loc → result DefaultClassifier.forward_output).

Lemma label_point_multi_attached (self : DefaultClassifier.t) (ret : bool)
    (label_name : string) (sig : DefaultClassifier.tensor) (s_idx : nat)
    (sentence : loc) (cand : Label) (sentences : list loc) (h h' : heap) :
  sentence ∈ sentences →
  DefaultClassifier.label_point_multi self ret label_name sig s_idx sentence cand h
  = Ok h' →
  ∃ calls, h' = attach_all label_name calls h
           ∧ Forall (predicted_call self sentences) calls.
Proof.
  intros Hs. unfold DefaultClassifier.label_point_multi.
  apply for_each_attached. intros l_idx h0 h0' _.
  intros (v & Hv & Hrest)%bind_Ok. case_decide as HO.
  { injection Hrest as <-. by exists []. }
  apply bind_Ok in Hrest as (t & _ & Hrest).
  apply bind_Ok in Hrest as (score & _ & Hrest).
  destruct (bool_decide _ || ret); injection Hrest as <-.
  - exists [(sentence, spawn cand v score)]. split; [done|].
    constructor; [|constructor]. split; [done|]. split; [done|].
    by eapply get_item_for_index_items.
  - by exists [].
Qed.

Lemma label_point_all_attached (self : DefaultClassifier.t)
    (label_name : string) (soft : DefaultClassifier.tensor) (s_idx : nat)
    (sentence : loc) (cand : Label) (sentences : list loc) (h h' : heap) :
  sentence ∈ sentences →
  DefaultClassifier.label_point_all self label_name soft s_idx sentence cand h
  = Ok h' →
  ∃ calls, h' = attach_all label_name calls h
           ∧ Forall (predicted_call self sentences) calls.
Proof.
  intros Hs. unfold DefaultClassifier.label_point_all.
  apply for_each_attached. intros l_idx h0 h0' _.
  intros (v & Hv & Hrest)%bind_Ok. case_decide as HO.
  { injection Hrest as <-. by exists []. }
  apply bind_Ok in Hrest as (score & _ & Hrest). injection Hrest as <-.
  exists [(sentence, spawn cand v score)]. split; [done|].
  constructor; [|constructor]. split; [done|]. split; [done|].
  by eapply get_item_for_index_items.
Qed.

Lemma label_point_best_attached (self : DefaultClassifier.t)
    (label_name : string) (sentence : loc) (cand : Label) (c : Qc) (i : nat)
    (sentences : list loc) (h h' : heap) :
  sentence ∈ sentences →
  DefaultClassifier.label_point_best self label_name sentence cand c i h = Ok h' →
  ∃ calls, h' = attach_all label_name calls h
           ∧ Forall (predicted_call self sentences) calls.
Proof.
  intros Hs. unfold DefaultClassifier.label_point_best.
  intros (v & Hv & Hrest)%bind_Ok. case_decide as HO; injection Hrest as <-.
  - by exists [].
  - exists [(sentence, spawn cand v c)]. split; [done|].
    constructor; [|constructor]. split; [done|]. split; [done|].
    by eapply get_item_for_index_items.
Qed.

Lemma add_predictions_attached (self : DefaultClassifier.t) (ret : bool)
    (label_name : string) (out : DefaultClassifier.forward_output) (h h' : heap) :
  DefaultClassifier.add_predictions sigmoid softmax self ret label_name out h = Ok h' →
  ∃ calls, h' = attach_all label_name calls h
           ∧ Forall (predicted_call self (DefaultClassifier.sentences out)) calls.
Proof.
  unfold DefaultClassifier.add_predictions.
  destruct (DefaultClassifier.multi_label self); [|destruct ret].
  - apply for_each_attached. intros [s_idx [sentence cand]] h0 h0' Hp. cbn [fst snd].
    apply (label_point_multi_attached self ret label_name _ s_idx sentence cand
             (DefaultClassifier.sentences out)).
    apply elem_of_enumerate, list_elem_of_lookup_2 in Hp. by eapply elem_of_zip_l.
  - apply for_each_attached. intros [s_idx [sentence cand]] h0 h0' Hp. cbn [fst snd].
    apply (label_point_all_attached self label_name _ s_idx sentence cand
             (DefaultClassifier.sentences out)).
    apply elem_of_enumerate, list_elem_of_lookup_2 in Hp. by eapply elem_of_zip_l.
  - intros (best & _ & Hrest)%bind_Ok. revert Hrest.
    apply for_each_attached. intros [[sentence cand] [c i]] h0 h0' Hp. cbn [fst snd].
    apply (label_point_best_attached self label_name sentence cand c i
             (DefaultClassifier.sentences out)).
    apply elem_of_zip_l in Hp. by eapply elem_of_zip_l.
Qed.

(** X14: whatever the mode, the labelling of a batch only adds: on every
    object and for every label type the labels are those of before followed
    by new ones; there are no new ones for another label type or on an
    object that is not among the sentences of the forward pass, and a new
    label never has the value "O" but always a class of the label
    dictionary. *)
Theorem add_predictions_only_adds (self : DefaultClassifier.t)
    (return_probabilities_for_all_classes : bool) (label_name : string)
    (out : DefaultClassifier.forward_output) (h h' : heap) :
  DefaultClassifier.add_predictions sigmoid softmax self
    return_probabilities_for_all_classes label_name out h = Ok h' →
  ∀ o t, ∃ new,
    get_labels h' o t = get_labels h o t ++ new
    ∧ (t ≠ label_name → new = [])
    ∧ (o ∉ DefaultClassifier.sentences out → new = [])
    ∧ (∀ l, l ∈ new →
         value l ≠ "O"
         ∧ value l ∈ Dictionary.get_items (DefaultClassifier.label_dictionary self))
    ∧ num_tokens (h' o) = num_tokens (h o).
Proof.
  intros (calls & -> & Hcalls)%add_predictions_attached o t.
  rewrite Forall_forall in Hcalls.
  destruct (decide (t = label_name)) as [->|Ht].
  - exists (snd <$> filter (λ c, c.1 = o) calls).
    split; [apply get_labels_attach_all|]. split; [done|]. split; [|split].
    + intros Ho. rewrite (filter_none (λ c, c.1 = o) calls); [done|].
      intros c Hc Heq. apply Hcalls in Hc as [Hin _]. by rewrite Heq in Hin.
    + intros l ([o' l'] & -> & [_ Hc]%list_elem_of_filter)%list_elem_of_fmap.
      by apply Hcalls in Hc as (_ & ? & ?).
    + apply num_tokens_attach_all.
  - exists []. rewrite app_nil_r.
    split; [by apply get_labels_attach_all_other|].
    split; [done|]. split; [done|]. split; [by intros l ?%elem_of_nil|].
    apply num_tokens_attach_all.
Qed.

Lemma predict_batch_frame (self : DefaultClassifier.t) (ret : bool)
    (label_name : string) (return_loss : bool) (batch : list loc)
    (st st' : DefaultClassifier.predict_state) (o : loc) (t : string) :
  t ≠ label_name →
  DefaultClassifier.predict_batch sigmoid softmax BCEWithLogitsLoss CrossEntropyLoss
    forward_pass self ret label_name return_loss batch st = Ok st' →
  get_labels (DefaultClassifier.objects st') o t
  = get_labels (DefaultClassifier.objects st) o t
  ∧ num_tokens (DefaultClassifier.objects st' o)
    = num_tokens (DefaultClassifier.objects st o).
Proof.
  intros Ht. unfold DefaultClassifier.predict_batch.
  destruct batch as [|sentence batch]; [by intros [= <-]|].
  set (h1 := foldl (λ h sentence, remove_labels sentence label_name h)
               (DefaultClassifier.objects st) (sentence :: batch)).
  assert (get_labels h1 o t = get_labels (DefaultClassifier.objects st) o t
          ∧ num_tokens (h1 o) = num_tokens (DefaultClassifier.objects st o)) as [H1 H2].
  { split; [|apply num_tokens_remove_labels]. subst h1.
    apply (foldl_invariant
             (λ h', get_labels h' o t = get_labels (DefaultClassifier.objects st) o t));
      [|done].
    intros h' o' <-. by apply get_labels_remove_labels_other. }
  intros (out & _ & Hrest)%bind_Ok.
  destruct (if return_loss then _ else _) as [loss count].
  apply bind_Ok in Hrest as (h2 & Hh2 & Hrest). injection Hrest as <-. cbn.
  case_decide; [|by injection Hh2 as <-].
  apply add_predictions_attached in Hh2 as (calls & -> & _).
  by rewrite get_labels_attach_all_other, num_tokens_attach_all.
Qed.

(** X15: [predict] only ever changes labels of the label type it predicts:
    when it returns, every object has the labels of every other type (the
    gold labels among them) and the number of tokens it had before. *)
Theorem predict_keeps_other_labels (self : DefaultClassifier.t) (h h' : heap)
    (arg : DefaultClassifier.predict_arg) (mini_batch_size : nat)
    (return_probabilities_for_all_classes : bool) (label_name : option string)
    (return_loss : bool) (r : DefaultClassifier.predict_result) :
  DefaultClassifier.predict sigmoid softmax BCEWithLogitsLoss CrossEntropyLoss
    forward_pass self h arg mini_batch_size return_probabilities_for_all_classes
    label_name return_loss = Ok (h', r) →
  ∀ o t,
    t ≠ default (default "label" (DefaultClassifier.label_type self)) label_name →
    get_labels h' o t = get_labels h o t
    ∧ num_tokens (h' o) = num_tokens (h o).
Proof.
  unfold DefaultClassifier.predict. intros Hpredict o t Ht.
  destruct (match arg with
            | DefaultClassifier.OnePoint sentence => _
            | DefaultClassifier.Points sentences => _
            end); [by injection Hpredict as <-|].
  case_decide; [by injection Hpredict as <-|].
  case_decide; [done|].
  apply bind_Ok in Hpredict as (st & Hloop & Hst). injection Hst as <- _.
  revert Hloop.
  apply (for_each_invariant
           (λ st, get_labels (DefaultClassifier.objects st) o t = get_labels h o t
                  ∧ num_tokens (DefaultClassifier.objects st o) = num_tokens (h o)));
    [|done].
  intros batch s s' Hstep [<- <-]. by eapply predict_batch_frame.
Qed.

End FrameProperties.

Lemma add_predictions_only_adds_witness :
  ∃ h' new,
    DefaultClassifier.add_predictions id id multi_label_classifier false
      "predicted" per_and_loc_scores one_gold_label = Ok h'
    ∧ get_labels h' 0 "gold" = get_labels one_gold_label 0 "gold" ++ new
    ∧ new = [].
Proof.
  eexists.
  assert (DefaultClassifier.add_predictions id id multi_label_classifier false
            "predicted" per_and_loc_scores one_gold_label = Ok _) as Hrun
    by reflexivity.
  destruct (add_predictions_only_adds id id multi_label_classifier false
              "predicted" per_and_loc_scores one_gold_label _ Hrun 0 "gold")
    as (new & Hlabels & Hother & _).
  exists new. split; [exact Hrun|]. split; [exact Hlabels|].
  apply Hother. discriminate.
Defined.

Lemma predict_keeps_other_labels_witness :
  ∃ h' r,
    DefaultClassifier.predict id id (λ _ _ _, 0%Qc) (λ _ _ _, 0%Qc)
      (λ _ _, Ok per_and_loc_scores) multi_label_classifier one_gold_label
      (DefaultClassifier.Points [0]) 32 false (Some "predicted") true = Ok (h', r)
    ∧ get_labels h' 0 "gold" = get_labels one_gold_label 0 "gold".
Proof.
  eexists _, _. split; [reflexivity|].
  eapply (predict_keeps_other_labels id id (λ _ _ _, 0%Qc) (λ _ _ _, 0%Qc)
            (λ _ _, Ok per_and_loc_scores) multi_label_classifier one_gold_label _
            (DefaultClassifier.Points [0]) 32 false (Some "predicted") true).
  - reflexivity.
  - discriminate.
Defined.

(** ** DefaultClassifier.predict: all probabilities in single-label mode *)

Lemma fmap_bind_list {A B C : Type} (g : B → C) (f : A → list B) (l : list A) :
  g <$> (l ≫= f) = l ≫= (λ x, g <$> f x).
Proof.
  induction l as [|x l IH]; [done|]. cbn. by rewrite fmap_app, IH.
Qed.

Lemma bind_ext_in {A B : Type} (f g : A → list B) (l : list A) :
  (∀ x, x ∈ l → f x = g x) → l ≫= f = l ≫= g.
Proof.
  induction l as [|x l IH]; intros Hfg; [done|]. cbn.
  rewrite Hfg by constructor. rewrite IH; [done|].
  intros y Hy. apply Hfg. by constructor.
Qed.

Section AllProbabilities.

Context (sigmoid : Qc → Qc) (softmax : list Qc → list Qc).

Lemma label_point_all_calls (self : DefaultClassifier.t) (label_name : string)
    (scores : DefaultClassifier.tensor) (s_idx : nat) (sentence : loc)
    (cand : Label) (h : heap) :
  keeps_length softmax →
  DefaultClassifier.size1 scores
    ≤ Dictionary.len (DefaultClassifier.label_dictionary self) →
  s_idx < DefaultClassifier.size0 scores →
  DefaultClassifier.label_point_all self label_name
    (DefaultClassifier.softmaxed softmax scores) s_idx sentence cand h
  = Ok (attach_all label_name
          (pair sentence <$> all_probability_labels softmax self scores s_idx cand) h).
Proof.
  intros Hsoftmax Hclasses Hrow.
  unfold DefaultClassifier.label_point_all, all_probability_labels.
  rewrite fmap_bind_list. apply for_each_attach. intros l_idx h' [_ Hl]%elem_of_seq.
  cbn in Hl. unfold Dictionary.get_item_for_index.
  destruct (lookup_lt_is_Some_2
              (Dictionary.idx2item (DefaultClassifier.label_dictionary self)) l_idx)
    as [v Hv]; [unfold Dictionary.len in Hclasses; lia|].
  rewrite Hv, (softmaxed_lookup softmax scores s_idx l_idx Hsoftmax Hl).
  cbn [mbind result_bind rbind]. case_decide; [done|].
  unfold DefaultClassifier.item. by rewrite decide_True.
Qed.

(** X16: in single-label mode with all probabilities the labelling of a
    batch returns, and a point that occurs once among the sentences and had
    no label of this type ends up with one label per class other than "O",
    in the order of the classes, each with the softmax probability of its
    class: the entry of the class in the softmax of the scores of the
    point. *)
Theorem all_probabilities_attached (self : DefaultClassifier.t)
    (label_name : string) (out : DefaultClassifier.forward_output) (h : heap) :
  keeps_length softmax →
  DefaultClassifier.multi_label self = false →
  DefaultClassifier.size1 (DefaultClassifier.scores out)
    ≤ Dictionary.len (DefaultClassifier.label_dictionary self) →
  length (zip (DefaultClassifier.sentences out) (DefaultClassifier.label_candidates out))
    ≤ DefaultClassifier.size0 (DefaultClassifier.scores out) →
  ∃ h',
    DefaultClassifier.add_predictions sigmoid softmax self true label_name out h
    = Ok h'
    ∧ ∀ s_idx sentence label_candidate,
        DefaultClassifier.sentences out !! s_idx = Some sentence →
        DefaultClassifier.label_candidates out !! s_idx = Some label_candidate →
        (∀ j, DefaultClassifier.sentences out !! j = Some sentence → j = s_idx) →
        get_labels h sentence label_name = [] →
        get_labels h' sentence label_name
        = all_probability_labels softmax self (DefaultClassifier.scores out)
            s_idx label_candidate.
Proof.
  intros Hsoftmax Hsingle Hclasses Hrows.
  set (calls := λ p : nat * (loc * Label),
         pair p.2.1 <$> all_probability_labels softmax self
                          (DefaultClassifier.scores out) p.1 p.2.2).
  set (rounds := enumerate (zip (DefaultClassifier.sentences out)
                              (DefaultClassifier.label_candidates out))).
  exists (attach_all label_name (rounds ≫= calls) h). split.
  { unfold DefaultClassifier.add_predictions. rewrite Hsingle.
    apply for_each_attach. intros [s_idx [sentence cand]] h' Hp%elem_of_enumerate.
    cbn [fst snd]. apply label_point_all_calls; [done..|].
    apply lookup_lt_Some in Hp. lia. }
  intros s_idx sentence cand Hs Hc Hunique Hnone.
  rewrite get_labels_attach_all, Hnone, app_nil_l.
  assert (filter (λ call, call.1 = sentence) (rounds ≫= calls)
          = calls (s_idx, (sentence, cand))) as ->.
  { apply (calls_of_single_round rounds calls (λ p, p.2.1) s_idx
             (s_idx, (sentence, cand))).
    - intros p call (l & -> & _)%list_elem_of_fmap. done.
    - unfold rounds, enumerate. rewrite list_lookup_imap.
      assert (zip (DefaultClassifier.sentences out)
                (DefaultClassifier.label_candidates out) !! s_idx
              = Some (sentence, cand)) as -> by (by apply lookup_zip_Some).
      done.
    - intros j [j' [sentence' cand']] Hj Heq. cbn in Heq. subst sentence'.
      unfold rounds, enumerate in Hj. rewrite list_lookup_imap in Hj.
      destruct (zip _ _ !! j) as [[s c]|] eqn:Hz; [|done].
      injection Hj as <- -> ->. apply lookup_zip_Some in Hz as [Hz _].
      by apply Hunique. }
  unfold calls. cbn [fst snd]. rewrite <- list_fmap_compose. apply list_fmap_id.
Qed.

End AllProbabilities.

Lemma all_probabilities_attached_witness :
  ∃ h',
    DefaultClassifier.add_predictions id id single_label_classifier true
      "predicted" per_and_loc_scores one_gold_label = Ok h'
    ∧ get_labels h' 0 "predicted"
      = [spawn candidate "PER" (Q2Qc (6 # 10)); spawn candidate "LOC" (Q2Qc (7 # 10))].
Proof.
  destruct (all_probabilities_attached id id single_label_classifier
              "predicted" per_and_loc_scores one_gold_label)
    as (h' & Hrun & Hall).
  - intros xs. reflexivity.
  - reflexivity.
  - vm_compute. lia.
  - vm_compute. lia.
  - exists h'. split; [exact Hrun|].
    rewrite (Hall 0 0 candidate); [reflexivity|reflexivity|reflexivity| |reflexivity].
    intros [|j] Hj; [reflexivity|discriminate Hj].
Defined.

(** ** DefaultClassifier.predict: labels of an earlier prediction *)

Section StaleLabels.

Context (sigmoid : Qc → Qc) (softmax : list Qc → list Qc)
        (BCEWithLogitsLoss : option (list Qc) → DefaultClassifier.tensor → list (list Qc) → Qc)
        (CrossEntropyLoss : option (list Qc) → DefaultClassifier.tensor → list nat → Qc)
        (forward_pass : heap → list loc → result DefaultClassifier.forward_output).

(** X17: after a batch has been processed, the labels of the predicted type
    on a sentence of the batch are the newly added ones only, labels of an
    earlier prediction are gone, also when nothing is predicted; on any
    other object the new labels come after those it had.  Without label
    candidates nothing is added at all. *)
Theorem predict_batch_replaces_labels (self : DefaultClassifier.t)
    (return_probabilities_for_all_classes : bool) (label_name : string)
    (return_loss : bool) (batch : list loc)
    (st st' : DefaultClassifier.predict_state) :
  batch ≠ [] →
  DefaultClassifier.predict_batch sigmoid softmax BCEWithLogitsLoss CrossEntropyLoss
    forward_pass self return_probabilities_for_all_classes label_name return_loss
    batch st = Ok st' →
  ∃ out calls,
    forward_pass
      (foldl (λ h sentence, remove_labels sentence label_name h)
         (DefaultClassifier.objects st) batch) batch = Ok out
    ∧ Forall (predicted_call self (DefaultClassifier.sentences out)) calls
    ∧ (DefaultClassifier.label_candidates out = [] → calls = [])
    ∧ ∀ o,
        get_labels (DefaultClassifier.objects st') o label_name
        = (if decide (o ∈ batch) then []
           else get_labels (DefaultClassifier.objects st) o label_name)
          ++ (snd <$> filter (λ call, call.1 = o) calls).
Proof.
  intros Hbatch. unfold DefaultClassifier.predict_batch.
  destruct batch as [|sentence batch]; [done|].
  set (h1 := foldl (λ h sentence, remove_labels sentence label_name h)
               (DefaultClassifier.objects st) (sentence :: batch)).
  intros (out & Hout & Hrest)%bind_Ok. exists out.
  destruct (if return_loss then _ else _) as [loss count].
  apply bind_Ok in Hrest as (h2 & Hh2 & Hrest). injection Hrest as <-. cbn.
  case_decide as Hcand.
  - apply add_predictions_attached in Hh2 as (calls & -> & Hcalls).
    exists calls. split; [done|]. split; [done|]. split.
    + intros Hnil. rewrite Hnil in Hcand. cbn in Hcand. lia.
    + intros o. rewrite get_labels_attach_all. subst h1.
      by rewrite get_labels_cleared.
  - injection Hh2 as <-. exists []. split; [done|]. split; [constructor|].
    split; [done|]. intros o. rewrite app_nil_r. subst h1.
    by rewrite get_labels_cleared.
Qed.

End StaleLabels.

Lemma predict_batch_replaces_labels_witness :
  ∃ st',
    DefaultClassifier.predict_batch id id (λ _ _ _, 0%Qc) (λ _ _ _, 0%Qc)
      (λ _ _, Ok no_candidates) single_label_classifier false "predicted" false
      [0] (DefaultClassifier.mkPredict stale_prediction 0%Qc 0) = Ok st'
    ∧ get_labels stale_prediction 0 "predicted"
      = [mkLabel "Sentence" "LOC" (Q2Qc (9 # 10)) false]
    ∧ get_labels (DefaultClassifier.objects st') 0 "predicted" = [].
Proof.
  exists (DefaultClassifier.mkPredict
            (remove_labels 0 "predicted" stale_prediction) 0%Qc 0).
  split; [reflexivity|]. split; [reflexivity|].
  destruct (predict_batch_replaces_labels id id (λ _ _ _, 0%Qc) (λ _ _ _, 0%Qc)
              (λ _ _, Ok no_candidates) single_label_classifier false "predicted"
              false [0] (DefaultClassifier.mkPredict stale_prediction 0%Qc 0)
              (DefaultClassifier.mkPredict
                 (remove_labels 0 "predicted" stale_prediction) 0%Qc 0))
    as (out & calls & Hout & _ & Hnil & Hlabels); [discriminate|reflexivity|].
  injection Hout as <-. rewrite Hlabels, Hnil; reflexivity.
Defined.

(** ** DefaultClassifier.predict: the order of the sentences *)

Lemma fmap_insert_desc {A B : Type} (f : A → B) (key : B → nat) (x : A) (l : list A) :
  f <$> insert_desc (λ a, key (f a)) x l = insert_desc key (f x) (f <$> l).
Proof.
  induction l as [|y l IH]; [done|]. cbn. case_decide; [done|].
  cbn. by rewrite IH.
Qed.

Lemma fmap_sorted_desc {A B : Type} (f : A → B) (key : B → nat) (l : list A) :
  f <$> sorted_desc (λ a, key (f a)) l = sorted_desc key (f <$> l).
Proof.
  unfold sorted_desc. induction l as [|x l IH]; [done|]. cbn.
  by rewrite fmap_insert_desc, IH.
Qed.

Lemma fmap_lookup_seq {A : Type} (d : A) (l : list A) :
  (λ k, default d (l !! k)) <$> seq 0 (length l) = l.
Proof.
  apply list_eq. intros i. rewrite list_lookup_fmap.
  destruct (l !! i) as [x|] eqn:Hi.
  - rewrite lookup_seq_lt by (by eapply lookup_lt_Some). cbn. by rewrite Hi.
  - rewrite lookup_seq_ge; [done|]. by apply lookup_ge_None.
Qed.

(** X18: the sentences [predict] works on, reordered through the sorted
    list of their indices, are the sentences it was given: each as often as
    before, the longest first, and sentences of the same length in the order
    they came in.  This is the list the batches are taken from. *)
Theorem reordered_sentences_longest_first (h : heap) (sentences : list loc) :
  reordered_sentences h sentences
  = sorted_desc (λ sentence, num_tokens (h sentence)) sentences
  ∧ reordered_sentences h sentences ≡ₚ sentences
  ∧ StronglySorted (λ a b, num_tokens (h b) ≤ num_tokens (h a))
      (reordered_sentences h sentences)
  ∧ ∀ n, filter (λ sentence, num_tokens (h sentence) = n)
           (reordered_sentences h sentences)
         = filter (λ sentence, num_tokens (h sentence) = n) sentences.
Proof.
  assert (reordered_sentences h sentences
          = sorted_desc (λ sentence, num_tokens (h sentence)) sentences) as ->.
  { unfold reordered_sentences, rev_order_len_index.
    rewrite (fmap_sorted_desc (λ k, default 0 (sentences !! k))
               (λ sentence, num_tokens (h sentence))).
    by rewrite fmap_lookup_seq. }
  split; [done|]. split; [apply sorted_desc_Permutation|].
  split; [apply (sorted_desc_sorted (λ sentence, num_tokens (h sentence)))|].
  intros n. apply (sorted_desc_stable (λ sentence, num_tokens (h sentence))).
Qed.

(** ** Classifier.evaluate: the main score *)

Section MainScore.

Context (predict : heap → list loc → result (heap * Classifier.predict_return))
        (printout : bool → string → heap → loc → heap * list string)
        (sklearn_classification_report :
           list (list nat) → list (list nat) → list string → list nat → string)
        (sklearn_classification_report_dict :
           list (list nat) → list (list nat) → list string → list nat
           → gmap string (gmap string Qc))
        (sklearn_accuracy_score : list (list nat) → list (list nat) → Qc)
        (round4 : Qc → Qc)
        (format_float : Qc → string).

(** X19: when more than one key has been recorded and the report has its
    micro and macro average rows, the call depends on the main evaluation
    metric only through one lookup in the report: an entry that is there is
    returned as the main score as it is, not rounded, together with the
    report, and nothing is logged; a group or a metric that the report does
    not have makes [evaluate] fail with a [KeyError]. *)
Theorem main_score_is_report_entry (h : heap) (data_points : list loc)
    (gold_label_type : string) (out_path : option string) (mini_batch_size : nat)
    (main_evaluation_metric : string * string) (exclude_labels : list string)
    (dict : option Dictionary.t) (st : Classifier.loop_state)
    (micro macro : gmap string Qc) (precision recall micro_f macro_f : Qc) :
  let found := Classifier.found st in
  let report :=
    sklearn_classification_report_dict (Classifier.y_true found)
      (Classifier.y_pred found) (Classifier.targets exclude_labels found).*1
      (Classifier.targets exclude_labels found).*2 in
  let call :=
    Classifier.evaluate predict printout sklearn_classification_report
      sklearn_classification_report_dict sklearn_accuracy_score round4
      format_float h data_points gold_label_type out_path mini_batch_size
      main_evaluation_metric exclude_labels dict in
  Classifier.run_batches predict printout gold_label_type out_path
    mini_batch_size dict h data_points = Ok st →
  1 < length (Classifier.all_true_values found)
      + length (Classifier.all_predicted_values found) →
  report !! "micro avg" = Some micro →
  report !! "macro avg" = Some macro →
  micro !! "precision" = Some precision →
  micro !! "recall" = Some recall →
  micro !! "f1-score" = Some micro_f →
  macro !! "f1-score" = Some macro_f →
  (∀ group main,
     report !! main_evaluation_metric.1 = Some group →
     group !! main_evaluation_metric.2 = Some main →
     ∃ o, call = Ok o
          ∧ Classifier.logged o = []
          ∧ Result.main_score (Classifier.returned o) = main
          ∧ Result.classification_report (Classifier.returned o) = report
          ∧ Result.log_line (Classifier.returned o)
            = format_float (round4 precision) +:+ tab
              +:+ format_float (round4 recall) +:+ tab
              +:+ format_float (round4 micro_f) +:+ tab
              +:+ format_float
                    (round4 (sklearn_accuracy_score (Classifier.y_true found)
                               (Classifier.y_pred found))))
  ∧ (report !! main_evaluation_metric.1 = None →
       call = Raise (KeyError main_evaluation_metric.1))
  ∧ (∀ group,
       report !! main_evaluation_metric.1 = Some group →
       group !! main_evaluation_metric.2 = None →
       call = Raise (KeyError main_evaluation_metric.2)).
Proof.
  intros found report call Hrun Hmany Hmicro Hmacro Hp Hr Hf Hm.
  subst call. unfold Classifier.evaluate. rewrite Hrun. cbn [mbind result_bind rbind].
  unfold Classifier.compute_numbers. fold found. rewrite decide_True by done.
  fold report. unfold Classifier.report_entry.
  rewrite Hmicro, Hmacro, Hp, Hr, Hf, Hm. cbn [mbind result_bind rbind].
  split; [|split].
  - intros group main -> ->. cbn. eexists. split; [reflexivity|]. done.
  - by intros ->.
  - by intros group -> ->.
Qed.

End MainScore.

Lemma main_score_is_report_entry_witness :
  Classifier.evaluate predict_loc (λ _ _ h _, (h, []))
    (λ _ _ _ _, EmptyString) (λ _ _ _ _, averages_only) (λ _ _, 0%Qc) id (λ _, "0.0")
    two_points [0] "gold" None 32 ("LOC", "f1-score") [] None
  = Raise (KeyError "LOC").
Proof.
  eapply (main_score_is_report_entry predict_loc (λ _ _ h _, (h, []))
            (λ _ _ _ _, EmptyString) (λ _ _ _ _, averages_only) (λ _ _, 0%Qc) id
            (λ _, "0.0") two_points [0] "gold" None 32 ("LOC", "f1-score") [] None);
    [reflexivity| vm_compute; lia| reflexivity..].
Defined.

(** ** Classifier.evaluate: the output file *)

Section OutputFile.

Context (predict : heap → list loc → result (heap * Classifier.predict_return))
        (printout : bool → string → heap → loc → heap * list string)
        (sklearn_classification_report :
           list (list nat) → list (list nat) → list string → list nat → string)
        (sklearn_classification_report_dict :
           list (list nat) → list (list nat) → list string → list nat
           → gmap string (gmap string Qc))
        (sklearn_accuracy_score : list (list nat) → list (list nat) → Qc)
        (round4 : Qc → Qc)
        (format_float : Qc → string).

(** X20: an [out_path] that is the empty string counts as no path at all:
    the call does what it does without [out_path], so the printout is not
    run and nothing is written.  A call that returns has written a file,
    under the path it was given, exactly when a path other than the empty
    string was given. *)
Theorem empty_out_path_writes_nothing (h : heap) (data_points : list loc)
    (gold_label_type : string) (mini_batch_size : nat)
    (main_evaluation_metric : string * string) (exclude_labels : list string)
    (dict : option Dictionary.t) :
  Classifier.evaluate predict printout sklearn_classification_report
    sklearn_classification_report_dict sklearn_accuracy_score round4
    format_float h data_points gold_label_type (Some EmptyString) mini_batch_size
    main_evaluation_metric exclude_labels dict
  = Classifier.evaluate predict printout sklearn_classification_report
      sklearn_classification_report_dict sklearn_accuracy_score round4
      format_float h data_points gold_label_type None mini_batch_size
      main_evaluation_metric exclude_labels dict
  ∧ ∀ out_path o,
      Classifier.evaluate predict printout sklearn_classification_report
        sklearn_classification_report_dict sklearn_accuracy_score round4
        format_float h data_points gold_label_type out_path mini_batch_size
        main_evaluation_metric exclude_labels dict = Ok o →
      (Classifier.written o = None
       ↔ out_path = None ∨ out_path = Some EmptyString)
      ∧ ∀ path, out_path = Some path → path ≠ EmptyString →
          ∃ content, Classifier.written o = Some (path, content).
Proof.
  split; [reflexivity|].
  intros out_path o. unfold Classifier.evaluate.
  intros (st & _ & Hrest)%bind_Ok.
  apply bind_Ok in Hrest as ([n logged] & _ & Hrest). injection Hrest as <-.
  cbn [Classifier.written]. destruct out_path as [path|]; cbn.
  - case_bool_decide as Hpath; cbn.
    + subst path. split; [split; eauto|]. by intros path [= <-].
    + split.
      * split; [done|]. intros [?|[= ->]]; done.
      * intros path' [= <-] _. eauto.
  - split; [split; eauto|]. by intros path.
Qed.

End OutputFile.

Lemma empty_out_path_writes_nothing_witness :
  ∃ o,
    Classifier.evaluate predict_loc (λ _ _ h _, (h, ["line"]))
      (λ _ _ _ _, EmptyString) (λ _ _ _ _, averages_only) (λ _ _, 0%Qc) id (λ _, "0.0")
      two_points [0] "gold" (Some EmptyString) 32 ("micro avg", "f1-score") [] None
    = Ok o
    ∧ Classifier.written o = None.
Proof.
  destruct (empty_out_path_writes_nothing predict_loc (λ _ _ h _, (h, ["line"]))
              (λ _ _ _ _, EmptyString) (λ _ _ _ _, averages_only) (λ _ _, 0%Qc) id
              (λ _, "0.0") two_points [0] "gold" 32 ("micro avg", "f1-score") [] None)
    as [_ Hwritten].
  eexists. split; [reflexivity|].
  destruct (Hwritten (Some EmptyString) _ eq_refl) as [Hnone _].
  apply Hnone. right. reflexivity.
Defined.
